(** * A relational model of the blog schema and of its data-access helpers

    The development embeds
    - the mapped classes of [models/post.py] and [models/comment.py]
      (and of [models/user.py], see [User]),
    - the helper classes of [examples/crud_operations.py],
    - the DDL exporter of [utils/schema_dump.py],
    - the [pg_dump] drivers of [utils/validate_and_dump.py] and
      [utils/pg_dump_helper.py].

    The storage engine is one that enforces what the column declarations
    say, as the PostgreSQL of [conftest.py] and of the dump scripts does:
    rows in insertion order, integer primary keys drawn from a per-table
    counter, [nullable=False], [unique=True],
    [ForeignKey(..., ondelete='CASCADE')], [default=] and [onupdate=].  The
    SQLite file that [config.py] falls back to checks no foreign key unless
    [PRAGMA foreign_keys] is set, which the repository does not do; what is
    said here of foreign keys is said of an engine that checks them.  A unit
    of work ([db.add], [db.delete] or
    attribute assignment, followed by [db.commit()]) does what the
    relationships of the mapped classes say, and either reaches the store as
    a whole or raises and leaves the store as it was.  The state of the
    session object itself (identity map, a transaction left to roll back) is
    not part of the model, and neither are the limits of [String(n)]
    columns, which engines enforce differently. *)

From Stdlib Require Import ZArith List String Bool Lia Permutation.
Import ListNotations.
Local Open Scope Z_scope.

(* ================================================================= *)
(** ** Mapped classes *)

(** [class User(Base)], [__tablename__ = "users"]. *)
Module User.

(** Modelled from the spec: [models/user.py] is imported by
    [models/__init__.py] but is not among the sources.  The columns are the
    ones section 3 of the specification lists for a User (and the ones
    [conftest.py] and the CRUD tests assign and read): [username] and
    [email] are unique, and the two booleans are nullable columns with a
    default, as [Post.is_published] is. *)
Record t := mk {
  id : Z;
  username : string;
  email : string;
  hashed_password : string;
  full_name : option string;
  bio : option string;
  is_active : option bool;
  is_superuser : option bool;
  created_at : option Z;
  updated_at : option Z
}.

(** [**kwargs] of [UserCRUD.create_user]: every column that is not bound
    by a positional parameter.  [None] stands for a key that is missing or
    whose value is [None]: the mapper leaves both out of the INSERT.
    Keyword arguments that name a relationship are not modelled. *)
Record kwargs := mk_kwargs {
  kw_id : option Z;
  kw_full_name : option string;
  kw_bio : option string;
  kw_is_active : option bool;
  kw_is_superuser : option bool;
  kw_created_at : option Z;
  kw_updated_at : option Z
}.

Definition no_kwargs : kwargs := mk_kwargs None None None None None None None.

(** [**kwargs] of [UserCRUD.update_user], as far as they name a column:
    [Some v] is a key assigned with [setattr(user, key, v)], where [v] is
    [None] or a value of the type of the column, and there is one entry for
    each column.  A key that names a relationship, or no attribute of the
    class, is not a field of the row and has no entry. *)
Record patch := mk_patch {
  set_id : option (option Z);
  set_username : option (option string);
  set_email : option (option string);
  set_hashed_password : option (option string);
  set_full_name : option (option string);
  set_bio : option (option string);
  set_is_active : option (option bool);
  set_is_superuser : option (option bool);
  set_created_at : option (option Z);
  set_updated_at : option (option Z)
}.

Definition no_patch : patch :=
  mk_patch None None None None None None None None None None.
End User.

(** [class Post(Base)], [__tablename__ = "posts"]. *)
Module Post.
Record t := mk {
  id : Z;                        (* Integer, primary_key *)
  title : string;                (* String(200), nullable=False *)
  slug : option string;          (* String(200), unique=True *)
  content : string;              (* Text, nullable=False *)
  summary : option string;       (* Text *)
  is_published : option bool;    (* Boolean, default=False *)
  published_at : option Z;       (* DateTime *)
  view_count : option Z;         (* Integer, default=0 *)
  author_id : Z;                 (* ForeignKey users.id CASCADE, nullable=False *)
  created_at : option Z;         (* DateTime, default=utcnow *)
  updated_at : option Z          (* DateTime, default=utcnow, onupdate=utcnow *)
}.

(** [**kwargs] of [PostCRUD.create_post], as far as they name a column; see
    [User.kwargs]. *)
Record kwargs := mk_kwargs {
  kw_id : option Z;
  kw_slug : option string;
  kw_summary : option string;
  kw_is_published : option bool;
  kw_published_at : option Z;
  kw_view_count : option Z;
  kw_created_at : option Z;
  kw_updated_at : option Z
}.

Definition no_kwargs : kwargs :=
  mk_kwargs None None None None None None None None.

(** [**kwargs] of [PostCRUD.update_post], as far as they name a column; see
    [User.patch].  The relationships are [author], [comments] and [tags]. *)
Record patch := mk_patch {
  set_id : option (option Z);
  set_title : option (option string);
  set_slug : option (option string);
  set_content : option (option string);
  set_summary : option (option string);
  set_is_published : option (option bool);
  set_published_at : option (option Z);
  set_view_count : option (option Z);
  set_author_id : option (option Z);
  set_created_at : option (option Z);
  set_updated_at : option (option Z)
}.

Definition no_patch : patch :=
  mk_patch None None None None None None None None None None None.
End Post.

(** [class Tag(Base)], [__tablename__ = "tags"]. *)
Module Tag.
Record t := mk {
  id : Z;                        (* Integer, primary_key *)
  name : string;                 (* String(50), unique=True, nullable=False *)
  slug : option string;          (* String(50), unique=True *)
  description : option string;   (* Text *)
  created_at : option Z          (* DateTime, default=utcnow *)
}.

(** [**kwargs] of [TagCRUD.create_tag]. *)
Record kwargs := mk_kwargs {
  kw_id : option Z;
  kw_slug : option string;
  kw_description : option string;
  kw_created_at : option Z
}.

Definition no_kwargs : kwargs := mk_kwargs None None None None.
End Tag.

(** [class Comment(Base)], [__tablename__ = "comments"]. *)
Module Comment.
Record t := mk {
  id : Z;                        (* Integer, primary_key *)
  content : string;              (* Text, nullable=False *)
  is_approved : option bool;     (* Boolean, default=True *)
  author_id : Z;                 (* ForeignKey users.id CASCADE, nullable=False *)
  post_id : Z;                   (* ForeignKey posts.id CASCADE, nullable=False *)
  parent_id : option Z;          (* ForeignKey comments.id CASCADE *)
  created_at : option Z;         (* DateTime, default=utcnow *)
  updated_at : option Z          (* DateTime, default=utcnow, onupdate=utcnow *)
}.
End Comment.

(* ================================================================= *)
(** ** The store *)

(** The five tables of [Base.metadata], the counters behind the integer
    primary keys and the clock [datetime.utcnow] reads.  A row of
    [post_tags] is the pair [(post_id, tag_id)]. *)
Record Store := mkStore {
  users : list User.t;
  posts : list Post.t;
  tags : list Tag.t;
  comments : list Comment.t;
  post_tags : list (Z * Z);
  users_id_seq : Z;
  posts_id_seq : Z;
  tags_id_seq : Z;
  comments_id_seq : Z;
  utcnow : Z
}.

(** [sqlalchemy.exc.IntegrityError], with the constraint that was violated,
    and [sqlalchemy.exc.DataError], with what the database reports. *)
Inductive DbError :=
| IntegrityError (constraint : string)
| DataError (message : string).

Inductive outcome (A : Type) :=
| Ok (a : A)
| Raise (e : DbError).
Arguments Ok {A} a.
Arguments Raise {A} e.

(** A computation against a [Session]: it returns or raises, and leaves a
    store behind. *)
Definition Session (A : Type) : Type := Store -> outcome A * Store.

Definition ret {A} (a : A) : Session A := fun s => (Ok a, s).

Definition bind {A B} (m : Session A) (k : A -> Session B) : Session B :=
  fun s =>
    match m s with
    | (Ok a, s') => k a s'
    | (Raise e, s') => (Raise e, s')
    end.

Notation "x <- m ;; k" := (bind m (fun x => k))
  (at level 61, m at next level, right associativity).
Notation "m ;;; k" := (bind m (fun _ => k))
  (at level 61, right associativity).

(** [db.query(Model)]: the rows of a table. *)
Definition query {R} (table : Store -> list R) : Session (list R) :=
  fun s => (Ok (table s), s).

(** [Query.first()]. *)
Definition first {R} (rows : list R) : option R := hd_error rows.

(** [OFFSET skip LIMIT limit] on the rows of a result. *)
Definition offset_limit {R} (skip limit : nat) (rows : list R) : list R :=
  firstn limit (skipn skip rows).

(** [Query.offset(skip).limit(limit).all()]: [skip] and [limit] are Python
    integers and reach the statement as they are.  PostgreSQL refuses a
    negative OFFSET or LIMIT; SQLite reads them otherwise, and the model
    follows PostgreSQL there. *)
Definition paginate {R} (skip limit : Z) (rows : list R)
  : outcome (list R) :=
  if skip <? 0 then Raise (DataError "OFFSET must not be negative")
  else if limit <? 0 then Raise (DataError "LIMIT must not be negative")
  else Ok (offset_limit (Z.to_nat skip) (Z.to_nat limit) rows).

Definition mem (i : Z) (l : list Z) : bool := existsb (Z.eqb i) l.

Definition opt_mem (o : option Z) (l : list Z) : bool :=
  match o with
  | Some i => mem i l
  | None => false
  end.

Definition opt_eqb (o : option Z) (i : Z) : bool :=
  match o with
  | Some j => j =? i
  | None => false
  end.

Definition str_opt_eqb (o : option string) (v : string) : bool :=
  match o with
  | Some w => String.eqb w v
  | None => false
  end.

Definition is_none {A} (o : option A) : bool :=
  match o with
  | Some _ => false
  | None => true
  end.

(** A column [default=]: used when the INSERT carries no value. *)
Definition default {A} (d : A) (o : option A) : option A :=
  match o with
  | Some v => Some v
  | None => Some d
  end.

(** [setattr(obj, key, value)] for a key that may be missing. *)
Definition assign {A} (old : A) (o : option A) : A :=
  match o with
  | Some v => v
  | None => old
  end.

(* ================================================================= *)
(** ** Units of work *)

Definition with_users (us : list User.t) (seq : Z) (s : Store) : Store :=
  mkStore us (posts s) (tags s) (comments s) (post_tags s)
          seq (posts_id_seq s) (tags_id_seq s) (comments_id_seq s) (utcnow s).

Definition with_posts (ps : list Post.t) (seq : Z) (s : Store) : Store :=
  mkStore (users s) ps (tags s) (comments s) (post_tags s)
          (users_id_seq s) seq (tags_id_seq s) (comments_id_seq s) (utcnow s).

Definition with_tags (ts : list Tag.t) (seq : Z) (s : Store) : Store :=
  mkStore (users s) (posts s) ts (comments s) (post_tags s)
          (users_id_seq s) (posts_id_seq s) seq (comments_id_seq s) (utcnow s).

Definition with_comments (cs : list Comment.t) (seq : Z) (s : Store) : Store :=
  mkStore (users s) (posts s) (tags s) cs (post_tags s)
          (users_id_seq s) (posts_id_seq s) (tags_id_seq s) seq (utcnow s).

Definition with_post_tags (pts : list (Z * Z)) (s : Store) : Store :=
  mkStore (users s) (posts s) (tags s) (comments s) pts
          (users_id_seq s) (posts_id_seq s) (tags_id_seq s) (comments_id_seq s)
          (utcnow s).

(** The primary key of an INSERT: the value the object carries, or the next
    value of the table's counter, which then advances. *)
Definition pk (explicit : option Z) (seq : Z) : Z :=
  match explicit with
  | Some i => i
  | None => seq
  end.

Definition pk_seq (explicit : option Z) (seq : Z) : Z :=
  match explicit with
  | Some _ => seq
  | None => seq + 1
  end.

Definition has_user (i : Z) (s : Store) : bool :=
  existsb (fun u => User.id u =? i) (users s).

Definition has_post (i : Z) (s : Store) : bool :=
  existsb (fun p => Post.id p =? i) (posts s).

Definition has_tag (i : Z) (s : Store) : bool :=
  existsb (fun t => Tag.id t =? i) (tags s).

Definition has_comment (i : Z) (s : Store) : bool :=
  existsb (fun c => Comment.id c =? i) (comments s).

(** A unique column holds [v] in a row other than the one with key [self]. *)
Definition taken {R} (key : R -> Z) (col : R -> option string)
           (self : Z) (v : option string) (rows : list R) : bool :=
  match v with
  | Some w => existsb (fun r => negb (key r =? self) && str_opt_eqb (col r) w) rows
  | None => false
  end.

Module Db.

(** [user = User(username=..., email=..., hashed_password=..., **kwargs)]
    as the INSERT stores it. *)
Definition new_user (username email password : string) (kw : User.kwargs)
           (seq now : Z) : User.t :=
  User.mk (pk (User.kw_id kw) seq) username email password
          (User.kw_full_name kw) (User.kw_bio kw)
          (default true (User.kw_is_active kw))
          (default false (User.kw_is_superuser kw))
          (default now (User.kw_created_at kw))
          (default now (User.kw_updated_at kw)).

(** [db.add(user); db.commit(); db.refresh(user)].  The INSERT is checked
    against the primary key and the two unique columns of [User.t]. *)
Definition add_user (username email password : string) (kw : User.kwargs)
  : Session User.t :=
  fun s =>
    let user := new_user username email password kw (users_id_seq s) (utcnow s) in
    if has_user (User.id user) s then
      (Raise (IntegrityError "users_pkey"), s)
    else if taken User.id (fun u => Some (User.username u))
                  (User.id user) (Some username) (users s) then
      (Raise (IntegrityError "users_username_key"), s)
    else if taken User.id (fun u => Some (User.email u))
                  (User.id user) (Some email) (users s) then
      (Raise (IntegrityError "users_email_key"), s)
    else
      (Ok user,
       with_users (users s ++ [user])
                  (pk_seq (User.kw_id kw) (users_id_seq s)) s).

Definition new_post (title content : string) (author_id : Z)
           (kw : Post.kwargs) (seq now : Z) : Post.t :=
  Post.mk (pk (Post.kw_id kw) seq) title (Post.kw_slug kw) content
          (Post.kw_summary kw)
          (default false (Post.kw_is_published kw))
          (Post.kw_published_at kw)
          (default 0 (Post.kw_view_count kw))
          author_id
          (default now (Post.kw_created_at kw))
          (default now (Post.kw_updated_at kw)).

Definition add_post (title content : string) (author_id : Z)
           (kw : Post.kwargs) : Session Post.t :=
  fun s =>
    let post := new_post title content author_id kw (posts_id_seq s) (utcnow s) in
    if has_post (Post.id post) s then
      (Raise (IntegrityError "posts_pkey"), s)
    else if taken Post.id Post.slug (Post.id post) (Post.slug post) (posts s) then
      (Raise (IntegrityError "ix_posts_slug"), s)
    else if negb (has_user author_id s) then
      (Raise (IntegrityError "posts_author_id_fkey"), s)
    else
      (Ok post,
       with_posts (posts s ++ [post])
                  (pk_seq (Post.kw_id kw) (posts_id_seq s)) s).

Definition new_tag (name : string) (kw : Tag.kwargs) (seq now : Z) : Tag.t :=
  Tag.mk (pk (Tag.kw_id kw) seq) name (Tag.kw_slug kw)
         (Tag.kw_description kw)
         (default now (Tag.kw_created_at kw)).

Definition add_tag (name : string) (kw : Tag.kwargs) : Session Tag.t :=
  fun s =>
    let tag := new_tag name kw (tags_id_seq s) (utcnow s) in
    if has_tag (Tag.id tag) s then
      (Raise (IntegrityError "tags_pkey"), s)
    else if taken Tag.id (fun t => Some (Tag.name t))
                  (Tag.id tag) (Some name) (tags s) then
      (Raise (IntegrityError "ix_tags_name"), s)
    else if taken Tag.id Tag.slug (Tag.id tag) (Tag.slug tag) (tags s) then
      (Raise (IntegrityError "ix_tags_slug"), s)
    else
      (Ok tag,
       with_tags (tags s ++ [tag])
                 (pk_seq (Tag.kw_id kw) (tags_id_seq s)) s).

Definition new_comment (content : string) (author_id post_id : Z)
           (parent_id : option Z) (seq now : Z) : Comment.t :=
  Comment.mk seq content (Some true) author_id post_id parent_id
             (Some now) (Some now).

Definition add_comment (content : string) (author_id post_id : Z)
           (parent_id : option Z) : Session Comment.t :=
  fun s =>
    let comment :=
      new_comment content author_id post_id parent_id
                  (comments_id_seq s) (utcnow s) in
    if has_comment (Comment.id comment) s then
      (Raise (IntegrityError "comments_pkey"), s)
    else if negb (has_user author_id s) then
      (Raise (IntegrityError "comments_author_id_fkey"), s)
    else if negb (has_post post_id s) then
      (Raise (IntegrityError "comments_post_id_fkey"), s)
    else if match parent_id with
            | Some p => negb (has_comment p s)
            | None => false
            end then
      (Raise (IntegrityError "comments_parent_id_fkey"), s)
    else
      (Ok comment,
       with_comments (comments s ++ [comment]) (comments_id_seq s + 1) s).

(** *** Assignment and UPDATE *)

(** A [nullable=False] column after [setattr]: [None] when it was
    assigned [None]. *)
Definition not_null {A} (old : A) (o : option (option A)) : option A :=
  match o with
  | None => Some old
  | Some (Some v) => Some v
  | Some None => None
  end.

Definition opt_Z_eqb (a b : option Z) : bool :=
  match a, b with
  | Some x, Some y => x =? y
  | None, None => true
  | _, _ => false
  end.

(** [for key, value in kwargs.items(): setattr(user, key, value)]. *)
Definition assign_user (kw : User.patch) (u : User.t) : option User.t :=
  match not_null (User.id u) (User.set_id kw),
        not_null (User.username u) (User.set_username kw),
        not_null (User.email u) (User.set_email kw),
        not_null (User.hashed_password u) (User.set_hashed_password kw) with
  | Some i, Some un, Some em, Some pw =>
      Some (User.mk i un em pw
                    (assign (User.full_name u) (User.set_full_name kw))
                    (assign (User.bio u) (User.set_bio kw))
                    (assign (User.is_active u) (User.set_is_active kw))
                    (assign (User.is_superuser u) (User.set_is_superuser kw))
                    (assign (User.created_at u) (User.set_created_at kw))
                    (assign (User.updated_at u) (User.set_updated_at kw)))
  | _, _, _, _ => None
  end.

Definition assign_post (kw : Post.patch) (p : Post.t) : option Post.t :=
  match not_null (Post.id p) (Post.set_id kw),
        not_null (Post.title p) (Post.set_title kw),
        not_null (Post.content p) (Post.set_content kw),
        not_null (Post.author_id p) (Post.set_author_id kw) with
  | Some i, Some ti, Some co, Some au =>
      Some (Post.mk i ti
                    (assign (Post.slug p) (Post.set_slug kw))
                    co
                    (assign (Post.summary p) (Post.set_summary kw))
                    (assign (Post.is_published p) (Post.set_is_published kw))
                    (assign (Post.published_at p) (Post.set_published_at kw))
                    (assign (Post.view_count p) (Post.set_view_count kw))
                    au
                    (assign (Post.created_at p) (Post.set_created_at kw))
                    (assign (Post.updated_at p) (Post.set_updated_at kw)))
  | _, _, _, _ => None
  end.

(** [comment.content = content]. *)
Definition assign_comment (content : string) (c : Comment.t) : Comment.t :=
  Comment.mk (Comment.id c) content (Comment.is_approved c)
             (Comment.author_id c) (Comment.post_id c) (Comment.parent_id c)
             (Comment.created_at c) (Comment.updated_at c).

(** [onupdate=datetime.utcnow]: an UPDATE that does not itself set
    [updated_at] stamps it with the clock. *)
Definition touch_user (now : Z) (old new : User.t) : User.t :=
  if opt_Z_eqb (User.updated_at new) (User.updated_at old) then
    User.mk (User.id new) (User.username new) (User.email new)
            (User.hashed_password new) (User.full_name new) (User.bio new)
            (User.is_active new) (User.is_superuser new)
            (User.created_at new) (Some now)
  else new.

Definition touch_post (now : Z) (old new : Post.t) : Post.t :=
  if opt_Z_eqb (Post.updated_at new) (Post.updated_at old) then
    Post.mk (Post.id new) (Post.title new) (Post.slug new) (Post.content new)
            (Post.summary new) (Post.is_published new) (Post.published_at new)
            (Post.view_count new) (Post.author_id new) (Post.created_at new)
            (Some now)
  else new.

Definition touch_comment (now : Z) (new : Comment.t) : Comment.t :=
  Comment.mk (Comment.id new) (Comment.content new) (Comment.is_approved new)
             (Comment.author_id new) (Comment.post_id new)
             (Comment.parent_id new) (Comment.created_at new) (Some now).

(** [UPDATE ... SET ... WHERE id = :old]: the row is found by the key it
    was loaded with. *)
Definition replace_row {R} (key : R -> Z) (old : Z) (new : R) (rows : list R)
  : list R :=
  map (fun r => if key r =? old then new else r) rows.

(** A row of [posts] or [comments] holds the key of the user: the foreign
    keys [posts.author_id] and [comments.author_id] have no [onupdate], so
    the database lets no UPDATE take that key away. *)
Definition user_referenced (i : Z) (s : Store) : bool :=
  existsb (fun p => Post.author_id p =? i) (posts s)
  || existsb (fun c => Comment.author_id c =? i) (comments s).

(** The same for a post, with [comments.post_id] and [post_tags.post_id]. *)
Definition post_referenced (i : Z) (s : Store) : bool :=
  existsb (fun c => Comment.post_id c =? i) (comments s)
  || existsb (fun pt => fst pt =? i) (post_tags s).

(** Attribute history: an object whose attributes all compare equal to the
    loaded ones is not dirty, and the commit emits no UPDATE for it. *)
Definition user_eq_dec (a b : User.t) : {a = b} + {a <> b}.
Proof.
  repeat decide equality.
Defined.

Definition post_eq_dec (a b : Post.t) : {a = b} + {a <> b}.
Proof.
  repeat decide equality.
Defined.

(** [setattr] loop, [db.commit()], [db.refresh(user)].  The UPDATE is
    checked as an INSERT is; a new primary key must be free, and the old one
    must not be referenced. *)
Definition commit_user (u : User.t) (kw : User.patch) : Session User.t :=
  fun s =>
    match assign_user kw u with
    | None => (Raise (IntegrityError "users_not_null"), s)
    | Some dirty =>
        if user_eq_dec dirty u then (Ok u, s)
        else
          let row := touch_user (utcnow s) u dirty in
          let moved := negb (User.id row =? User.id u) in
          if moved && has_user (User.id row) s then
            (Raise (IntegrityError "users_pkey"), s)
          else if taken User.id (fun r => Some (User.username r))
                   (User.id u) (Some (User.username row)) (users s) then
            (Raise (IntegrityError "users_username_key"), s)
          else if taken User.id (fun r => Some (User.email r))
                        (User.id u) (Some (User.email row)) (users s) then
            (Raise (IntegrityError "users_email_key"), s)
          else if moved && user_referenced (User.id u) s then
            (Raise (IntegrityError "posts_author_id_fkey"), s)
          else
            (Ok row,
             with_users (replace_row User.id (User.id u) row (users s))
                        (users_id_seq s) s)
    end.

Definition commit_post (p : Post.t) (kw : Post.patch) : Session Post.t :=
  fun s =>
    match assign_post kw p with
    | None => (Raise (IntegrityError "posts_not_null"), s)
    | Some dirty =>
        if post_eq_dec dirty p then (Ok p, s)
        else
          let row := touch_post (utcnow s) p dirty in
          let moved := negb (Post.id row =? Post.id p) in
          if moved && has_post (Post.id row) s then
            (Raise (IntegrityError "posts_pkey"), s)
          else if taken Post.id Post.slug (Post.id p) (Post.slug row) (posts s) then
            (Raise (IntegrityError "ix_posts_slug"), s)
          else if negb (has_user (Post.author_id row) s) then
            (Raise (IntegrityError "posts_author_id_fkey"), s)
          else if moved && post_referenced (Post.id p) s then
            (Raise (IntegrityError "comments_post_id_fkey"), s)
          else
            (Ok row,
             with_posts (replace_row Post.id (Post.id p) row (posts s))
                        (posts_id_seq s) s)
    end.

(** [comment.content = content; db.commit(); db.refresh(comment)]. *)
Definition commit_comment (c : Comment.t) (content : string)
  : Session Comment.t :=
  fun s =>
    if String.eqb content (Comment.content c) then (Ok c, s)
    else
      let row := touch_comment (utcnow s) (assign_comment content c) in
      (Ok row,
       with_comments (replace_row Comment.id (Comment.id c) row (comments s))
                     (comments_id_seq s) s).

(** *** DELETE in the database: [ondelete='CASCADE'] *)

(** [DELETE ... WHERE id IN dead]. *)
Definition delete_rows {R} (key : R -> Z) (dead : list Z) (rows : list R)
  : list R :=
  filter (fun r => negb (mem (key r) dead)) rows.

(** Comments that [comments.parent_id] ties to a deleted comment and that
    are not deleted yet. *)
Definition orphans (cs : list Comment.t) (dead : list Z) : list Comment.t :=
  filter (fun c => opt_mem (Comment.parent_id c) dead
                   && negb (mem (Comment.id c) dead)) cs.

(** The cascade along [comments.parent_id]: rounds of orphaned replies are
    added to the deleted keys until a round finds none. *)
Fixpoint cascade_replies (fuel : nat) (cs : list Comment.t) (dead : list Z)
  : list Z :=
  match fuel with
  | O => dead
  | S fuel' =>
      match orphans cs dead with
      | [] => dead
      | o :: os =>
          cascade_replies fuel' cs (dead ++ map Comment.id (o :: os))
      end
  end.

(** Keys of the posts that go with the users [dead_users]
    ([posts.author_id]), besides the posts [dead_posts] themselves. *)
Definition doomed_posts (dead_users dead_posts : list Z) (s : Store) : list Z :=
  dead_posts
    ++ map Post.id
           (filter (fun p => mem (Post.author_id p) dead_users) (posts s)).

(** Keys of the comments that go with deleted users and posts
    ([comments.author_id], [comments.post_id]) and, from there and from
    [dead_comments], along [comments.parent_id]. *)
Definition doomed_comments (dead_users dead_posts dead_comments : list Z)
           (s : Store) : list Z :=
  cascade_replies
    (S (List.length (comments s))) (comments s)
    (dead_comments
       ++ map Comment.id
              (filter (fun c => mem (Comment.author_id c) dead_users
                                || mem (Comment.post_id c) dead_posts)
                      (comments s))).

(** [DELETE] of the rows with the given keys: the rows go, and so does
    every row a CASCADE foreign key still ties to a row that goes
    ([post_tags.post_id] included). *)
Definition delete_cascade (dead_users dead_posts dead_comments : list Z)
  : Session unit :=
  fun s =>
    let dps := doomed_posts dead_users dead_posts s in
    let dcs := doomed_comments dead_users dps dead_comments s in
    (Ok tt,
     mkStore (delete_rows User.id dead_users (users s))
             (delete_rows Post.id dps (posts s))
             (tags s)
             (delete_rows Comment.id dcs (comments s))
             (filter (fun pt => negb (mem (fst pt) dps)) (post_tags s))
             (users_id_seq s) (posts_id_seq s) (tags_id_seq s)
             (comments_id_seq s) (utcnow s)).

(** *** [db.delete(obj); db.commit()]: the unit of work

    The flush deletes the object and what the delete cascades of its
    relationships reach.  A relationship without a delete cascade, here the
    [replies] backref of [Comment.parent], is de-associated instead: the
    replies of a deleted comment that are not deleted themselves get
    [parent_id = NULL] by an UPDATE that comes before the DELETE.  The
    database then applies its own cascades to the DELETE. *)

(** [Post.comments], [cascade="all, delete-orphan"]: the comments on a post. *)
Definition post_comments (post_id : Z) (s : Store) : list Z :=
  map Comment.id (filter (fun c => Comment.post_id c =? post_id) (comments s)).

(** Modelled from the spec: the relationships [User.posts] and
    [User.comments] of [models/user.py].  A user owns its posts and its
    comments, and deleting the user deletes them. *)
Definition user_posts (user_id : Z) (s : Store) : list Z :=
  map Post.id (filter (fun p => Post.author_id p =? user_id) (posts s)).

(** Modelled from the spec: the relationship [User.comments], see
    [user_posts]. *)
Definition user_comments (user_id : Z) (s : Store) : list Z :=
  map Comment.id
      (filter (fun c => Comment.author_id c =? user_id) (comments s)).

(** [UPDATE comments SET parent_id=NULL, updated_at=<now> WHERE id=<reply>]
    for a reply that outlives its parent. *)
Definition detach (now : Z) (dead : list Z) (c : Comment.t) : Comment.t :=
  if opt_mem (Comment.parent_id c) dead && negb (mem (Comment.id c) dead)
  then Comment.mk (Comment.id c) (Comment.content c) (Comment.is_approved c)
                  (Comment.author_id c) (Comment.post_id c) None
                  (Comment.created_at c) (Some now)
  else c.

Definition flush_delete (dead_users dead_posts dead_comments : list Z)
  : Session unit :=
  fun s =>
    delete_cascade
      dead_users dead_posts dead_comments
      (with_comments (map (detach (utcnow s) dead_comments) (comments s))
                     (comments_id_seq s) s).

Definition delete_user (user : User.t) : Session unit :=
  fun s =>
    let ps := user_posts (User.id user) s in
    let cs :=
      user_comments (User.id user) s
        ++ flat_map (fun p => post_comments p s) ps in
    flush_delete [User.id user] ps cs s.

Definition delete_post (post : Post.t) : Session unit :=
  fun s => flush_delete [] [Post.id post] (post_comments (Post.id post) s) s.

Definition delete_comment (comment : Comment.t) : Session unit :=
  flush_delete [] [] [Comment.id comment].

(** *** The [post_tags] association *)

Definition pair_eqb (a b : Z * Z) : bool :=
  (fst a =? fst b) && (snd a =? snd b).

(** [post.tags.append(tag); db.commit(); db.refresh(post)]: the flush
    inserts an association row for a tag that the loaded collection did not
    hold; the [posts] row is not written. *)
Definition append_tag (post : Post.t) (tag : Tag.t) : Session Post.t :=
  fun s =>
    let row := (Post.id post, Tag.id tag) in
    if existsb (pair_eqb row) (post_tags s) then (Ok post, s)
    else (Ok post, with_post_tags (post_tags s ++ [row]) s).

(** [tag.posts]: the posts that [post_tags] associates with the tag. *)
Definition tag_posts (tag : Tag.t) (s : Store) : list Post.t :=
  filter (fun p => existsb (pair_eqb (Post.id p, Tag.id tag)) (post_tags s))
         (posts s).

End Db.

(* ================================================================= *)
(** ** [examples/crud_operations.py] *)

Module UserCRUD.

Definition create_user (username email password : string)
           (kwargs : User.kwargs) : Session User.t :=
  Db.add_user username email password kwargs.

Definition get_user (user_id : Z) : Session (option User.t) :=
  rows <- query users ;;
  ret (first (filter (fun u => User.id u =? user_id) rows)).

Definition get_user_by_email (email : string) : Session (option User.t) :=
  rows <- query users ;;
  ret (first (filter (fun u => String.eqb (User.email u) email) rows)).

Definition get_users (skip limit : Z) : Session (list User.t) :=
  rows <- query users ;;
  fun s => (paginate skip limit rows, s).

Definition update_user (user_id : Z) (kwargs : User.patch)
  : Session (option User.t) :=
  rows <- query users ;;
  let user := first (filter (fun u => User.id u =? user_id) rows) in
  match user with
  | Some u =>
      u' <- Db.commit_user u kwargs ;;
      ret (Some u')
  | None => ret None
  end.

Definition delete_user (user_id : Z) : Session bool :=
  rows <- query users ;;
  let user := first (filter (fun u => User.id u =? user_id) rows) in
  match user with
  | Some u =>
      Db.delete_user u ;;;
      ret true
  | None => ret false
  end.

End UserCRUD.

Module PostCRUD.

Definition create_post (title content : string) (author_id : Z)
           (kwargs : Post.kwargs) : Session Post.t :=
  Db.add_post title content author_id kwargs.

Definition get_post (post_id : Z) : Session (option Post.t) :=
  rows <- query posts ;;
  ret (first (filter (fun p => Post.id p =? post_id) rows)).

Definition get_posts (skip limit : Z) : Session (list Post.t) :=
  rows <- query posts ;;
  fun s => (paginate skip limit rows, s).

Definition get_posts_by_author (author_id : Z) : Session (list Post.t) :=
  rows <- query posts ;;
  ret (filter (fun p => Post.author_id p =? author_id) rows).

Definition update_post (post_id : Z) (kwargs : Post.patch)
  : Session (option Post.t) :=
  rows <- query posts ;;
  let post := first (filter (fun p => Post.id p =? post_id) rows) in
  match post with
  | Some p =>
      p' <- Db.commit_post p kwargs ;;
      ret (Some p')
  | None => ret None
  end.

Definition delete_post (post_id : Z) : Session bool :=
  rows <- query posts ;;
  let post := first (filter (fun p => Post.id p =? post_id) rows) in
  match post with
  | Some p =>
      Db.delete_post p ;;;
      ret true
  | None => ret false
  end.

Definition add_tag_to_post (post_id tag_id : Z) : Session (option Post.t) :=
  post_rows <- query posts ;;
  let post := first (filter (fun p => Post.id p =? post_id) post_rows) in
  tag_rows <- query tags ;;
  let tag := first (filter (fun t => Tag.id t =? tag_id) tag_rows) in
  match post, tag with
  | Some p, Some t =>
      p' <- Db.append_tag p t ;;
      ret (Some p')
  | _, _ => ret None
  end.

End PostCRUD.

Module CommentCRUD.

Definition create_comment (content : string) (author_id post_id : Z)
           (parent_id : option Z) : Session Comment.t :=
  Db.add_comment content author_id post_id parent_id.

Definition get_comment (comment_id : Z) : Session (option Comment.t) :=
  rows <- query comments ;;
  ret (first (filter (fun c => Comment.id c =? comment_id) rows)).

Definition get_post_comments (post_id : Z) : Session (list Comment.t) :=
  rows <- query comments ;;
  ret (filter (fun c => (Comment.post_id c =? post_id)
                        && is_none (Comment.parent_id c)) rows).

Definition get_comment_replies (parent_id : Z) : Session (list Comment.t) :=
  rows <- query comments ;;
  ret (filter (fun c => opt_eqb (Comment.parent_id c) parent_id) rows).

Definition update_comment (comment_id : Z) (content : string)
  : Session (option Comment.t) :=
  rows <- query comments ;;
  let comment := first (filter (fun c => Comment.id c =? comment_id) rows) in
  match comment with
  | Some c =>
      c' <- Db.commit_comment c content ;;
      ret (Some c')
  | None => ret None
  end.

Definition delete_comment (comment_id : Z) : Session bool :=
  rows <- query comments ;;
  let comment := first (filter (fun c => Comment.id c =? comment_id) rows) in
  match comment with
  | Some c =>
      Db.delete_comment c ;;;
      ret true
  | None => ret false
  end.

End CommentCRUD.

Module TagCRUD.

Definition create_tag (name : string) (kwargs : Tag.kwargs) : Session Tag.t :=
  Db.add_tag name kwargs.

Definition get_tag (tag_id : Z) : Session (option Tag.t) :=
  rows <- query tags ;;
  ret (first (filter (fun t => Tag.id t =? tag_id) rows)).

Definition get_tag_by_name (name : string) : Session (option Tag.t) :=
  rows <- query tags ;;
  ret (first (filter (fun t => String.eqb (Tag.name t) name) rows)).

Definition get_tags : Session (list Tag.t) :=
  query tags.

Definition get_posts_by_tag (tag_id : Z) : Session (list Post.t) :=
  rows <- query tags ;;
  let tag := first (filter (fun t => Tag.id t =? tag_id) rows) in
  match tag with
  | Some t => fun s => (Ok (Db.tag_posts t s), s)
  | None => ret []
  end.

End TagCRUD.

(* ================================================================= *)
(** ** [utils/schema_dump.py] *)

Module SchemaDump.

(** [Column.autoincrement]: ["auto"] unless the declaration says otherwise.
    Only [False] is falsy. *)
Inductive Autoincrement :=
| AutoTrue
| AutoFalse
| AutoAuto
| AutoIgnoreFk.

Definition truthy (a : Autoincrement) : bool :=
  match a with
  | AutoFalse => false
  | _ => true
  end.

Record Column := mkColumn {
  column_name : string;
  autoincrement : Autoincrement;
  column_default : option string     (* [None]: no [default=] *)
}.

Record Index := mkIndex {
  index_name : string
}.

Record Table := mkTable {
  table_name : string;
  columns : list Column;
  indexes : list Index;
  references : list string           (* tables the foreign keys point to *)
}.

(** [metadata.tables], in registration order. *)
Definition MetaData := list Table.

Inductive Dialect :=
| Postgresql
| Mysql
| Sqlite.

(** [dialects.get(dialect_name, postgresql.dialect())]. *)
Definition get_dialect (dialect_name : string) : Dialect :=
  if String.eqb dialect_name "postgresql" then Postgresql
  else if String.eqb dialect_name "mysql" then Mysql
  else if String.eqb dialect_name "sqlite" then Sqlite
  else Postgresql.

(** [sorted(...)] on names. *)
Fixpoint insert_sorted (x : string) (l : list string) : list string :=
  match l with
  | [] => [x]
  | y :: l' => if String.leb x y then x :: l else y :: insert_sorted x l'
  end.

Definition sorted (l : list string) : list string :=
  fold_right insert_sorted [] l.

Fixpoint insert_table (t : Table) (l : list Table) : list Table :=
  match l with
  | [] => [t]
  | u :: l' =>
      if String.leb (table_name t) (table_name u) then t :: l
      else u :: insert_table t l'
  end.

Definition mem_name (x : string) (l : list string) : bool :=
  existsb (String.eqb x) l.

(** A table waits while a table it references, other than itself, is still
    to come. *)
Definition waits (pending : list string) (t : Table) : bool :=
  existsb (fun r => negb (String.eqb r (table_name t)) && mem_name r pending)
          (references t).

(** The library's dependency sort: each round emits, in name order, the
    tables that wait for nothing.  On a cycle the library warns, drops
    foreign keys of the tables in the cycle and sorts again; that order is
    not modelled: here a round that emits nothing leaves the rest in name
    order, and the statements say nothing of the order of tables whose
    foreign keys run in a cycle. *)
Fixpoint sort_as_subsets (fuel : nat) (todo : list Table) : list Table :=
  match fuel with
  | O => todo
  | S fuel' =>
      let pending := map table_name todo in
      match filter (fun t => negb (waits pending t)) todo with
      | [] => todo
      | ready =>
          ready ++ sort_as_subsets fuel' (filter (waits pending) todo)
      end
  end.

(** [metadata.sorted_tables]: foreign-key dependency order. *)
Definition sorted_tables (metadata : MetaData) : list Table :=
  sort_as_subsets (List.length metadata) (fold_right insert_table [] metadata).

(** [str.replace] of one character. *)
Fixpoint replace (c : Ascii.ascii) (by_ : string) (s : string) : string :=
  match s with
  | EmptyString => EmptyString
  | String a s' =>
      if Ascii.eqb a c then (by_ ++ replace c by_ s')%string
      else String a (replace c by_ s')
  end.

Definition newline : Ascii.ascii := Ascii.ascii_of_nat 10.
Definition tab : Ascii.ascii := Ascii.ascii_of_nat 9.

Section Exporter.

(** [str(CreateTable(table).compile(dialect=dialect))],
    [str(CreateIndex(index).compile(dialect=dialect))] and
    [datetime.now().isoformat()]. *)
Variable create_table : Dialect -> Table -> string.
Variable create_index : Dialect -> Index -> string.
Variable now_isoformat : string.

Definition header (metadata : MetaData) (dialect_name : string) : list string :=
  [ "-- SQLAlchemy Schema Dump"%string;
    ("-- Generated: " ++ now_isoformat)%string;
    ("-- Dialect: " ++ dialect_name)%string;
    ("-- Tables: "
       ++ String.concat ", " (sorted (map table_name metadata)))%string;
    ""%string ].

(** The body of the sequence loop for one column. *)
Definition sequence_step (table : Table) (ddl_statements : list string)
           (column : Column) : list string :=
  if truthy (autoincrement column) && is_none (column_default column) then
    let seq_name :=
      (table_name table ++ "_" ++ column_name column ++ "_seq")%string in
    ddl_statements
      ++ [ ("-- Sequence for " ++ table_name table ++ "."
              ++ column_name column)%string;
           ("CREATE SEQUENCE IF NOT EXISTS " ++ seq_name ++ ";")%string;
           ""%string ]
  else ddl_statements.

Definition table_step (dialect : Dialect) (ddl_statements : list string)
           (table : Table) : list string :=
  let create_stmt := create_table dialect table in
  let create_stmt :=
    replace tab "  "
            (replace newline (String newline "  ") create_stmt) in
  ddl_statements
    ++ [ ("-- Table: " ++ table_name table)%string;
         (create_stmt ++ ";")%string;
         ""%string ].

(** The body of the index loop; the state is [(ddl_statements, has_indexes)]. *)
Definition index_step (dialect : Dialect) (table : Table)
           (st : list string * bool) (index : Index) : list string * bool :=
  let st :=
    if negb (snd st) then (fst st ++ ["-- Indexes"%string], true) else st in
  (fst st
     ++ [ ("-- Index: " ++ index_name index ++ " on "
             ++ table_name table)%string;
          (create_index dialect index ++ ";")%string;
          ""%string ],
   snd st).

Definition get_dialect_ddl_statements (metadata : MetaData)
           (dialect_name : string) : list string :=
  let dialect := get_dialect dialect_name in
  let ddl_statements := header metadata dialect_name in
  let ddl_statements :=
    if String.eqb dialect_name "postgresql" then
      fold_left
        (fun acc table => fold_left (sequence_step table) (columns table) acc)
        (sorted_tables metadata) ddl_statements
    else ddl_statements in
  let ddl_statements := ddl_statements ++ ["-- Tables"%string] in
  let ddl_statements :=
    fold_left (table_step dialect) (sorted_tables metadata) ddl_statements in
  let st :=
    fold_left
      (fun st table => fold_left (index_step dialect table) (indexes table) st)
      (sorted_tables metadata) (ddl_statements, false) in
  fst st.

Definition get_dialect_ddl (metadata : MetaData) (dialect_name : string)
  : string :=
  String.concat (String newline "") (get_dialect_ddl_statements metadata dialect_name).

End Exporter.

(** *** The layout of the output, section by section *)

Section Layout.

Variable create_table : Dialect -> Table -> string.
Variable create_index : Dialect -> Index -> string.

Definition sequence_block (table : Table) (column : Column) : list string :=
  if truthy (autoincrement column) && is_none (column_default column) then
    [ ("-- Sequence for " ++ table_name table ++ "."
         ++ column_name column)%string;
      ("CREATE SEQUENCE IF NOT EXISTS "
         ++ (table_name table ++ "_" ++ column_name column ++ "_seq")
         ++ ";")%string;
      ""%string ]
  else [].

Definition sequence_section (dialect_name : string) (tables : list Table)
  : list string :=
  if String.eqb dialect_name "postgresql" then
    flat_map (fun t => flat_map (sequence_block t) (columns t)) tables
  else [].

Definition table_block (dialect : Dialect) (table : Table) : list string :=
  [ ("-- Table: " ++ table_name table)%string;
    (replace tab "  "
             (replace newline (String newline "  ")
                      (create_table dialect table)) ++ ";")%string;
    ""%string ].

Definition index_block (dialect : Dialect) (table : Table) (index : Index)
  : list string :=
  [ ("-- Index: " ++ index_name index ++ " on " ++ table_name table)%string;
    (create_index dialect index ++ ";")%string;
    ""%string ].

Definition index_blocks (dialect : Dialect) (tables : list Table)
  : list string :=
  flat_map (fun t => flat_map (index_block dialect t) (indexes t)) tables.

(** The ["-- Indexes"] heading: once, before the first index, when it has
    not been written yet. *)
Definition heading (has_indexes : bool) (blocks : list string) : list string :=
  if has_indexes then []
  else match blocks with
       | [] => []
       | _ :: _ => ["-- Indexes"%string]
       end.

Definition nonempty (blocks : list string) : bool :=
  match blocks with
  | [] => false
  | _ :: _ => true
  end.

End Layout.

(** *** Dependency order *)

(** Every reference of [t] to another registered table is to a table that
    is done. *)
Definition placed (registered done : list string) (t : Table) : bool :=
  forallb (fun r => String.eqb r (table_name t)
                    || negb (mem_name r registered)
                    || mem_name r done)
          (references t).

(** Each table of [l] comes after the registered tables it refers to. *)
Fixpoint dependency_order (registered done : list string) (l : list Table)
  : bool :=
  match l with
  | [] => true
  | t :: l' =>
      placed registered done t
      && dependency_order registered (table_name t :: done) l'
  end.

(** The sort runs to its end: no round finds every table waiting. *)
Fixpoint resolves (fuel : nat) (todo : list Table) : bool :=
  match fuel with
  | O => match todo with
         | [] => true
         | _ :: _ => false
         end
  | S fuel' =>
      let pending := map table_name todo in
      match filter (fun t => negb (waits pending t)) todo with
      | [] => match todo with
              | [] => true
              | _ :: _ => false
              end
      | _ :: _ => resolves fuel' (filter (waits pending) todo)
      end
  end.

(** *** The layout the specification describes

    Tables in sorted-name order, each under a comment naming it; then the
    index statements; then, last, the sequence statements. *)

Definition starts_with (p s : string) : bool := String.prefix p s.

(** Names in the ["-- Table: "] comments, in order of appearance. *)
Definition table_comments (lines : list string) : list string :=
  flat_map
    (fun l =>
       if starts_with "-- Table: " l
       then [String.substring 10 (String.length l - 10) l]
       else [])
    lines.

Fixpoint names_eqb (a b : list string) : bool :=
  match a, b with
  | [], [] => true
  | x :: a', y :: b' => String.eqb x y && names_eqb a' b'
  | _, _ => false
  end.

(** No table or index statement comes after a sequence statement. *)
Fixpoint sequences_last (lines : list string) : bool :=
  match lines with
  | [] => true
  | l :: rest =>
      (if starts_with "CREATE SEQUENCE" l
       then negb (existsb (fun m => starts_with "-- Table: " m
                                    || starts_with "-- Index: " m) rest)
       else true)
      && sequences_last rest
  end.

Definition tables_in_name_order (metadata : MetaData) (lines : list string)
  : bool :=
  names_eqb (table_comments lines) (sorted (map table_name metadata)).

End SchemaDump.

(** *** The registered tables

    [Base.metadata] after [from models import User, Post, Comment, Tag]:
    [users], then [post_tags], [posts] and [tags] of [models/post.py], then
    [comments]. *)
Module BlogMetaData.
Import SchemaDump.

Definition plain (name : string) : Column := mkColumn name AutoAuto None.

Definition defaulted (name value : string) : Column :=
  mkColumn name AutoAuto (Some value).

(** Modelled from the spec: the [users] table of [models/user.py], with the
    columns of [User.t]; the specification names no index on it. *)
Definition users_table : Table :=
  mkTable "users"
          [ plain "id"; plain "username"; plain "email";
            plain "hashed_password"; plain "full_name"; plain "bio";
            defaulted "is_active" "True"; defaulted "is_superuser" "False";
            defaulted "created_at" "utcnow"; defaulted "updated_at" "utcnow" ]
          []
          [].

Definition post_tags_table : Table :=
  mkTable "post_tags"
          [ plain "post_id"; plain "tag_id" ]
          []
          [ "posts"%string; "tags"%string ].

Definition posts_table : Table :=
  mkTable "posts"
          [ plain "id"; plain "title"; plain "slug"; plain "content";
            plain "summary"; defaulted "is_published" "False";
            plain "published_at"; defaulted "view_count" "0";
            plain "author_id";
            defaulted "created_at" "utcnow"; defaulted "updated_at" "utcnow" ]
          [ mkIndex "ix_posts_id"; mkIndex "ix_posts_slug" ]
          [ "users"%string ].

Definition tags_table : Table :=
  mkTable "tags"
          [ plain "id"; plain "name"; plain "slug"; plain "description";
            defaulted "created_at" "utcnow" ]
          [ mkIndex "ix_tags_id"; mkIndex "ix_tags_name"; mkIndex "ix_tags_slug" ]
          [].

Definition comments_table : Table :=
  mkTable "comments"
          [ plain "id"; plain "content"; defaulted "is_approved" "True";
            plain "author_id"; plain "post_id"; plain "parent_id";
            defaulted "created_at" "utcnow"; defaulted "updated_at" "utcnow" ]
          [ mkIndex "ix_comments_id" ]
          [ "users"%string; "posts"%string; "comments"%string ].

Definition metadata : MetaData :=
  [ users_table; post_tags_table; posts_table; tags_table; comments_table ].

(** The auto-incrementing columns of the blog: the integer primary keys,
    which are the columns [id]. *)
Definition auto_incrementing (t : Table) (c : Column) : bool :=
  String.eqb (column_name c) "id" && truthy (autoincrement c).

(** A stand-in for the dialect compilers: the statement head only. *)
Definition create_table (d : Dialect) (t : Table) : string :=
  ("CREATE TABLE " ++ table_name t ++ " ()")%string.

Definition create_index (d : Dialect) (i : Index) : string :=
  ("CREATE INDEX " ++ index_name i)%string.

End BlogMetaData.

(* ================================================================= *)
(** ** [subprocess.run] and the files a script leaves behind *)

Module Subprocess.

(** What the child process does: it exits after some seconds, or it never
    does, or there is no child because it cannot be started (the executable
    is not found, or may not be run). *)
Inductive Process :=
| Exits (seconds returncode : Z) (stdout stderr : string)
| Hangs
| CannotStart.

(** [subprocess.run(cmd, capture_output=True, text=True, check=..., timeout=...)]. *)
Record RunArgs := mkRun {
  cmd : list string;
  check : bool;
  timeout : option Z
}.

Inductive Completion :=
| CompletedProcess (returncode : Z) (stdout : string)
| CalledProcessError (returncode : Z) (stderr : string)
| TimeoutExpired
| OSError                            (* [FileNotFoundError] and the like,
                                        raised before any child runs *)
| NoReturn.                          (* the call waits forever *)

Definition run (args : RunArgs) (p : Process) : Completion :=
  match p with
  | Hangs =>
      match timeout args with
      | Some _ => TimeoutExpired
      | None => NoReturn
      end
  | CannotStart => OSError
  | Exits seconds returncode stdout stderr =>
      if match timeout args with
         | Some limit => limit <? seconds
         | None => false
         end
      then TimeoutExpired
      else if check args && negb (returncode =? 0)
           then CalledProcessError returncode stderr
           else CompletedProcess returncode stdout
  end.

End Subprocess.

(** Files written, links made and calls of [subprocess.run], oldest first. *)
Record World := mkWorld {
  files : list (string * string);
  links : list (string * string);
  calls : list Subprocess.RunArgs
}.

Definition write_file (path content : string) (w : World) : World :=
  mkWorld (files w ++ [(path, content)]) (links w) (calls w).

(** [if link.exists() or link.is_symlink(): link.unlink()] and then
    [link.symlink_to(target)]. *)
Definition symlink_to (link target : string) (w : World) : World :=
  mkWorld (files w)
          (filter (fun l => negb (String.eqb (fst l) link)) (links w)
             ++ [(link, target)])
          (calls w).

Definition started (args : Subprocess.RunArgs) (w : World) : World :=
  mkWorld (files w) (links w) (calls w ++ [args]).

(** A function of a script returns a value, lets an exception through or
    never returns. *)
Inductive Result (A : Type) :=
| Returns (a : A) (w : World)
| Uncaught (exception : string) (w : World)
| Blocks (w : World).
Arguments Returns {A} a w.
Arguments Uncaught {A} exception w.
Arguments Blocks {A} w.

(** What the scripts find around them, once the PostgreSQL container is up
    and with a [schema] directory they can write to. *)
Record Env := mkEnv {
  container_id : string;             (* [postgres._container.id[:12]] *)
  url_user_db : option (string * string);
                                     (* user and database of the URL match *)
  models_import : bool;              (* [from models import ...] succeeds *)
  create_all : bool;                 (* the tables can be created: nothing
                                        raises in [create_models_directly],
                                        nor in [Base.metadata.create_all] *)
  pg_dump : Subprocess.Process;      (* [docker exec <id> pg_dump ...] *)
  docker_ps : Subprocess.Process;    (* [docker ps --filter name=postgres-dev] *)
  pg_dump_dev : Subprocess.Process;  (* [docker exec postgres-dev pg_dump ...] *)
  timestamp : string;                (* [strftime('%Y%m%d_%H%M%S')] *)
  isoformat : string                 (* [datetime.now().isoformat()] *)
}.

Definition nl : string := String (Ascii.ascii_of_nat 10) "".

Definition is_space (a : Ascii.ascii) : bool :=
  let n := Ascii.nat_of_ascii a in
  ((Nat.leb 9 n && Nat.leb n 13) || (Nat.leb 28 n && Nat.leb n 32))%bool.

(** [line.strip()] on a line of ASCII characters, as far as its uses go: the
    line without its leading white space; it is empty exactly when the line
    is blank.  Beyond ASCII [str.strip] takes more characters for white
    space (the no-break space is one) than this function does. *)
Fixpoint lstrip (s : string) : string :=
  match s with
  | EmptyString => EmptyString
  | String a s' => if is_space a then lstrip s' else s
  end.

(** The lines a text file iterates over, each with its line end. *)
Fixpoint readlines (cur s : string) : list string :=
  match s with
  | EmptyString =>
      match cur with
      | EmptyString => []
      | _ => [cur]
      end
  | String a s' =>
      if Ascii.eqb a (Ascii.ascii_of_nat 10)
      then (cur ++ nl)%string :: readlines "" s'
      else readlines (cur ++ String a "")%string s'
  end.

Definition contains (sub s : string) : bool :=
  match String.index 0 sub s with
  | Some _ => true
  | None => false
  end.

(** The pg_dump options both scripts pass. *)
Definition pg_dump_cmd (container user database : string) : list string :=
  [ "docker"; "exec"; container; "pg_dump"; "--schema-only"; "--no-owner";
    "--no-privileges"; "--no-tablespaces"; "--quote-all-identifiers";
    "-U"; user; "-d"; database ]%string.

(* ================================================================= *)
(** ** [utils/validate_and_dump.py]

    What the functions print is left out. *)

Module ValidateAndDump.
Import Subprocess.

Definition run_pg_dump (env : Env) (database : string) (w : World)
  : Result (bool * string) :=
  let args :=
    mkRun (pg_dump_cmd (container_id env) "test" database) true (Some 30) in
  let w := started args w in
  match run args (pg_dump env) with
  | CompletedProcess _ stdout => Returns (true, stdout) w
  | CalledProcessError _ _ => Returns (false, ""%string) w
  | TimeoutExpired => Returns (false, ""%string) w
  | OSError => Uncaught "OSError" w
  | NoReturn => Blocks w
  end.

(** Every path of [run_alembic_migrations] returns [True]: no
    [alembic.ini], migrations applied, and migrations failed. *)
Definition run_alembic_migrations (env : Env) (alembic_ini_path : option string)
  : bool :=
  true.

Definition create_models_directly (env : Env) : bool :=
  create_all env.

(** [not line.strip().startswith('--') or 'COMMENT ON' in line], and then
    [line.strip()]. *)
Definition keep_line (line : string) : bool :=
  (negb (String.prefix "--" (lstrip line)) || contains "COMMENT ON" line)
  && negb (String.eqb (lstrip line) "").

Definition save_schema_dump (env : Env) (dump_content output_dir : string)
           (w : World) : string * World :=
  let name := ("schema_postgres_" ++ timestamp env ++ ".sql")%string in
  let output_file := (output_dir ++ "/" ++ name)%string in
  let text :=
    ("--" ++ nl
       ++ "-- PostgreSQL Schema Dump (via testcontainer)" ++ nl
       ++ "-- Generated: " ++ isoformat env ++ nl
       ++ "-- Method: Integrated validation with migrations" ++ nl
       ++ "--" ++ nl ++ nl
       ++ dump_content)%string in
  let w := write_file output_file text w in
  let w :=
    symlink_to (output_dir ++ "/schema_postgres_latest.sql")%string name w in
  let clean_file :=
    (output_dir ++ "/schema_postgres_clean_" ++ timestamp env ++ ".sql")%string in
  let w :=
    write_file clean_file
               (String.concat "" (filter keep_line (readlines "" text))) w in
  (output_file, w).

Definition validate_and_dump (env : Env) (use_migrations : bool)
           (alembic_ini : option string) (w : World) : Result Z :=
  if negb (models_import env) then Returns 1 w
  else
    let success :=
      if use_migrations then
        if run_alembic_migrations env alembic_ini then true
        else create_models_directly env
      else create_models_directly env in
    if negb success then Returns 1 w
    else
      match run_pg_dump env "test" w with
      | Returns (success, dump_output) w =>
          if negb success then Returns 1 w
          else
            let (_, w) := save_schema_dump env dump_output "schema" w in
            Returns 0 w
      | Uncaught e w => Uncaught e w
      | Blocks w => Blocks w
      end.

(** [main()]: the value is the exit status [sys.exit] is given. *)
Definition main (env : Env) (skip_migrations : bool)
           (alembic_ini : option string) (w : World) : Result Z :=
  let use_migrations := negb skip_migrations in
  validate_and_dump env use_migrations alembic_ini w.

End ValidateAndDump.

(* ================================================================= *)
(** ** [utils/pg_dump_helper.py] *)

Module PgDumpHelper.
Import Subprocess.

(** [not line.strip().startswith('--') and line.strip()]. *)
Definition keep_line (line : string) : bool :=
  negb (String.prefix "--" (lstrip line))
  && negb (String.eqb (lstrip line) "").

(** The part of both functions after a successful [pg_dump]. *)
Definition write_dump (env : Env) (origin stdout : string) (w : World)
  : string * World :=
  let name := ("schema_postgres_" ++ timestamp env ++ ".sql")%string in
  let output_file := ("schema/" ++ name)%string in
  let text :=
    ("--" ++ nl
       ++ "-- PostgreSQL Schema Dump" ++ nl
       ++ "-- Generated: " ++ isoformat env ++ nl
       ++ origin ++ nl
       ++ "--" ++ nl ++ nl
       ++ stdout)%string in
  let w := write_file output_file text w in
  let w := symlink_to "schema/schema_postgres_latest.sql" name w in
  (output_file, w).

Definition dump_with_testcontainer (env : Env) (w : World)
  : Result (option string) :=
  let (username, database) :=
    match url_user_db env with
    | Some m => m
    | None => ("test"%string, "test"%string)
    end in
  if negb (create_all env) then Uncaught "SQLAlchemyError" w
  else
  let args :=
    mkRun (pg_dump_cmd (container_id env) username database) true None in
  let w := started args w in
  match run args (pg_dump env) with
  | CompletedProcess _ stdout =>
      let (output_file, w) :=
        write_dump env "-- Generated with: pg_dump via testcontainer" stdout w in
      let clean_file :=
        ("schema/schema_postgres_clean_" ++ timestamp env ++ ".sql")%string in
      let text :=
        match find (fun f => String.eqb (fst f) output_file) (rev (files w)) with
        | Some f => snd f
        | None => ""%string
        end in
      let w :=
        write_file clean_file
                   (String.concat "" (filter keep_line (readlines "" text))) w in
      Returns (Some output_file) w
  | CalledProcessError _ _ => Returns None w
  | TimeoutExpired => Uncaught "TimeoutExpired" w
  | OSError => Uncaught "OSError" w
  | NoReturn => Blocks w
  end.

Definition dump_with_running_container (env : Env) (w : World)
  : Result (option string) :=
  let ps :=
    mkRun [ "docker"; "ps"; "--filter"; "name=postgres-dev";
            "--format"; "{{.Names}}" ]%string true None in
  let w := started ps w in
  match run ps (docker_ps env) with
  | CompletedProcess _ names =>
      if negb (contains "postgres-dev" names) then Returns None w
      else
        let args :=
          mkRun (pg_dump_cmd "postgres-dev" "dev" "sqlalchemy_test") true None in
        let w := started args w in
        match run args (pg_dump_dev env) with
        | CompletedProcess _ stdout =>
            let (output_file, w) :=
              write_dump env "-- Container: postgres-dev" stdout w in
            Returns (Some output_file) w
        | CalledProcessError _ _ => Returns None w
        | TimeoutExpired => Uncaught "TimeoutExpired" w
        | OSError => Uncaught "OSError" w
        | NoReturn => Blocks w
        end
  | CalledProcessError _ _ => Returns None w
  | TimeoutExpired => Uncaught "TimeoutExpired" w
  | OSError => Uncaught "OSError" w
  | NoReturn => Blocks w
  end.

(** The [__main__] block: the value is the exit status of the interpreter,
    which is 0 when the block runs to its end. *)
Definition main (env : Env) (use_testcontainer use_running : bool) (w : World)
  : Result Z :=
  let finish (r : Result (option string)) : Result Z :=
    match r with
    | Returns _ w => Returns 0 w
    | Uncaught e w => Uncaught e w
    | Blocks w => Blocks w
    end in
  if use_testcontainer then finish (dump_with_testcontainer env w)
  else if use_running then finish (dump_with_running_container env w)
  else
    match dump_with_running_container env w with
    | Returns None w => finish (dump_with_testcontainer env w)
    | r => finish r
    end.

End PgDumpHelper.

(* ================================================================= *)
(** ** A sample session

    The scenario of [examples/usage_example.py], cut down to one user, one
    tag, one post, a comment and a reply to it. *)

Module Sample.

Definition empty_store : Store := mkStore [] [] [] [] [] 1 1 1 1 1000.

Definition scenario : Session unit :=
  john <- UserCRUD.create_user "john" "john@example.com" "hashed"
                               User.no_kwargs ;;
  tag <- TagCRUD.create_tag "Technology" Tag.no_kwargs ;;
  post <- PostCRUD.create_post "Intro" "SQLAlchemy is an ORM"
                               (User.id john) Post.no_kwargs ;;
  PostCRUD.add_tag_to_post (Post.id post) (Tag.id tag) ;;;
  nice <- CommentCRUD.create_comment "nice" (User.id john) (Post.id post)
                                     None ;;
  CommentCRUD.create_comment "thanks" (User.id john) (Post.id post)
                             (Some (Comment.id nice)) ;;;
  ret tt.

Definition blog : Store := Eval vm_compute in snd (scenario empty_store).

Definition john : User.t :=
  User.mk 1 "john" "john@example.com" "hashed" None None
          (Some true) (Some false) (Some 1000) (Some 1000).

Definition intro : Post.t :=
  Post.mk 1 "Intro" None "SQLAlchemy is an ORM" None (Some false) None
          (Some 0) 1 (Some 1000) (Some 1000).

Definition nice : Comment.t :=
  Comment.mk 1 "nice" (Some true) 1 1 None (Some 1000) (Some 1000).

Definition thanks : Comment.t :=
  Comment.mk 2 "thanks" (Some true) 1 1 (Some 1) (Some 1000) (Some 1000).

(** Four more creations on [blog]; the post arrives with a slug and as
    published. *)
Definition jane_kwargs : User.kwargs :=
  User.mk_kwargs None (Some "Jane Smith"%string) None None None None None.

Definition jane : User.t :=
  User.mk 2 "jane" "jane@example.com" "hashed" (Some "Jane Smith"%string) None
          (Some true) (Some false) (Some 1000) (Some 1000).

Definition python : Tag.t :=
  Tag.mk 2 "Python" None None (Some 1000).

Definition patterns_kwargs : Post.kwargs :=
  Post.mk_kwargs None (Some "patterns"%string) None (Some true) None None
                 None None.

Definition patterns : Post.t :=
  Post.mk 2 "Patterns" (Some "patterns"%string) "Design patterns" None
          (Some true) None (Some 0) 1 (Some 1000) (Some 1000).

Definition agreed : Comment.t :=
  Comment.mk 3 "agreed" (Some true) 1 1 (Some 2) (Some 1000) (Some 1000).

(** [blog] with the comment [agreed], a reply to the reply [thanks]. *)
Definition with_agreed : Store :=
  Eval vm_compute in
    snd (CommentCRUD.create_comment "agreed" 1 1 (Some 2) blog).

(** [blog] with the post [patterns]. *)
Definition with_patterns : Store :=
  Eval vm_compute in
    snd (PostCRUD.create_post "Patterns" "Design patterns" 1
                              patterns_kwargs blog).

(** [slug="patterns"], the slug of another post. *)
Definition steal_slug : Post.patch :=
  Post.mk_patch None None (Some (Some "patterns"%string)) None None None None
                None None None None.

(** [updated_at=<5 seconds after the epoch>]. *)
Definition backdate : Post.patch :=
  Post.mk_patch None None None None None None None None None None
                (Some (Some 5)).

(** [title="Introduction", is_published=True]. *)
Definition retitle : Post.patch :=
  Post.mk_patch None (Some (Some "Introduction"%string)) None None None
                (Some (Some true)) None None None None None.

(** [title="Introduction", updated_at=<1000 seconds after the epoch>]: the
    timestamp is the one [intro] has. *)
Definition retitle_keep_stamp : Post.patch :=
  Post.mk_patch None (Some (Some "Introduction"%string)) None None None
                None None None None None (Some (Some 1000)).

(** [id=7]. *)
Definition renumber : Post.patch :=
  Post.mk_patch (Some (Some 7)) None None None None None None None None None
                None.

(** [full_name="John Doe", bio="Writes"]. *)
Definition rename : User.patch :=
  User.mk_patch None None None None (Some (Some "John Doe"%string))
                (Some (Some "Writes"%string)) None None None None.

(** A post whose [updated_at] is ahead of the clock. *)
Definition postdated_kwargs : Post.kwargs :=
  Post.mk_kwargs None None None None None None None (Some 9999).

Definition postdated : Post.t :=
  Post.mk 2 "Plans" None "Next year" None (Some false) None (Some 0) 1
          (Some 1000) (Some 9999).

(** The same store one hour later. *)
Definition later (s : Store) : Store :=
  mkStore (users s) (posts s) (tags s) (comments s) (post_tags s)
          (users_id_seq s) (posts_id_seq s) (tags_id_seq s)
          (comments_id_seq s) (utcnow s + 3600).

(** [blog] with the post [postdated]. *)
Definition with_postdated : Store :=
  Eval vm_compute in
    snd (PostCRUD.create_post "Plans" "Next year" 1 postdated_kwargs blog).

End Sample.

(** Two runs of the dump scripts: [pg_dump] exits with status 1 after a
    second, and [pg_dump] never exits. *)
Module DumpRuns.

Definition env (pg_dump : Subprocess.Process) : Env :=
  mkEnv "0123456789ab" (Some ("test"%string, "test"%string)) true true
        pg_dump
        (Subprocess.Exits 1 0 "" "")
        (Subprocess.Exits 1 0 "" "")
        "20260101_000000" "2026-01-01T00:00:00".

Definition exits_1 : Env :=
  env (Subprocess.Exits 1 1 "" "pg_dump: error: connection to server failed").

Definition hangs : Env := env Subprocess.Hangs.

Definition nothing : World := mkWorld [] [] [].

Definition testcontainer_cmd : list string :=
  pg_dump_cmd "0123456789ab" "test" "test".

End DumpRuns.

(* ================================================================= *)
(** ** Vocabulary of the statements *)

(** The child process exits with a non-zero status, or is not done within
    [limit] seconds. *)
Definition fails_within (limit : Z) (p : Subprocess.Process) : Prop :=
  match p with
  | Subprocess.Hangs => True
  | Subprocess.CannotStart => False
  | Subprocess.Exits seconds returncode _ _ =>
      limit < seconds \/ returncode <> 0
  end.


(** The comments of a discussion: the stored comments that satisfy [top],
    their replies, the replies to those, and so on along [parent_id]. *)
Inductive in_thread (cs : list Comment.t) (top : Comment.t -> Prop)
  : Comment.t -> Prop :=
| thread_top c :
    In c cs -> top c -> in_thread cs top c
| thread_reply c p :
    In c cs -> in_thread cs top p ->
    Comment.parent_id c = Some (Comment.id p) ->
    in_thread cs top c.

(** Number of stored comments whose key is not in [dead]. *)
Definition alive (cs : list Comment.t) (dead : list Z) : nat :=
  List.length (filter (fun c => negb (mem (Comment.id c) dead)) cs).

(** The store a session computation leaves. *)
Definition after {A} (m : Session A) (s : Store) : Store := snd (m s).

(** A defaulted column after an INSERT: the value that was supplied, and
    the declared default when none was. *)
Definition supplied_or {A} (supplied : option A) (d : A) (column : option A)
  : Prop :=
  column = Some match supplied with
                | Some v => v
                | None => d
                end.

(** A timestamp column after an INSERT: not null, and the supplied value
    when one was supplied. *)
Definition stamped (supplied column : option Z) : Prop :=
  exists t, column = Some t /\ forall v, supplied = Some v -> t = v.

(** [old] is not later than [new]; a null [old] is later than nothing. *)
Definition not_before (old new : option Z) : Prop :=
  match old, new with
  | Some a, Some b => a <= b
  | Some _, None => False
  | None, _ => True
  end.

(** The key [old] of a row may become [new]: it stays as it is, or no
    stored row has the key [new] and no foreign key refers to [old]. *)
Definition key_move_ok (old : Z) (new : option Z) (stored : Z -> bool)
           (referenced : bool) : Prop :=
  match new with
  | Some j => j = old \/ (stored j = false /\ referenced = false)
  | None => False
  end.

(** The constraints of [users] hold after the assignments of [kw] to [u]:
    no [nullable=False] column is assigned [None], no other row has the
    resulting key, username or e-mail address, and a key that posts or
    comments refer to stays as it is. *)
Definition user_patch_ok (s : Store) (u : User.t) (kw : User.patch) : Prop :=
  key_move_ok (User.id u) (assign (Some (User.id u)) (User.set_id kw))
              (fun j => has_user j s) (Db.user_referenced (User.id u) s)
  /\ User.set_username kw <> Some None
  /\ User.set_email kw <> Some None
  /\ User.set_hashed_password kw <> Some None
  /\ taken User.id (fun r => Some (User.username r)) (User.id u)
           (assign (Some (User.username u)) (User.set_username kw))
           (users s) = false
  /\ taken User.id (fun r => Some (User.email r)) (User.id u)
           (assign (Some (User.email u)) (User.set_email kw))
           (users s) = false.

(** The constraints of [posts] hold after the assignments of [kw] to [p]:
    no [nullable=False] column is assigned [None], no other row has the
    resulting key or slug, a key that comments or tags refer to stays as it
    is, and the resulting author is a stored user. *)
Definition post_patch_ok (s : Store) (p : Post.t) (kw : Post.patch) : Prop :=
  key_move_ok (Post.id p) (assign (Some (Post.id p)) (Post.set_id kw))
              (fun j => has_post j s) (Db.post_referenced (Post.id p) s)
  /\ Post.set_title kw <> Some None
  /\ Post.set_content kw <> Some None
  /\ Post.set_author_id kw <> Some None
  /\ taken Post.id Post.slug (Post.id p)
           (assign (Post.slug p) (Post.set_slug kw)) (posts s) = false
  /\ (forall a, assign (Some (Post.author_id p)) (Post.set_author_id kw)
                = Some a ->
                has_user a s = true).

(** [updated_at] after an UPDATE.  [old] is the stored value, [set] the
    assignment to the column, and [unchanged] says that the assignments to
    the other columns leave each of them as it is.  The column holds the
    assigned value when that differs from the stored one.  Otherwise it
    holds the clock of the commit when another column changes, and the
    stored value when none does. *)
Definition restamped (now : Z) (unchanged : Prop) (old : option Z)
           (set : option (option Z)) (new : option Z) : Prop :=
  (assign old set <> old -> new = assign old set)
  /\ (assign old set = old -> ~ unchanged -> new = Some now)
  /\ (assign old set = old -> unchanged -> new = old).

(** Every column of [u'] but [updated_at] holds what [kw] assigned, and
    what [u] held when [kw] assigned nothing. *)
Definition user_assigned (u : User.t) (kw : User.patch) (u' : User.t) : Prop :=
  Some (User.id u') = assign (Some (User.id u)) (User.set_id kw)
  /\ Some (User.username u')
     = assign (Some (User.username u)) (User.set_username kw)
  /\ Some (User.email u') = assign (Some (User.email u)) (User.set_email kw)
  /\ Some (User.hashed_password u')
     = assign (Some (User.hashed_password u)) (User.set_hashed_password kw)
  /\ User.full_name u' = assign (User.full_name u) (User.set_full_name kw)
  /\ User.bio u' = assign (User.bio u) (User.set_bio kw)
  /\ User.is_active u' = assign (User.is_active u) (User.set_is_active kw)
  /\ User.is_superuser u'
     = assign (User.is_superuser u) (User.set_is_superuser kw)
  /\ User.created_at u' = assign (User.created_at u) (User.set_created_at kw).

Definition post_assigned (p : Post.t) (kw : Post.patch) (p' : Post.t) : Prop :=
  Some (Post.id p') = assign (Some (Post.id p)) (Post.set_id kw)
  /\ Some (Post.title p') = assign (Some (Post.title p)) (Post.set_title kw)
  /\ Post.slug p' = assign (Post.slug p) (Post.set_slug kw)
  /\ Some (Post.content p')
     = assign (Some (Post.content p)) (Post.set_content kw)
  /\ Post.summary p' = assign (Post.summary p) (Post.set_summary kw)
  /\ Post.is_published p'
     = assign (Post.is_published p) (Post.set_is_published kw)
  /\ Post.published_at p'
     = assign (Post.published_at p) (Post.set_published_at kw)
  /\ Post.view_count p' = assign (Post.view_count p) (Post.set_view_count kw)
  /\ Some (Post.author_id p')
     = assign (Some (Post.author_id p)) (Post.set_author_id kw)
  /\ Post.created_at p' = assign (Post.created_at p) (Post.set_created_at kw).

Definition comment_assigned (c : Comment.t) (content : string)
           (c' : Comment.t) : Prop :=
  Comment.id c' = Comment.id c
  /\ Comment.content c' = content
  /\ Comment.is_approved c' = Comment.is_approved c
  /\ Comment.author_id c' = Comment.author_id c
  /\ Comment.post_id c' = Comment.post_id c
  /\ Comment.parent_id c' = Comment.parent_id c
  /\ Comment.created_at c' = Comment.created_at c.

(** The update contract without its provisos, for posts: whatever is
    assigned to a stored post, [update_post] returns the post with the
    assignments made, the one to [updated_at] among them, and a timestamp
    that did not go back. *)
Definition update_post_unconditional (s : Store) (i : Z) (kw : Post.patch)
  : Prop :=
  forall p,
    PostCRUD.get_post i s = (Ok (Some p), s) ->
    exists p' s',
      PostCRUD.update_post i kw s = (Ok (Some p'), s')
      /\ post_assigned p kw p'
      /\ (forall v, Post.set_updated_at kw = Some v -> Post.updated_at p' = v)
      /\ not_before (Post.updated_at p) (Post.updated_at p').

(** Valid field sets for the four [create] helpers: the key the row will
    get is free, no stored row has the values given for the unique
    columns, and the rows the foreign keys name are stored. *)
Definition user_fields_ok (s : Store) (username email : string)
           (kw : User.kwargs) : Prop :=
  has_user (pk (User.kw_id kw) (users_id_seq s)) s = false
  /\ (forall u, In u (users s) -> User.username u <> username)
  /\ (forall u, In u (users s) -> User.email u <> email).

Definition post_fields_ok (s : Store) (author_id : Z) (kw : Post.kwargs)
  : Prop :=
  has_post (pk (Post.kw_id kw) (posts_id_seq s)) s = false
  /\ (forall v p, Post.kw_slug kw = Some v -> In p (posts s) ->
                  Post.slug p <> Some v)
  /\ has_user author_id s = true.

Definition tag_fields_ok (s : Store) (name : string) (kw : Tag.kwargs) : Prop :=
  has_tag (pk (Tag.kw_id kw) (tags_id_seq s)) s = false
  /\ (forall t, In t (tags s) -> Tag.name t <> name)
  /\ (forall v t, Tag.kw_slug kw = Some v -> In t (tags s) ->
                  Tag.slug t <> Some v).

Definition comment_fields_ok (s : Store) (author_id post_id : Z)
           (parent_id : option Z) : Prop :=
  has_comment (comments_id_seq s) s = false
  /\ has_user author_id s = true
  /\ has_post post_id s = true
  /\ (forall p, parent_id = Some p -> has_comment p s = true).

(* ================================================================= *)
(** ** Sequences of calls and the invariants of the store *)

(** A call of one of the helpers of [examples/crud_operations.py] that
    writes.  The keyword arguments of a call name columns, the primary key
    among them; see [User.kwargs] and [User.patch]. *)
Inductive Call :=
| CreateUser (username email password : string) (kwargs : User.kwargs)
| UpdateUser (user_id : Z) (kwargs : User.patch)
| DeleteUser (user_id : Z)
| CreatePost (title content : string) (author_id : Z) (kwargs : Post.kwargs)
| UpdatePost (post_id : Z) (kwargs : Post.patch)
| DeletePost (post_id : Z)
| AddTagToPost (post_id tag_id : Z)
| CreateComment (content : string) (author_id post_id : Z)
                (parent_id : option Z)
| UpdateComment (comment_id : Z) (content : string)
| DeleteComment (comment_id : Z)
| CreateTag (name : string) (kwargs : Tag.kwargs).

(** The store a call leaves, whether it returned or raised. *)
Definition call (c : Call) (s : Store) : Store :=
  match c with
  | CreateUser username email password kwargs =>
      after (UserCRUD.create_user username email password kwargs) s
  | UpdateUser user_id kwargs => after (UserCRUD.update_user user_id kwargs) s
  | DeleteUser user_id => after (UserCRUD.delete_user user_id) s
  | CreatePost title content author_id kwargs =>
      after (PostCRUD.create_post title content author_id kwargs) s
  | UpdatePost post_id kwargs => after (PostCRUD.update_post post_id kwargs) s
  | DeletePost post_id => after (PostCRUD.delete_post post_id) s
  | AddTagToPost post_id tag_id =>
      after (PostCRUD.add_tag_to_post post_id tag_id) s
  | CreateComment content author_id post_id parent_id =>
      after (CommentCRUD.create_comment content author_id post_id parent_id) s
  | UpdateComment comment_id content =>
      after (CommentCRUD.update_comment comment_id content) s
  | DeleteComment comment_id => after (CommentCRUD.delete_comment comment_id) s
  | CreateTag name kwargs => after (TagCRUD.create_tag name kwargs) s
  end.

Definition run_calls (cs : list Call) (s : Store) : Store :=
  fold_left (fun s c => call c s) cs s.

(** Primary keys: no two rows of a table have the same [id]. *)
Definition keys_unique (s : Store) : Prop :=
  NoDup (map User.id (users s))
  /\ NoDup (map Post.id (posts s))
  /\ NoDup (map Tag.id (tags s))
  /\ NoDup (map Comment.id (comments s)).

(** Foreign keys: every row the columns [posts.author_id],
    [comments.author_id], [comments.post_id], [comments.parent_id],
    [post_tags.post_id] and [post_tags.tag_id] name is stored. *)
Definition references_hold (s : Store) : Prop :=
  (forall p, In p (posts s) -> has_user (Post.author_id p) s = true)
  /\ (forall c, In c (comments s) ->
                has_user (Comment.author_id c) s = true
                /\ has_post (Comment.post_id c) s = true
                /\ forall i, Comment.parent_id c = Some i ->
                             has_comment i s = true)
  /\ (forall pt, In pt (post_tags s) ->
                 has_post (fst pt) s = true /\ has_tag (snd pt) s = true).

(** The unique columns of [models/post.py]: rows with the same slug, or
    tags with the same name, have the same key. *)
Definition uniques_hold (s : Store) : Prop :=
  (forall p q v, In p (posts s) -> In q (posts s) ->
                 Post.slug p = Some v -> Post.slug q = Some v ->
                 Post.id p = Post.id q)
  /\ (forall t u, In t (tags s) -> In u (tags s) ->
                  Tag.name t = Tag.name u -> Tag.id t = Tag.id u)
  /\ (forall t u v, In t (tags s) -> In u (tags s) ->
                    Tag.slug t = Some v -> Tag.slug u = Some v ->
                    Tag.id t = Tag.id u).

(** A session on [Sample.blog]: a second post with a slug, a reply, a tag
    attached, a rename, then the first post and the user deleted. *)
Definition sample_calls : list Call :=
  [ CreatePost "Patterns" "Design patterns" 1 Sample.patterns_kwargs;
    CreateComment "agreed" 1 1 (Some 2);
    AddTagToPost 2 1;
    UpdatePost 2 Sample.retitle;
    DeletePost 1;
    DeleteUser 1 ].

(** [slug="databases"]. *)
Definition databases_kwargs : Tag.kwargs :=
  Tag.mk_kwargs None (Some "databases"%string) None None.

Definition databases : Tag.t :=
  Tag.mk 2 "Databases" (Some "databases"%string) None (Some 1000).

(** [Sample.blog] with the tag [databases]. *)
Definition with_databases : Store :=
  Eval vm_compute in
    snd (TagCRUD.create_tag "Databases" databases_kwargs Sample.blog).

Definition elsewhere : Comment.t :=
  Comment.mk 3 "elsewhere" (Some true) 1 2 (Some 1) (Some 1000) (Some 1000).

(** [Sample.with_patterns] with the comment [elsewhere]: a comment on the
    second post that answers the comment [Sample.nice] on the first. *)
Definition with_elsewhere : Store :=
  Eval vm_compute in
    snd (CommentCRUD.create_comment "elsewhere" 1 2 (Some 1)
                                    Sample.with_patterns).

(** The world a function of a script leaves, however it ends. *)
Definition world_of {A} (r : Result A) : World :=
  match r with
  | Returns _ w => w
  | Uncaught _ w => w
  | Blocks w => w
  end.

(** The child process exits with status 0 within [limit] seconds. *)
Definition succeeds_within (limit : Z) (p : Subprocess.Process) : Prop :=
  match p with
  | Subprocess.Hangs | Subprocess.CannotStart => False
  | Subprocess.Exits seconds returncode _ _ =>
      seconds <= limit /\ returncode = 0
  end.

(** [docker ps --filter name=postgres-dev --format {{.Names}}]. *)
Definition docker_ps_args : Subprocess.RunArgs :=
  Subprocess.mkRun [ "docker"; "ps"; "--filter"; "name=postgres-dev";
                     "--format"; "{{.Names}}" ]%string true None.

(** [docker exec postgres-dev pg_dump ... -U dev -d sqlalchemy_test]. *)
Definition pg_dump_dev_args : Subprocess.RunArgs :=
  Subprocess.mkRun (pg_dump_cmd "postgres-dev" "dev" "sqlalchemy_test")
                   true None.

(** The container [postgres-dev] gives no dump: [docker ps] fails or does
    not list it, or its [pg_dump] fails. *)
Definition dev_unavailable (env : Env) : Prop :=
  match docker_ps env with
  | Subprocess.Hangs | Subprocess.CannotStart => False
  | Subprocess.Exits _ rc names _ =>
      rc <> 0
      \/ contains "postgres-dev" names = false
      \/ match pg_dump_dev env with
         | Subprocess.Hangs | Subprocess.CannotStart => False
         | Subprocess.Exits _ rc' _ _ => rc' <> 0
         end
  end.

(** The container [postgres-dev] gives a dump. *)
Definition dev_available (env : Env) : Prop :=
  match docker_ps env, pg_dump_dev env with
  | Subprocess.Exits _ rc names _, Subprocess.Exits _ rc' _ _ =>
      rc = 0 /\ contains "postgres-dev" names = true /\ rc' = 0
  | _, _ => False
  end.

(** A run with the container [postgres-dev] up. *)
Definition dev_running : Env :=
  mkEnv "0123456789ab" (Some ("test"%string, "test"%string)) true true
        Subprocess.Hangs
        (Subprocess.Exits 1 0 "postgres-dev" "")
        (Subprocess.Exits 2 0 "CREATE TABLE users ();" "")
        "20260101_000000" "2026-01-01T00:00:00".

(** The string holds no line end. *)
Fixpoint one_line (s : string) : bool :=
  match s with
  | EmptyString => true
  | String a s' => negb (Ascii.eqb a (Ascii.ascii_of_nat 10)) && one_line s'
  end.

(** A schema directory that holds an older latest link and a link of
    another name. *)
Definition old_links : World :=
  mkWorld []
          [ ("schema/schema_postgres_latest.sql",
             "schema_postgres_20250101_000000.sql");
            ("schema/current.sql", "schema_postgres_20250101_000000.sql")
          ]%string
          [].

(** The string holds no carriage return; reading such a text back gives
    the lines as they were written. *)
Fixpoint unix_text (s : string) : bool :=
  match s with
  | EmptyString => true
  | String a s' => negb (Ascii.eqb a (Ascii.ascii_of_nat 13)) && unix_text s'
  end.

(** Every character of the string is an ASCII character. *)
Fixpoint ascii_only (s : string) : bool :=
  match s with
  | EmptyString => true
  | String a s' => Nat.ltb (Ascii.nat_of_ascii a) 128 && ascii_only s'
  end.

(** The five tables hold the same rows in [s'] as in [s]. *)
Definition same_rows (s s' : Store) : Prop :=
  users s' = users s
  /\ posts s' = posts s
  /\ tags s' = tags s
  /\ comments s' = comments s
  /\ post_tags s' = post_tags s.

(** Every stored key is below the counter of its table. *)
Definition counters_ahead (s : Store) : Prop :=
  (forall u, In u (users s) -> User.id u < users_id_seq s)
  /\ (forall p, In p (posts s) -> Post.id p < posts_id_seq s)
  /\ (forall t, In t (tags s) -> Tag.id t < tags_id_seq s)
  /\ (forall c, In c (comments s) -> Comment.id c < comments_id_seq s).

(** The call passes no [id=] of its own: a creation leaves the key to the
    counter of the table, and an update leaves the key as it is. *)
Definition auto_keyed (c : Call) : Prop :=
  match c with
  | CreateUser _ _ _ kwargs => User.kw_id kwargs = None
  | UpdateUser _ kwargs => User.set_id kwargs = None
  | CreatePost _ _ _ kwargs => Post.kw_id kwargs = None
  | UpdatePost _ kwargs => Post.set_id kwargs = None
  | CreateTag _ kwargs => Tag.kw_id kwargs = None
  | _ => True
  end.

(* ================================================================= *)
(** ** [utils/schema_dump.py]: the files

    What the functions print is left out. *)

Module SchemaFiles.
Import SchemaDump.

(** [str.upper()] on ASCII letters. *)
Definition upper_ascii (a : Ascii.ascii) : Ascii.ascii :=
  let n := Ascii.nat_of_ascii a in
  if (Nat.leb 97 n && Nat.leb n 122)%bool
  then Ascii.ascii_of_nat (n - 32)
  else a.

Fixpoint upper (s : string) : string :=
  match s with
  | EmptyString => EmptyString
  | String a s' => String (upper_ascii a) (upper s')
  end.

(** ['=' * 60]. *)
Definition rule : string :=
  "============================================================".

Definition default_dialects : list string :=
  [ "postgresql"; "mysql"; "sqlite" ]%string.

Section Files.

Variable create_table : Dialect -> Table -> string.
Variable create_index : Dialect -> Index -> string.

(** [datetime.now().isoformat()] at its [k]-th reading, and
    [datetime.now().strftime('%Y%m%d_%H%M%S')], which a function reads
    once. *)
Variable isoformat : nat -> string.
Variable timestamp : string.

Definition filename (dialect_name : string) : string :=
  ("schema_" ++ dialect_name ++ "_" ++ timestamp ++ ".sql")%string.

Definition latest_link (output_dir dialect_name : string) : string :=
  (output_dir ++ "/" ++ "schema_" ++ dialect_name ++ "_latest.sql")%string.

(** The body of the first loop of [dump_schema_to_file]; the state is the
    world and the number of readings of the clock so far. *)
Definition dialect_step (metadata : MetaData) (output_dir : string)
           (st : World * nat) (dialect_name : string) : World * nat :=
  let ddl :=
    get_dialect_ddl create_table create_index (isoformat (snd st))
                    metadata dialect_name in
  let w :=
    write_file (output_dir ++ "/" ++ filename dialect_name)%string ddl
               (fst st) in
  let w :=
    symlink_to (latest_link output_dir dialect_name) (filename dialect_name)
               w in
  (w, S (snd st)).

(** What the second loop writes for one dialect. *)
Definition section (metadata : MetaData) (k : nat) (dialect_name : string)
  : string :=
  ("-- " ++ rule ++ nl
     ++ "-- DIALECT: " ++ upper dialect_name ++ nl
     ++ "-- " ++ rule ++ nl ++ nl
     ++ get_dialect_ddl create_table create_index (isoformat k)
                        metadata dialect_name
     ++ nl ++ nl)%string.

(** The body of the second loop; the state is the text written so far and
    the number of readings of the clock. *)
Definition combined_step (metadata : MetaData) (st : string * nat)
           (dialect_name : string) : string * nat :=
  ((fst st ++ section metadata (snd st) dialect_name)%string, S (snd st)).

Definition dump_schema_to_file (metadata : MetaData) (output_dir : string)
           (dialects : option (list string)) (w : World) : string * World :=
  let dialects :=
    match dialects with
    | None => default_dialects
    | Some l => l
    end in
  let st := fold_left (dialect_step metadata output_dir) dialects (w, O) in
  let combined :=
    fold_left (combined_step metadata) dialects (""%string, snd st) in
  let w :=
    write_file (output_dir ++ "/" ++ filename "all")%string (fst combined)
               (fst st) in
  let w :=
    symlink_to (output_dir ++ "/" ++ "schema_all_latest.sql")%string
               (filename "all") w in
  (output_dir, w).

(** The files of the first loop, oldest first, when the clock has been
    read [k] times before. *)
Fixpoint dialect_files (metadata : MetaData) (output_dir : string) (k : nat)
         (dialects : list string) : list (string * string) :=
  match dialects with
  | [] => []
  | d :: ds =>
      ((output_dir ++ "/" ++ filename d)%string,
       get_dialect_ddl create_table create_index (isoformat k) metadata d)
        :: dialect_files metadata output_dir (S k) ds
  end.

(** The text of the second loop, when the clock has been read [k] times
    before. *)
Fixpoint sections (metadata : MetaData) (k : nat) (dialects : list string)
  : string :=
  match dialects with
  | [] => ""%string
  | d :: ds => (section metadata k d ++ sections metadata (S k) ds)%string
  end.

(** [if 'postgresql' in database_url: ... elif 'mysql' in database_url: ...
    else: ...]. *)
Definition url_dialect (database_url : string) : string :=
  if contains "postgresql" database_url then "postgresql"%string
  else if contains "mysql" database_url then "mysql"%string
  else "sqlite"%string.

(** [dump_current_database_schema]; [getenv] is the value of
    [DATABASE_URL], and [reflected] the tables [metadata.reflect] finds
    behind the URL. *)
Definition dump_current_database_schema (database_url getenv : option string)
           (reflected : string -> MetaData) (w : World) : string * World :=
  let database_url :=
    match database_url with
    | Some url => url
    | None =>
        match getenv with
        | Some url => url
        | None => "sqlite:///./test.db"%string
        end
    end in
  let dialect_name := url_dialect database_url in
  let ddl :=
    get_dialect_ddl create_table create_index (isoformat O)
                    (reflected database_url) dialect_name in
  let name := ("schema_from_db_" ++ timestamp ++ ".sql")%string in
  let w := write_file ("schema/" ++ name)%string ddl w in
  let w := symlink_to "schema/schema_from_db_latest.sql" name w in
  (("schema/" ++ name)%string, w).

(** [validate_and_dump]: the models are imported when the module is, so
    the function gets as far as the dump, with the default directory and
    dialects. *)
Definition validate_and_dump (metadata : MetaData) (w : World) : Z * World :=
  let (_, w) := dump_schema_to_file metadata "schema" None w in
  (0, w).

(** The [__main__] block: the exit status and the world. *)
Definition main (metadata : MetaData) (getenv : option string)
           (reflected : string -> MetaData)
           (validate from_db : bool) (output_dir : string)
           (dialects : list string) (w : World) : Z * World :=
  if validate then validate_and_dump metadata w
  else if from_db then
    (0, snd (dump_current_database_schema None getenv reflected w))
  else
    (0, snd (dump_schema_to_file metadata output_dir (Some dialects) w)).

End Files.

End SchemaFiles.

(* ================================================================= *)
(** * Properties *)

(** ** Queries *)

Section Queries.

Context {R : Type}.
Variable f : R -> bool.

Lemma first_filter_none (rows : list R) :
  first (filter f rows) = None <-> existsb f rows = false.
Proof.
  induction rows as [|r rows IH]; simpl.
  - split; reflexivity.
  - destruct (f r); simpl.
    + split; discriminate.
    + exact IH.
Qed.

Lemma first_filter_some (rows : list R) (r : R) :
  first (filter f rows) = Some r -> In r rows /\ f r = true.
Proof.
  induction rows as [|x rows IH]; simpl.
  - discriminate.
  - destruct (f x) eqn:Hx; simpl.
    + intros [= <-]. split; [now left | exact Hx].
    + intros H. destruct (IH H) as [Hin Hr]. split; [now right | exact Hr].
Qed.

Lemma first_filter_exists (rows : list R) :
  existsb f rows = true -> exists r, first (filter f rows) = Some r.
Proof.
  intros H. destruct (first (filter f rows)) as [r|] eqn:E.
  - now exists r.
  - apply first_filter_none in E. congruence.
Qed.

End Queries.

Lemma mem_In (i : Z) (l : list Z) : mem i l = true <-> In i l.
Proof.
  unfold mem. rewrite existsb_exists. split.
  - intros [j [Hj E]]. apply Z.eqb_eq in E. now subst.
  - intros H. exists i. split; [exact H | apply Z.eqb_refl].
Qed.

Lemma pair_eqb_eq (a b : Z * Z) : Db.pair_eqb a b = true <-> a = b.
Proof.
  destruct a as [a1 a2], b as [b1 b2]. unfold Db.pair_eqb. simpl.
  rewrite andb_true_iff, !Z.eqb_eq. split.
  - intros [-> ->]. reflexivity.
  - intros [= -> ->]. split; reflexivity.
Qed.

Lemma has_pair (x : Z * Z) (l : list (Z * Z)) :
  existsb (Db.pair_eqb x) l = true <-> In x l.
Proof.
  rewrite existsb_exists. split.
  - intros [y [Hy E]]. apply pair_eqb_eq in E. now subst.
  - intros H. exists x. split; [exact H | now apply pair_eqb_eq].
Qed.

(** ** Comment listings *)

(** C6.  The top-level listing of a post holds exactly the stored comments
    of that post that have no parent, and the replies of a comment are
    exactly the stored comments whose parent is that comment: replies to
    replies are not followed.  Neither query writes to the store. *)
Theorem comment_listings_exact (s : Store) (post_id parent_id : Z) :
  (exists top,
      CommentCRUD.get_post_comments post_id s = (Ok top, s)
      /\ forall c, In c top <->
                   In c (comments s)
                   /\ Comment.post_id c = post_id
                   /\ Comment.parent_id c = None)
  /\ (exists replies,
         CommentCRUD.get_comment_replies parent_id s = (Ok replies, s)
         /\ forall c, In c replies <->
                      In c (comments s)
                      /\ Comment.parent_id c = Some parent_id).
Proof.
  split; eexists; (split; [reflexivity|]); intros c; rewrite filter_In.
  - rewrite andb_true_iff, Z.eqb_eq.
    destruct (Comment.parent_id c); simpl; intuition congruence.
  - unfold opt_eqb. destruct (Comment.parent_id c) as [p|].
    + rewrite Z.eqb_eq. intuition congruence.
    + intuition congruence.
Qed.

(** ** Posts of a tag *)

(** C10.  When no tag has the key, the lookup returns the empty list, as a
    value, and the store is as before; when a tag has it, the lookup
    returns exactly the stored posts that [post_tags] pairs with the key. *)
Theorem posts_by_tag_exact (s : Store) (tag_id : Z) :
  (has_tag tag_id s = false ->
   TagCRUD.get_posts_by_tag tag_id s = (Ok [], s))
  /\ (has_tag tag_id s = true ->
      exists found,
        TagCRUD.get_posts_by_tag tag_id s = (Ok found, s)
        /\ forall p, In p found <->
                     In p (posts s) /\ In (Post.id p, tag_id) (post_tags s)).
Proof.
  unfold TagCRUD.get_posts_by_tag, bind, query, ret, has_tag. simpl. split.
  - intros H. apply first_filter_none in H. now rewrite H.
  - intros H. destruct (first_filter_exists _ _ H) as [t Ht]. rewrite Ht.
    apply first_filter_some in Ht. destruct Ht as [_ Ht].
    apply Z.eqb_eq in Ht. subst tag_id.
    eexists. split; [reflexivity|]. intros p. unfold Db.tag_posts.
    now rewrite filter_In, has_pair.
Qed.

Lemma posts_by_tag_exact_witness :
  (has_tag 7 Sample.blog = false
   /\ TagCRUD.get_posts_by_tag 7 Sample.blog = (Ok [], Sample.blog))
  /\ (has_tag 1 Sample.blog = true
      /\ exists found,
          TagCRUD.get_posts_by_tag 1 Sample.blog = (Ok found, Sample.blog)
          /\ forall p, In p found <->
                       In p (posts Sample.blog)
                       /\ In (Post.id p, 1) (post_tags Sample.blog)).
Proof.
  split.
  - split; [reflexivity|].
    apply (proj1 (posts_by_tag_exact Sample.blog 7)). reflexivity.
  - split; [reflexivity|].
    apply (proj2 (posts_by_tag_exact Sample.blog 1)). reflexivity.
Defined.

(** ** Attaching a tag *)

Lemma has_post_first (s : Store) (i : Z) :
  has_post i s = false <->
  first (filter (fun p => Post.id p =? i) (posts s)) = None.
Proof.
  unfold has_post. symmetry. apply first_filter_none.
Qed.

Lemma has_tag_first (s : Store) (i : Z) :
  has_tag i s = false <->
  first (filter (fun t => Tag.id t =? i) (tags s)) = None.
Proof.
  unfold has_tag. symmetry. apply first_filter_none.
Qed.

(** C5.  [add_tag_to_post] returns [None] and leaves every table as it was
    when the post or the tag is missing; it returns a post only when both
    exist; and when both exist it returns the post, pairs it with the tag in
    [post_tags] and writes to no other table. *)
Theorem add_tag_to_post_needs_both (s : Store) (post_id tag_id : Z) :
  (has_post post_id s = false \/ has_tag tag_id s = false ->
   PostCRUD.add_tag_to_post post_id tag_id s = (Ok None, s))
  /\ (forall p s',
         PostCRUD.add_tag_to_post post_id tag_id s = (Ok (Some p), s') ->
         has_post post_id s = true /\ has_tag tag_id s = true)
  /\ (has_post post_id s = true -> has_tag tag_id s = true ->
      exists p s',
        PostCRUD.add_tag_to_post post_id tag_id s = (Ok (Some p), s')
        /\ In p (posts s) /\ Post.id p = post_id
        /\ In (post_id, tag_id) (post_tags s')
        /\ users s' = users s /\ posts s' = posts s
        /\ tags s' = tags s /\ comments s' = comments s).
Proof.
  unfold PostCRUD.add_tag_to_post, bind, query, ret. simpl.
  destruct (first (filter (fun p => Post.id p =? post_id) (posts s)))
    as [p|] eqn:Ep;
    destruct (first (filter (fun t => Tag.id t =? tag_id) (tags s)))
    as [t|] eqn:Et.
  - pose proof (first_filter_some _ _ _ Ep) as [Hp Hpid].
    pose proof (first_filter_some _ _ _ Et) as [Ht Htid].
    apply Z.eqb_eq in Hpid. apply Z.eqb_eq in Htid.
    assert (Hhp : has_post post_id s = true).
    { destruct (has_post post_id s) eqn:E; [reflexivity|].
      apply has_post_first in E. congruence. }
    assert (Hht : has_tag tag_id s = true).
    { destruct (has_tag tag_id s) eqn:E; [reflexivity|].
      apply has_tag_first in E. congruence. }
    split; [|split].
    + intros [H|H]; congruence.
    + intros; now split.
    + intros _ _. unfold Db.append_tag. rewrite Hpid, Htid.
      destruct (existsb (Db.pair_eqb (post_id, tag_id)) (post_tags s)) eqn:E.
      * exists p, s. apply has_pair in E. repeat split; auto.
      * eexists p, _. split; [reflexivity|]. simpl.
        repeat split; auto. apply in_or_app. right. now left.
  - apply has_tag_first in Et. split; [|split].
    + reflexivity.
    + discriminate.
    + congruence.
  - apply has_post_first in Ep. split; [|split].
    + reflexivity.
    + discriminate.
    + congruence.
  - apply has_post_first in Ep. split; [|split].
    + reflexivity.
    + discriminate.
    + congruence.
Qed.

Lemma add_tag_to_post_needs_both_witness :
  (has_post 9 Sample.blog = false \/ has_tag 1 Sample.blog = false)
  /\ PostCRUD.add_tag_to_post 9 1 Sample.blog = (Ok None, Sample.blog)
  /\ (PostCRUD.add_tag_to_post 1 1 Sample.blog
      = (Ok (Some Sample.intro), Sample.blog)
      /\ has_post 1 Sample.blog = true /\ has_tag 1 Sample.blog = true)
  /\ has_post 1 Sample.blog = true /\ has_tag 1 Sample.blog = true
  /\ exists p s',
      PostCRUD.add_tag_to_post 1 1 Sample.blog = (Ok (Some p), s')
      /\ In p (posts Sample.blog) /\ Post.id p = 1
      /\ In (1, 1) (post_tags s')
      /\ users s' = users Sample.blog /\ posts s' = posts Sample.blog
      /\ tags s' = tags Sample.blog /\ comments s' = comments Sample.blog.
Proof.
  split; [left; reflexivity|].
  split; [|split].
  - apply (proj1 (add_tag_to_post_needs_both Sample.blog 9 1)).
    left. reflexivity.
  - split; [reflexivity|].
    apply (proj1 (proj2 (add_tag_to_post_needs_both Sample.blog 1 1))
                 Sample.intro Sample.blog).
    reflexivity.
  - split; [reflexivity|]. split; [reflexivity|].
    apply (proj2 (proj2 (add_tag_to_post_needs_both Sample.blog 1 1)));
      reflexivity.
Defined.

(** ** Deletion and its cascades *)

Section Rows.

Context {R : Type}.
Variable key : R -> Z.

Lemma delete_rows_In (dead : list Z) (rows : list R) (r : R) :
  In r (Db.delete_rows key dead rows) <-> In r rows /\ ~ In (key r) dead.
Proof.
  unfold Db.delete_rows. rewrite filter_In, negb_true_iff.
  rewrite <- not_true_iff_false, mem_In. reflexivity.
Qed.

Lemma delete_rows_gone (dead : list Z) (rows : list R) (i : Z) :
  In i dead ->
  first (filter (fun r => key r =? i) (Db.delete_rows key dead rows)) = None.
Proof.
  intros Hi. apply first_filter_none.
  destruct (existsb _ _) eqn:E; [|reflexivity].
  apply existsb_exists in E. destruct E as [r [Hr E]].
  apply delete_rows_In in Hr. apply Z.eqb_eq in E. subst i. tauto.
Qed.

Lemma delete_rows_kept (dead : list Z) (rows : list R) (i : Z) :
  ~ In i dead ->
  first (filter (fun r => key r =? i) (Db.delete_rows key dead rows))
  = first (filter (fun r => key r =? i) rows).
Proof.
  intros Hi. unfold Db.delete_rows.
  induction rows as [|r rows IH]; simpl; [reflexivity|].
  destruct (mem (key r) dead) eqn:Em; simpl.
  - destruct (key r =? i) eqn:E; [|exact IH].
    apply Z.eqb_eq in E. apply mem_In in Em. subst i. contradiction.
  - destruct (key r =? i); [reflexivity | exact IH].
Qed.

End Rows.

Lemma filter_length_lt {A} (f g : A -> bool) (l : list A) (x : A) :
  (forall a, g a = true -> f a = true) ->
  In x l -> f x = true -> g x = false ->
  (List.length (filter g l) < List.length (filter f l))%nat.
Proof.
  intros Hgf. induction l as [|a l IH]; simpl; [contradiction|].
  assert (Hle : (List.length (filter g l) <= List.length (filter f l))%nat).
  { clear IH. induction l as [|b l IHl]; simpl; [lia|].
    destruct (g b) eqn:Eg.
    - rewrite (Hgf b Eg). simpl. lia.
    - destruct (f b); simpl; lia. }
  intros [->|Hin] Hf Hg.
  - rewrite Hf, Hg. simpl. lia.
  - specialize (IH Hin Hf Hg). destruct (g a) eqn:Eg.
    + rewrite (Hgf a Eg). simpl. lia.
    + destruct (f a); simpl; lia.
Qed.

Section Cascade.

Variable cs : list Comment.t.

Lemma cascade_replies_extends (fuel : nat) (dead : list Z) (i : Z) :
  In i dead -> In i (Db.cascade_replies fuel cs dead).
Proof.
  revert dead. induction fuel as [|fuel IH]; intros dead Hi; simpl.
  - exact Hi.
  - destruct (Db.orphans cs dead) as [|o os]; [exact Hi|].
    apply IH. apply in_or_app. now left.
Qed.

Lemma orphans_none (dead : list Z) (c : Comment.t) (p : Z) :
  Db.orphans cs dead = [] ->
  In c cs -> Comment.parent_id c = Some p -> In p dead ->
  In (Comment.id c) dead.
Proof.
  intros Ho Hc Hp Hd.
  destruct (mem (Comment.id c) dead) eqn:Em; [now apply mem_In|].
  assert (Hin : In c (Db.orphans cs dead)).
  { unfold Db.orphans. apply filter_In. split; [exact Hc|].
    rewrite Hp, Em. simpl. rewrite andb_true_r. now apply mem_In. }
  rewrite Ho in Hin. contradiction.
Qed.

Lemma orphans_shrink (dead : list Z) (o : Comment.t) (os : list Comment.t) :
  Db.orphans cs dead = o :: os ->
  (alive cs (dead ++ map Comment.id (o :: os)) < alive cs dead)%nat.
Proof.
  intros Ho.
  assert (Hin : In o (Db.orphans cs dead)) by (rewrite Ho; now left).
  unfold Db.orphans in Hin. apply filter_In in Hin.
  destruct Hin as [Hcs Hcond]. apply andb_true_iff in Hcond.
  destruct Hcond as [_ Hal].
  unfold alive. apply filter_length_lt with (x := o); auto.
  - intros a Ha. rewrite negb_true_iff in *.
    rewrite <- not_true_iff_false in *. rewrite mem_In in *.
    intros H. apply Ha. apply in_or_app. now left.
  - rewrite negb_false_iff. apply mem_In. apply in_or_app. right. now left.
Qed.

(** With fuel above the number of comments still alive, the keys returned
    are closed under "reply to". *)
Lemma cascade_replies_closed (fuel : nat) (dead : list Z) :
  (alive cs dead < fuel)%nat ->
  forall c p,
    In c cs -> Comment.parent_id c = Some p ->
    In p (Db.cascade_replies fuel cs dead) ->
    In (Comment.id c) (Db.cascade_replies fuel cs dead).
Proof.
  revert dead. induction fuel as [|fuel IH]; intros dead Hfuel; [lia|].
  simpl. destruct (Db.orphans cs dead) as [|o os] eqn:Ho.
  - intros c p. now apply orphans_none.
  - apply IH. pose proof (orphans_shrink _ _ _ Ho) as Hs. simpl in Hs. lia.
Qed.

Lemma alive_le (dead : list Z) : (alive cs dead <= List.length cs)%nat.
Proof.
  unfold alive. apply filter_length_le.
Qed.

(** Every comment of a discussion whose top comments are deleted is
    deleted. *)
Lemma cascade_replies_thread (top : Comment.t -> Prop) (dead : list Z) :
  (forall c, In c cs -> top c -> In (Comment.id c) dead) ->
  forall c,
    in_thread cs top c ->
    In (Comment.id c) (Db.cascade_replies (S (List.length cs)) cs dead).
Proof.
  intros Htop c Hc. induction Hc as [c Hin Ht | c p Hin Hp IH Hpar].
  - apply cascade_replies_extends. now apply Htop.
  - apply cascade_replies_closed with (p := Comment.id p); auto.
    pose proof (alive_le dead). lia.
Qed.

End Cascade.

Lemma present_first {R} (key : R -> Z) (rows : list R) (r : R) :
  In r rows ->
  exists r0, first (filter (fun x => key x =? key r) rows) = Some r0
             /\ In r0 rows /\ key r0 = key r.
Proof.
  intros Hin.
  destruct (first_filter_exists (fun x => key x =? key r) rows) as [r0 H0].
  - apply existsb_exists. exists r. split; [exact Hin | apply Z.eqb_refl].
  - exists r0. split; [exact H0|].
    apply first_filter_some in H0. now rewrite Z.eqb_eq in H0.
Qed.

Lemma delete_user_found (s : Store) (i : Z) (u : User.t) :
  first (filter (fun x => User.id x =? i) (users s)) = Some u ->
  UserCRUD.delete_user i s = (Ok true, snd (Db.delete_user u s)).
Proof.
  intros H. unfold UserCRUD.delete_user, bind, query, ret. simpl.
  rewrite H. reflexivity.
Qed.

Lemma delete_post_found (s : Store) (i : Z) (p : Post.t) :
  first (filter (fun x => Post.id x =? i) (posts s)) = Some p ->
  PostCRUD.delete_post i s = (Ok true, snd (Db.delete_post p s)).
Proof.
  intros H. unfold PostCRUD.delete_post, bind, query, ret. simpl.
  rewrite H. reflexivity.
Qed.

Lemma delete_comment_found (s : Store) (i : Z) (c : Comment.t) :
  first (filter (fun x => Comment.id x =? i) (comments s)) = Some c ->
  CommentCRUD.delete_comment i s = (Ok true, snd (Db.delete_comment c s)).
Proof.
  intros H. unfold CommentCRUD.delete_comment, bind, query, ret. simpl.
  rewrite H. reflexivity.
Qed.

(** A key the flush deletes cannot be fetched afterwards. *)
Lemma get_comment_after_flush (s : Store) (us ps cs : list Z) (i : Z) :
  let s' := snd (Db.flush_delete us ps cs s) in
  In i cs ->
  CommentCRUD.get_comment i s' = (Ok None, s').
Proof.
  intros s' Hi. unfold CommentCRUD.get_comment, bind, query, ret. simpl.
  rewrite delete_rows_gone; [reflexivity|].
  unfold Db.doomed_comments. apply cascade_replies_extends.
  apply in_or_app. now left.
Qed.

Lemma get_post_after_flush (s : Store) (us ps cs : list Z) (i : Z) :
  let s' := snd (Db.flush_delete us ps cs s) in
  In i ps ->
  PostCRUD.get_post i s' = (Ok None, s').
Proof.
  intros s' Hi. unfold PostCRUD.get_post, bind, query, ret. simpl.
  rewrite delete_rows_gone; [reflexivity|].
  unfold Db.doomed_posts. apply in_or_app. now left.
Qed.

Lemma get_user_after_flush (s : Store) (us ps cs : list Z) (i : Z) :
  let s' := snd (Db.flush_delete us ps cs s) in
  In i us ->
  UserCRUD.get_user i s' = (Ok None, s').
Proof.
  intros s' Hi. unfold UserCRUD.get_user, bind, query, ret. simpl.
  now rewrite delete_rows_gone.
Qed.

Lemma post_comments_In (s : Store) (c : Comment.t) (i : Z) :
  In c (comments s) -> Comment.post_id c = i ->
  In (Comment.id c) (Db.post_comments i s).
Proof.
  intros Hc Hi. unfold Db.post_comments. apply in_map. apply filter_In.
  split; [exact Hc | now apply Z.eqb_eq].
Qed.

Lemma user_posts_In (s : Store) (p : Post.t) (i : Z) :
  In p (posts s) -> Post.author_id p = i ->
  In (Post.id p) (Db.user_posts i s).
Proof.
  intros Hp Hi. unfold Db.user_posts. apply in_map. apply filter_In.
  split; [exact Hp | now apply Z.eqb_eq].
Qed.

Lemma user_comments_In (s : Store) (c : Comment.t) (i : Z) :
  In c (comments s) -> Comment.author_id c = i ->
  In (Comment.id c) (Db.user_comments i s).
Proof.
  intros Hc Hi. unfold Db.user_comments. apply in_map. apply filter_In.
  split; [exact Hc | now apply Z.eqb_eq].
Qed.

(** The database cascade on its own reaches whole discussions: the comments
    tied to deleted users and posts, and every reply under them that still
    points to its parent. *)
Lemma doomed_comments_thread (s : Store) (us ps cs : list Z) (c : Comment.t) :
  in_thread (comments s)
            (fun c => In (Comment.author_id c) us
                      \/ In (Comment.post_id c) ps
                      \/ In (Comment.id c) cs) c ->
  In (Comment.id c) (Db.doomed_comments us ps cs s).
Proof.
  unfold Db.doomed_comments. apply cascade_replies_thread.
  intros x Hx [H|[H|H]]; apply in_or_app.
  - right. apply in_map. apply filter_In. split; [exact Hx|].
    apply orb_true_iff. left. now apply mem_In.
  - right. apply in_map. apply filter_In. split; [exact Hx|].
    apply orb_true_iff. right. now apply mem_In.
  - now left.
Qed.

Lemma in_thread_In (cs : list Comment.t) (top : Comment.t -> Prop)
      (c : Comment.t) :
  in_thread cs top c -> In c cs.
Proof.
  intros H. now destruct H.
Qed.

(** C1.  Deleting a stored user removes every post the user wrote, every
    comment on those posts and every comment the user wrote.  Deleting a
    stored post removes every comment on the post, whatever its parent: in
    particular the whole of every discussion held on the post, a reply to
    a reply included.  Fetching any of these keys afterwards returns
    [None]. *)
Theorem delete_cascades (s : Store) :
  (forall u,
      In u (users s) ->
      let s' := after (UserCRUD.delete_user (User.id u)) s in
      (forall p,
          In p (posts s) -> Post.author_id p = User.id u ->
          PostCRUD.get_post (Post.id p) s' = (Ok None, s')
          /\ forall c,
              In c (comments s) -> Comment.post_id c = Post.id p ->
              CommentCRUD.get_comment (Comment.id c) s' = (Ok None, s'))
      /\ (forall c,
             In c (comments s) -> Comment.author_id c = User.id u ->
             CommentCRUD.get_comment (Comment.id c) s' = (Ok None, s')))
  /\ (forall p,
         In p (posts s) ->
         let s' := after (PostCRUD.delete_post (Post.id p)) s in
         (forall c,
             In c (comments s) -> Comment.post_id c = Post.id p ->
             CommentCRUD.get_comment (Comment.id c) s' = (Ok None, s'))
         /\ (forall c,
                in_thread
                  (filter (fun c => Comment.post_id c =? Post.id p) (comments s))
                  (fun c => Comment.parent_id c = None) c ->
                CommentCRUD.get_comment (Comment.id c) s' = (Ok None, s'))).
Proof.
  split.
  - intros u Hu s'.
    destruct (present_first User.id (users s) u Hu) as [u0 [H0 [_ Hid]]].
    assert (Es : s' = snd (Db.delete_user u0 s)).
    { unfold s', after. now rewrite (delete_user_found s _ u0 H0). }
    rewrite Es. unfold Db.delete_user. rewrite Hid. split.
    + intros p Hp Ha. split.
      * apply get_post_after_flush. now apply user_posts_In.
      * intros c Hc Hcp. apply get_comment_after_flush.
        apply in_or_app. right. apply in_flat_map. exists (Post.id p).
        split; [now apply user_posts_In | now apply post_comments_In].
    + intros c Hc Ha. apply get_comment_after_flush.
      apply in_or_app. left. now apply user_comments_In.
  - intros p Hp s'.
    destruct (present_first Post.id (posts s) p Hp) as [p0 [H0 [_ Hid]]].
    assert (Es : s' = snd (Db.delete_post p0 s)).
    { unfold s', after. now rewrite (delete_post_found s _ p0 H0). }
    rewrite Es. unfold Db.delete_post. rewrite Hid.
    assert (Hall : forall c, In c (comments s) ->
                             Comment.post_id c = Post.id p ->
                             CommentCRUD.get_comment
                               (Comment.id c)
                               (snd (Db.flush_delete
                                       [] [Post.id p]
                                       (Db.post_comments (Post.id p) s) s))
                             = (Ok None,
                                snd (Db.flush_delete
                                       [] [Post.id p]
                                       (Db.post_comments (Post.id p) s) s))).
    { intros c Hc Hcp. apply get_comment_after_flush.
      now apply post_comments_In. }
    split; [exact Hall|].
    intros c Hc. apply in_thread_In in Hc. apply filter_In in Hc.
    destruct Hc as [Hc Hcp]. apply Z.eqb_eq in Hcp. now apply Hall.
Qed.

Lemma delete_cascades_witness :
  In Sample.john (users Sample.with_agreed)
  /\ In Sample.intro (posts Sample.with_agreed)
  /\ (let s' := after (UserCRUD.delete_user 1) Sample.with_agreed in
      PostCRUD.get_post 1 s' = (Ok None, s')
      /\ CommentCRUD.get_comment 2 s' = (Ok None, s')
      /\ CommentCRUD.get_comment 3 s' = (Ok None, s'))
  /\ (let s' := after (PostCRUD.delete_post 1) Sample.with_agreed in
      CommentCRUD.get_comment 1 s' = (Ok None, s')
      /\ CommentCRUD.get_comment 3 s' = (Ok None, s')).
Proof.
  assert (Hj : In Sample.john (users Sample.with_agreed))
    by (left; reflexivity).
  assert (Hi : In Sample.intro (posts Sample.with_agreed))
    by (left; reflexivity).
  assert (Hn : In Sample.nice (comments Sample.with_agreed))
    by (left; reflexivity).
  assert (Ht : In Sample.thanks (comments Sample.with_agreed))
    by (right; left; reflexivity).
  assert (Ha : In Sample.agreed (comments Sample.with_agreed))
    by (right; right; left; reflexivity).
  pose proof (delete_cascades Sample.with_agreed) as [U P].
  split; [exact Hj|]. split; [exact Hi|]. split.
  - split; [|split].
    + apply (proj1 (U Sample.john Hj) Sample.intro Hi). reflexivity.
    + apply (proj2 (proj1 (U Sample.john Hj) Sample.intro Hi eq_refl)
                   Sample.thanks Ht).
      reflexivity.
    + apply (proj2 (U Sample.john Hj) Sample.agreed Ha). reflexivity.
  - split.
    + apply (proj1 (P Sample.intro Hi) Sample.nice Hn). reflexivity.
    + apply (proj2 (P Sample.intro Hi) Sample.agreed).
      assert (F : forall c,
                 In c (comments Sample.with_agreed) ->
                 Comment.post_id c = 1 ->
                 In c (filter (fun c => Comment.post_id c =? 1)
                              (comments Sample.with_agreed))).
      { intros c Hc Hp. apply filter_In.
        split; [exact Hc | now apply Z.eqb_eq]. }
      apply thread_reply with (p := Sample.thanks);
        [apply F; [exact Ha | reflexivity] | | reflexivity].
      apply thread_reply with (p := Sample.nice);
        [apply F; [exact Ht | reflexivity] | | reflexivity].
      apply thread_top; [apply F; [exact Hn | reflexivity] | reflexivity].
Defined.

Lemma has_user_first (s : Store) (i : Z) :
  has_user i s = false <->
  first (filter (fun u => User.id u =? i) (users s)) = None.
Proof.
  unfold has_user. symmetry. apply first_filter_none.
Qed.

Lemma has_comment_first (s : Store) (i : Z) :
  has_comment i s = false <->
  first (filter (fun c => Comment.id c =? i) (comments s)) = None.
Proof.
  unfold has_comment. symmetry. apply first_filter_none.
Qed.

(** C4.  For users, posts and comments alike: deleting a key that is stored
    returns [True], and fetching the key afterwards returns [None];
    deleting a key that is not stored returns [False], does not raise, and
    leaves the store as it was. *)
Theorem delete_contract (s : Store) (i : Z) :
  (has_user i s = true ->
   exists s', UserCRUD.delete_user i s = (Ok true, s')
              /\ UserCRUD.get_user i s' = (Ok None, s'))
  /\ (has_user i s = false -> UserCRUD.delete_user i s = (Ok false, s))
  /\ (has_post i s = true ->
      exists s', PostCRUD.delete_post i s = (Ok true, s')
                 /\ PostCRUD.get_post i s' = (Ok None, s'))
  /\ (has_post i s = false -> PostCRUD.delete_post i s = (Ok false, s))
  /\ (has_comment i s = true ->
      exists s', CommentCRUD.delete_comment i s = (Ok true, s')
                 /\ CommentCRUD.get_comment i s' = (Ok None, s'))
  /\ (has_comment i s = false ->
      CommentCRUD.delete_comment i s = (Ok false, s)).
Proof.
  repeat split.
  - intros H. destruct (first_filter_exists _ _ H) as [u Hu].
    eexists. split; [apply (delete_user_found _ _ _ Hu)|].
    apply first_filter_some in Hu. destruct Hu as [_ Hu].
    apply Z.eqb_eq in Hu. apply get_user_after_flush. now left.
  - intros H. apply has_user_first in H.
    unfold UserCRUD.delete_user, bind, query, ret. simpl. now rewrite H.
  - intros H. destruct (first_filter_exists _ _ H) as [p Hp].
    eexists. split; [apply (delete_post_found _ _ _ Hp)|].
    apply first_filter_some in Hp. destruct Hp as [_ Hp].
    apply Z.eqb_eq in Hp. apply get_post_after_flush. now left.
  - intros H. apply has_post_first in H.
    unfold PostCRUD.delete_post, bind, query, ret. simpl. now rewrite H.
  - intros H. destruct (first_filter_exists _ _ H) as [c Hc].
    eexists. split; [apply (delete_comment_found _ _ _ Hc)|].
    apply first_filter_some in Hc. destruct Hc as [_ Hc].
    apply Z.eqb_eq in Hc. apply get_comment_after_flush. now left.
  - intros H. apply has_comment_first in H.
    unfold CommentCRUD.delete_comment, bind, query, ret. simpl. now rewrite H.
Qed.

Lemma delete_contract_witness :
  (has_user 1 Sample.blog = true
   /\ exists s', UserCRUD.delete_user 1 Sample.blog = (Ok true, s')
                 /\ UserCRUD.get_user 1 s' = (Ok None, s'))
  /\ (has_user 9 Sample.blog = false
      /\ UserCRUD.delete_user 9 Sample.blog = (Ok false, Sample.blog))
  /\ (has_post 1 Sample.blog = true
      /\ exists s', PostCRUD.delete_post 1 Sample.blog = (Ok true, s')
                    /\ PostCRUD.get_post 1 s' = (Ok None, s'))
  /\ (has_post 9 Sample.blog = false
      /\ PostCRUD.delete_post 9 Sample.blog = (Ok false, Sample.blog))
  /\ (has_comment 1 Sample.blog = true
      /\ exists s', CommentCRUD.delete_comment 1 Sample.blog = (Ok true, s')
                    /\ CommentCRUD.get_comment 1 s' = (Ok None, s'))
  /\ (has_comment 9 Sample.blog = false
      /\ CommentCRUD.delete_comment 9 Sample.blog = (Ok false, Sample.blog)).
Proof.
  pose proof (delete_contract Sample.blog 1) as [U1 [_ [P1 [_ [C1 _]]]]].
  pose proof (delete_contract Sample.blog 9) as [_ [U9 [_ [P9 [_ C9]]]]].
  repeat split;
    first [ reflexivity
          | apply U1; reflexivity | apply U9; reflexivity
          | apply P1; reflexivity | apply P9; reflexivity
          | apply C1; reflexivity | apply C9; reflexivity ].
Defined.

(** ** Creation *)

Lemma first_filter_last {R} (f : R -> bool) (rows : list R) (r : R) :
  existsb f rows = false -> f r = true ->
  first (filter f (rows ++ [r])) = Some r.
Proof.
  intros Hn Hr. rewrite filter_app. simpl. rewrite Hr.
  apply first_filter_none in Hn.
  destruct (filter f rows); [reflexivity | discriminate].
Qed.

Lemma default_supplied_or {A} (d : A) (o : option A) :
  supplied_or o d (default d o).
Proof.
  unfold supplied_or. now destruct o.
Qed.

Lemma default_stamped (now : Z) (o : option Z) : stamped o (default now o).
Proof.
  unfold stamped. destruct o as [v|]; simpl.
  - exists v. split; [reflexivity|]. now intros ? [= <-].
  - exists now. split; [reflexivity | discriminate].
Qed.

Lemma create_user_get (s s' : Store) (username email password : string)
      (kw : User.kwargs) (u : User.t) :
  UserCRUD.create_user username email password kw s = (Ok u, s') ->
  UserCRUD.get_user (User.id u) s' = (Ok (Some u), s')
  /\ u = Db.new_user username email password kw (users_id_seq s) (utcnow s).
Proof.
  unfold UserCRUD.create_user, Db.add_user.
  destruct (has_user _ s) eqn:Hpk; [discriminate|].
  destruct (taken _ _ _ _ _); [discriminate|].
  destruct (taken _ _ _ _ _); [discriminate|].
  intros [= <- <-]. split; [|reflexivity].
  unfold UserCRUD.get_user, bind, query, ret. cbn [users with_users].
  rewrite first_filter_last; auto. apply Z.eqb_refl.
Qed.

Lemma create_post_get (s s' : Store) (title content : string) (author_id : Z)
      (kw : Post.kwargs) (p : Post.t) :
  PostCRUD.create_post title content author_id kw s = (Ok p, s') ->
  PostCRUD.get_post (Post.id p) s' = (Ok (Some p), s')
  /\ p = Db.new_post title content author_id kw (posts_id_seq s) (utcnow s).
Proof.
  unfold PostCRUD.create_post, Db.add_post.
  destruct (has_post _ s) eqn:Hpk; [discriminate|].
  destruct (taken _ _ _ _ _); [discriminate|].
  destruct (negb _); [discriminate|].
  intros [= <- <-]. split; [|reflexivity].
  unfold PostCRUD.get_post, bind, query, ret. cbn [posts with_posts].
  rewrite first_filter_last; auto. apply Z.eqb_refl.
Qed.

Lemma create_tag_get (s s' : Store) (name : string) (kw : Tag.kwargs)
      (t : Tag.t) :
  TagCRUD.create_tag name kw s = (Ok t, s') ->
  TagCRUD.get_tag (Tag.id t) s' = (Ok (Some t), s')
  /\ t = Db.new_tag name kw (tags_id_seq s) (utcnow s).
Proof.
  unfold TagCRUD.create_tag, Db.add_tag.
  destruct (has_tag _ s) eqn:Hpk; [discriminate|].
  destruct (taken _ _ _ _ _); [discriminate|].
  destruct (taken _ _ _ _ _); [discriminate|].
  intros [= <- <-]. split; [|reflexivity].
  unfold TagCRUD.get_tag, bind, query, ret. cbn [tags with_tags].
  rewrite first_filter_last; auto. apply Z.eqb_refl.
Qed.

Lemma create_comment_get (s s' : Store) (content : string)
      (author_id post_id : Z) (parent_id : option Z) (c : Comment.t) :
  CommentCRUD.create_comment content author_id post_id parent_id s
  = (Ok c, s') ->
  CommentCRUD.get_comment (Comment.id c) s' = (Ok (Some c), s')
  /\ c = Db.new_comment content author_id post_id parent_id
                        (comments_id_seq s) (utcnow s).
Proof.
  unfold CommentCRUD.create_comment, Db.add_comment.
  destruct (has_comment _ s) eqn:Hpk; [discriminate|].
  destruct (negb (has_user _ _)); [discriminate|].
  destruct (negb (has_post _ _)); [discriminate|].
  destruct (match parent_id with Some _ => _ | None => _ end); [discriminate|].
  intros [= <- <-]. split; [|reflexivity].
  unfold CommentCRUD.get_comment, bind, query, ret.
  cbn [comments with_comments].
  rewrite first_filter_last; auto. apply Z.eqb_refl.
Qed.

Lemma not_taken {R} (key : R -> Z) (col : R -> option string) (self : Z)
      (v : option string) (rows : list R) :
  (forall w r, v = Some w -> In r rows -> col r <> Some w) ->
  taken key col self v rows = false.
Proof.
  intros H. destruct v as [w|]; [|reflexivity].
  apply not_true_iff_false. intros Ht.
  unfold taken in Ht. apply existsb_exists in Ht.
  destruct Ht as [r [Hr Hc]]. apply andb_true_iff in Hc.
  destruct Hc as [_ Hc]. unfold str_opt_eqb in Hc.
  destruct (col r) as [x|] eqn:E; [|discriminate].
  apply String.eqb_eq in Hc. subst x. now apply (H w r eq_refl Hr).
Qed.

Lemma create_user_returns (s : Store) (username email password : string)
      (kw : User.kwargs) :
  user_fields_ok s username email kw ->
  exists u s',
    UserCRUD.create_user username email password kw s = (Ok u, s').
Proof.
  intros (Hpk & Hname & Hmail). unfold UserCRUD.create_user, Db.add_user.
  cbn [User.id Db.new_user]. rewrite Hpk.
  rewrite !not_taken; [eexists _, _; reflexivity | |].
  - intros w r [= <-] Hr E. apply (Hmail r Hr). now injection E.
  - intros w r [= <-] Hr E. apply (Hname r Hr). now injection E.
Qed.

Lemma create_post_returns (s : Store) (title content : string) (author_id : Z)
      (kw : Post.kwargs) :
  post_fields_ok s author_id kw ->
  exists p s',
    PostCRUD.create_post title content author_id kw s = (Ok p, s').
Proof.
  intros (Hpk & Hslug & Hau). unfold PostCRUD.create_post, Db.add_post.
  cbn [Post.id Post.slug Db.new_post]. rewrite Hpk, Hau.
  rewrite not_taken; [eexists _, _; reflexivity|].
  intros w r E Hr. now apply Hslug.
Qed.

Lemma create_tag_returns (s : Store) (name : string) (kw : Tag.kwargs) :
  tag_fields_ok s name kw ->
  exists t s', TagCRUD.create_tag name kw s = (Ok t, s').
Proof.
  intros (Hpk & Hname & Hslug). unfold TagCRUD.create_tag, Db.add_tag.
  cbn [Tag.id Tag.slug Db.new_tag]. rewrite Hpk.
  rewrite !not_taken; [eexists _, _; reflexivity | |].
  - intros w r E Hr. now apply Hslug.
  - intros w r [= <-] Hr E. apply (Hname r Hr). now injection E.
Qed.

Lemma create_comment_returns (s : Store) (content : string)
      (author_id post_id : Z) (parent_id : option Z) :
  comment_fields_ok s author_id post_id parent_id ->
  exists c s',
    CommentCRUD.create_comment content author_id post_id parent_id s
    = (Ok c, s').
Proof.
  intros (Hpk & Hau & Hpo & Hpa).
  unfold CommentCRUD.create_comment, Db.add_comment.
  cbn [Comment.id Db.new_comment]. rewrite Hpk, Hau, Hpo.
  destruct parent_id as [p|]; [rewrite (Hpa p eq_refl)|];
    eexists _, _; reflexivity.
Qed.

(** C2.  For each of the four entity types and every valid field set,
    [create] returns an entity, and fetching the entity's key returns that
    very entity; every supplied field holds the supplied value; the key is
    the supplied one or the next value of the table's counter; the
    timestamps the table has are not null; and the defaulted columns that
    were not supplied hold their defaults ([is_active] true, [is_superuser]
    false, [is_published] false, [view_count] 0, [is_approved] true). *)
Theorem create_then_get (s : Store) :
  (forall username email password kw,
      user_fields_ok s username email kw ->
      exists u s',
        UserCRUD.create_user username email password kw s = (Ok u, s')
        /\ UserCRUD.get_user (User.id u) s' = (Ok (Some u), s')
        /\ User.id u = pk (User.kw_id kw) (users_id_seq s)
        /\ User.username u = username
        /\ User.email u = email
        /\ User.hashed_password u = password
        /\ User.full_name u = User.kw_full_name kw
        /\ User.bio u = User.kw_bio kw
        /\ supplied_or (User.kw_is_active kw) true (User.is_active u)
        /\ supplied_or (User.kw_is_superuser kw) false (User.is_superuser u)
        /\ stamped (User.kw_created_at kw) (User.created_at u)
        /\ stamped (User.kw_updated_at kw) (User.updated_at u))
  /\ (forall title content author_id kw,
         post_fields_ok s author_id kw ->
         exists p s',
           PostCRUD.create_post title content author_id kw s = (Ok p, s')
           /\ PostCRUD.get_post (Post.id p) s' = (Ok (Some p), s')
           /\ Post.id p = pk (Post.kw_id kw) (posts_id_seq s)
           /\ Post.title p = title
           /\ Post.content p = content
           /\ Post.author_id p = author_id
           /\ Post.slug p = Post.kw_slug kw
           /\ Post.summary p = Post.kw_summary kw
           /\ Post.published_at p = Post.kw_published_at kw
           /\ supplied_or (Post.kw_is_published kw) false (Post.is_published p)
           /\ supplied_or (Post.kw_view_count kw) 0 (Post.view_count p)
           /\ stamped (Post.kw_created_at kw) (Post.created_at p)
           /\ stamped (Post.kw_updated_at kw) (Post.updated_at p))
  /\ (forall name kw,
         tag_fields_ok s name kw ->
         exists t s',
           TagCRUD.create_tag name kw s = (Ok t, s')
           /\ TagCRUD.get_tag (Tag.id t) s' = (Ok (Some t), s')
           /\ Tag.id t = pk (Tag.kw_id kw) (tags_id_seq s)
           /\ Tag.name t = name
           /\ Tag.slug t = Tag.kw_slug kw
           /\ Tag.description t = Tag.kw_description kw
           /\ stamped (Tag.kw_created_at kw) (Tag.created_at t))
  /\ (forall content author_id post_id parent_id,
         comment_fields_ok s author_id post_id parent_id ->
         exists c s',
           CommentCRUD.create_comment content author_id post_id parent_id s
           = (Ok c, s')
           /\ CommentCRUD.get_comment (Comment.id c) s' = (Ok (Some c), s')
           /\ Comment.id c = comments_id_seq s
           /\ Comment.content c = content
           /\ Comment.author_id c = author_id
           /\ Comment.post_id c = post_id
           /\ Comment.parent_id c = parent_id
           /\ supplied_or None true (Comment.is_approved c)
           /\ stamped None (Comment.created_at c)
           /\ stamped None (Comment.updated_at c)).
Proof.
  repeat apply conj.
  - intros username email password kw Hok.
    destruct (create_user_returns s username email password kw Hok)
      as (u & s' & H).
    exists u, s'. split; [exact H|].
    destruct (create_user_get _ _ _ _ _ _ _ H) as [Hget ->].
    split; [exact Hget|]. cbn.
    repeat split;
      first [apply default_supplied_or | apply default_stamped].
  - intros title content author_id kw Hok.
    destruct (create_post_returns s title content author_id kw Hok)
      as (p & s' & H).
    exists p, s'. split; [exact H|].
    destruct (create_post_get _ _ _ _ _ _ _ H) as [Hget ->].
    split; [exact Hget|]. cbn.
    repeat split;
      first [apply default_supplied_or | apply default_stamped].
  - intros name kw Hok.
    destruct (create_tag_returns s name kw Hok) as (t & s' & H).
    exists t, s'. split; [exact H|].
    destruct (create_tag_get _ _ _ _ _ H) as [Hget ->].
    split; [exact Hget|]. cbn.
    repeat split; apply default_stamped.
  - intros content author_id post_id parent_id Hok.
    destruct (create_comment_returns s content author_id post_id parent_id Hok)
      as (c & s' & H).
    exists c, s'. split; [exact H|].
    destruct (create_comment_get _ _ _ _ _ _ _ H) as [Hget ->].
    split; [exact Hget|]. cbn.
    repeat split;
      first [apply (default_supplied_or true None)
            | apply (default_stamped (utcnow s) None)].
Qed.

Lemma create_then_get_witness :
  (user_fields_ok Sample.blog "jane" "jane@example.com" Sample.jane_kwargs
   /\ exists u s',
       UserCRUD.create_user "jane" "jane@example.com" "hashed"
                            Sample.jane_kwargs Sample.blog
       = (Ok u, s')
       /\ UserCRUD.get_user (User.id u) s' = (Ok (Some u), s')
       /\ User.full_name u = Some "Jane Smith"%string
       /\ supplied_or None true (User.is_active u))
  /\ (post_fields_ok Sample.blog 1 Sample.patterns_kwargs
      /\ exists p s',
          PostCRUD.create_post "Patterns" "Design patterns" 1
                               Sample.patterns_kwargs Sample.blog
          = (Ok p, s')
          /\ PostCRUD.get_post (Post.id p) s' = (Ok (Some p), s')
          /\ supplied_or (Some true) false (Post.is_published p)
          /\ supplied_or None 0 (Post.view_count p))
  /\ (tag_fields_ok Sample.blog "Python" Tag.no_kwargs
      /\ exists t s',
          TagCRUD.create_tag "Python" Tag.no_kwargs Sample.blog = (Ok t, s')
          /\ TagCRUD.get_tag (Tag.id t) s' = (Ok (Some t), s')
          /\ stamped None (Tag.created_at t))
  /\ (comment_fields_ok Sample.blog 1 1 (Some 2)
      /\ exists c s',
          CommentCRUD.create_comment "agreed" 1 1 (Some 2) Sample.blog
          = (Ok c, s')
          /\ CommentCRUD.get_comment (Comment.id c) s' = (Ok (Some c), s')
          /\ supplied_or None true (Comment.is_approved c)).
Proof.
  pose proof (create_then_get Sample.blog) as (HU & HP & HT & HC).
  assert (Hu : user_fields_ok Sample.blog "jane" "jane@example.com"
                              Sample.jane_kwargs).
  { repeat split; try reflexivity;
      intros u [<-|[]]; discriminate. }
  assert (Hp : post_fields_ok Sample.blog 1 Sample.patterns_kwargs).
  { repeat split; try reflexivity.
    intros v p [= <-] [<-|[]]. discriminate. }
  assert (Ht : tag_fields_ok Sample.blog "Python" Tag.no_kwargs).
  { repeat split; try reflexivity.
    - intros t [<-|[]]. discriminate.
    - discriminate. }
  assert (Hc : comment_fields_ok Sample.blog 1 1 (Some 2)).
  { repeat split; try reflexivity. intros p [= <-]. reflexivity. }
  split; [|split; [|split]].
  - split; [exact Hu|].
    destruct (HU "jane"%string "jane@example.com"%string "hashed"%string
                 Sample.jane_kwargs Hu)
      as (u & s' & H1 & H2 & _ & _ & _ & _ & H7 & _ & H9 & _).
    exists u, s'. repeat split; assumption.
  - split; [exact Hp|].
    destruct (HP "Patterns"%string "Design patterns"%string 1
                 Sample.patterns_kwargs Hp)
      as (p & s' & H1 & H2 & _ & _ & _ & _ & _ & _ & _ & H10 & H11 & _).
    exists p, s'. repeat split; assumption.
  - split; [exact Ht|].
    destruct (HT "Python"%string Tag.no_kwargs Ht)
      as (t & s' & H1 & H2 & _ & _ & _ & _ & H7).
    exists t, s'. repeat split; assumption.
  - split; [exact Hc|].
    destruct (HC "agreed"%string 1 1 (Some 2) Hc)
      as (c & s' & H1 & H2 & _ & _ & _ & _ & _ & H8 & _).
    exists c, s'. repeat split; assumption.
Defined.

(** ** Unique e-mail addresses *)

Lemma taken_spec {R} (key : R -> Z) (col : R -> option string) (self : Z)
      (v : string) (rows : list R) :
  taken key col self (Some v) rows = true <->
  exists r, In r rows /\ key r <> self /\ col r = Some v.
Proof.
  unfold taken. rewrite existsb_exists. split.
  - intros [r [Hr H]]. apply andb_true_iff in H. destruct H as [Hk Hc].
    exists r. split; [exact Hr|]. split.
    + apply negb_true_iff, Z.eqb_neq in Hk. exact Hk.
    + unfold str_opt_eqb in Hc. destruct (col r) as [w|]; [|discriminate].
      apply String.eqb_eq in Hc. now subst.
  - intros [r [Hr [Hk Hc]]]. exists r. split; [exact Hr|].
    apply andb_true_iff. split.
    + now apply negb_true_iff, Z.eqb_neq.
    + rewrite Hc. simpl. apply String.eqb_refl.
Qed.

(** A store that holds a user with the address refuses another one. *)
Lemma create_user_email_taken (s : Store) (u : User.t)
      (username password : string) (kw : User.kwargs) :
  In u (users s) ->
  exists c,
    UserCRUD.create_user username (User.email u) password kw s
    = (Raise (IntegrityError c), s).
Proof.
  intros Hu. unfold UserCRUD.create_user, Db.add_user.
  destruct (has_user _ s) eqn:Hpk; [eexists; reflexivity|].
  destruct (taken _ _ _ (Some username) _); [eexists; reflexivity|].
  destruct (taken _ _ _ (Some (User.email u)) _) eqn:Ht;
    [eexists; reflexivity|].
  exfalso. apply not_true_iff_false in Ht. apply Ht. apply taken_spec.
  exists u. split; [exact Hu|]. split; [|reflexivity].
  intros E. apply not_true_iff_false in Hpk. apply Hpk.
  unfold has_user. apply existsb_exists. exists u. split; [exact Hu|].
  now apply Z.eqb_eq.
Qed.

(** C7.  After a user was created with an address, creating a user with
    the same address raises [IntegrityError] out of the commit, whatever
    the other arguments are, and the store stays as the first creation left
    it: there the first user is returned for its key and for its address. *)
Theorem duplicate_email_rejected (s s1 : Store) (username email password : string)
        (kw : User.kwargs) (u1 : User.t)
        (username' password' : string) (kw' : User.kwargs) :
  UserCRUD.create_user username email password kw s = (Ok u1, s1) ->
  (exists c,
      UserCRUD.create_user username' email password' kw' s1
      = (Raise (IntegrityError c), s1))
  /\ UserCRUD.get_user (User.id u1) s1 = (Ok (Some u1), s1)
  /\ UserCRUD.get_user_by_email email s1 = (Ok (Some u1), s1).
Proof.
  intros H. destruct (create_user_get _ _ _ _ _ _ _ H) as [Hget Hu].
  unfold UserCRUD.create_user, Db.add_user in H. rewrite <- Hu in H.
  destruct (has_user _ s) eqn:Hpk; [discriminate|].
  destruct (taken _ _ _ (Some username) _); [discriminate|].
  destruct (taken _ _ _ (Some email) _) eqn:Hem; [discriminate|].
  injection H as Hs.
  assert (Hmail : User.email u1 = email) by now rewrite Hu.
  assert (Hin : In u1 (users s1)).
  { rewrite <- Hs. cbn [users with_users]. apply in_or_app. right. now left. }
  split; [|split].
  - rewrite <- Hmail. now apply create_user_email_taken.
  - exact Hget.
  - unfold UserCRUD.get_user_by_email, bind, query, ret. rewrite <- Hs.
    cbn [users with_users]. rewrite first_filter_last; auto.
    + destruct (existsb _ (users s)) eqn:E; [|reflexivity].
      apply existsb_exists in E. destruct E as [r [Hr Er]].
      apply String.eqb_eq in Er.
      apply not_true_iff_false in Hem. exfalso. apply Hem.
      apply taken_spec. exists r. split; [exact Hr|].
      split; [|now rewrite Er].
      intros Eid. apply not_true_iff_false in Hpk. apply Hpk.
      unfold has_user. apply existsb_exists. exists r. split; [exact Hr|].
      now apply Z.eqb_eq.
    + rewrite Hmail. apply String.eqb_refl.
Qed.

Lemma duplicate_email_rejected_witness :
  exists s1,
    UserCRUD.create_user "jane" "jane@example.com" "hashed"
                         Sample.jane_kwargs Sample.blog
    = (Ok Sample.jane, s1)
    /\ (exists c,
           UserCRUD.create_user "janet" "jane@example.com" "other"
                                User.no_kwargs s1
           = (Raise (IntegrityError c), s1))
    /\ UserCRUD.get_user 2 s1 = (Ok (Some Sample.jane), s1)
    /\ UserCRUD.get_user_by_email "jane@example.com" s1
       = (Ok (Some Sample.jane), s1).
Proof.
  eexists. split; [reflexivity|].
  match goal with
  | |- (exists c, UserCRUD.create_user _ _ _ _ ?s1 = _) /\ _ =>
      exact (duplicate_email_rejected
               Sample.blog s1 "jane" "jane@example.com" "hashed"
               Sample.jane_kwargs Sample.jane "janet" "other" User.no_kwargs
               eq_refl)
  end.
Defined.

(** ** Updates *)

Lemma opt_Z_eqb_eq (a b : option Z) : Db.opt_Z_eqb a b = true <-> a = b.
Proof.
  destruct a as [x|], b as [y|]; simpl;
    try (split; [discriminate | discriminate]); try (split; reflexivity).
  rewrite Z.eqb_eq. split; [now intros -> | now intros [= ->]].
Qed.

Lemma not_null_assign {A} (old : A) (o : option (option A)) (v : A) :
  Db.not_null old o = Some v -> Some v = assign (Some old) o.
Proof.
  destruct o as [[w|]|]; simpl; [now intros [= ->] | discriminate | now intros [= ->]].
Qed.

Lemma not_null_total {A} (old : A) (o : option (option A)) :
  o <> Some None -> exists v, Db.not_null old o = Some v.
Proof.
  destruct o as [[w|]|]; simpl; intros H; [now exists w | contradiction | now exists old].
Qed.

Lemma replace_row_get {R} (key : R -> Z) (rows : list R) (old new : R) (i : Z) :
  first (filter (fun r => key r =? i) rows) = Some old ->
  key new = i \/ existsb (fun r => key r =? key new) rows = false ->
  first (filter (fun r => key r =? key new) (Db.replace_row key i new rows))
  = Some new.
Proof.
  unfold Db.replace_row.
  induction rows as [|r rows IH]; cbn [filter map existsb];
    [discriminate|].
  intros Hold Hnew. destruct (key r =? i) eqn:E.
  - rewrite Z.eqb_refl. reflexivity.
  - assert (Hr : (key r =? key new) = false).
    { destruct Hnew as [->|H]; [exact E|].
      now apply orb_false_iff in H. }
    rewrite Hr. apply IH; [exact Hold|].
    destruct Hnew as [H|H]; [now left|right].
    now apply orb_false_iff in H.
Qed.

Lemma key_move_not_null (old : Z) (set : option (option Z))
      (stored : Z -> bool) (referenced : bool) :
  key_move_ok old (assign (Some old) set) stored referenced ->
  set <> Some None.
Proof.
  intros H ->. exact H.
Qed.

Lemma not_before_refl (t : option Z) : not_before t t.
Proof.
  destruct t; simpl; [lia | exact I].
Qed.

Lemma assign_post_fields (kw : Post.patch) (p dirty : Post.t) :
  Db.assign_post kw p = Some dirty ->
  post_assigned p kw dirty
  /\ Post.updated_at dirty
     = assign (Post.updated_at p) (Post.set_updated_at kw).
Proof.
  unfold Db.assign_post.
  destruct (Db.not_null (Post.id p) _) as [i|] eqn:Ei; [|discriminate].
  destruct (Db.not_null (Post.title p) _) as [ti|] eqn:Et; [|discriminate].
  destruct (Db.not_null (Post.content p) _) as [co|] eqn:Ec; [|discriminate].
  destruct (Db.not_null (Post.author_id p) _) as [au|] eqn:Ea; [|discriminate].
  intros [= <-]. apply not_null_assign in Ei, Et, Ec, Ea.
  unfold post_assigned. simpl. repeat split; assumption.
Qed.

Lemma assign_post_total (kw : Post.patch) (p : Post.t) :
  Post.set_id kw <> Some None ->
  Post.set_title kw <> Some None ->
  Post.set_content kw <> Some None ->
  Post.set_author_id kw <> Some None ->
  exists dirty, Db.assign_post kw p = Some dirty.
Proof.
  intros Hi Ht Hc Ha. unfold Db.assign_post.
  destruct (not_null_total (Post.id p) _ Hi) as [i ->].
  destruct (not_null_total (Post.title p) _ Ht) as [ti ->].
  destruct (not_null_total (Post.content p) _ Hc) as [co ->].
  destruct (not_null_total (Post.author_id p) _ Ha) as [au ->].
  eexists. reflexivity.
Qed.

(** Assignments that leave every column as it is give the object that was
    loaded. *)
Lemma post_assigned_same (p dirty : Post.t) (kw : Post.patch) :
  post_assigned p kw p ->
  post_assigned p kw dirty ->
  Post.updated_at dirty = Post.updated_at p ->
  dirty = p.
Proof.
  destruct p, dirty. unfold post_assigned. cbn.
  intros (A0 & A1 & A2 & A3 & A4 & A5 & A6 & A7 & A8 & A9)
         (B0 & B1 & B2 & B3 & B4 & B5 & B6 & B7 & B8 & B9) Hu.
  f_equal; congruence.
Qed.

Lemma touch_post_fields (now : Z) (old new : Post.t) (kw : Post.patch) :
  post_assigned old kw new ->
  Post.updated_at new = assign (Post.updated_at old) (Post.set_updated_at kw) ->
  new <> old ->
  post_assigned old kw (Db.touch_post now old new)
  /\ restamped now (post_assigned old kw old) (Post.updated_at old)
               (Post.set_updated_at kw)
               (Post.updated_at (Db.touch_post now old new)).
Proof.
  intros Hf Hu Hne. unfold Db.touch_post, restamped.
  destruct (Db.opt_Z_eqb _ _) eqn:E.
  - apply opt_Z_eqb_eq in E. split; [exact Hf|]. cbn [Post.updated_at].
    split; [congruence|]. split; [reflexivity|].
    intros _ Hsame. destruct Hne.
    exact (post_assigned_same old new kw Hsame Hf E).
  - split; [exact Hf|]. split; [now intros _|].
    assert (Hd : assign (Post.updated_at old) (Post.set_updated_at kw)
                 <> Post.updated_at old).
    { intros H. rewrite <- Hu in H. apply opt_Z_eqb_eq in H. congruence. }
    split; intros H; now destruct Hd.
Qed.

Lemma touch_post_unset (now : Z) (old new : Post.t) :
  Post.updated_at new = Post.updated_at old ->
  Post.updated_at (Db.touch_post now old new) = Some now.
Proof.
  intros H. unfold Db.touch_post.
  apply opt_Z_eqb_eq in H. rewrite H. reflexivity.
Qed.

Lemma commit_post_spec (s : Store) (p : Post.t) (kw : Post.patch) :
  post_patch_ok s p kw ->
  exists p' s',
    Db.commit_post p kw s = (Ok p', s')
    /\ post_assigned p kw p'
    /\ restamped (utcnow s) (post_assigned p kw p) (Post.updated_at p)
                 (Post.set_updated_at kw) (Post.updated_at p')
    /\ (Post.set_updated_at kw = None ->
        not_before (Post.updated_at p) (Some (utcnow s)) ->
        not_before (Post.updated_at p) (Post.updated_at p'))
    /\ ((p' = p /\ s' = s)
        \/ s' = with_posts (Db.replace_row Post.id (Post.id p) p' (posts s))
                           (posts_id_seq s) s).
Proof.
  intros (Hkey & Ht & Hc & Ha & Hslug & Hauth). unfold Db.commit_post.
  destruct (assign_post_total kw p (key_move_not_null _ _ _ _ Hkey) Ht Hc Ha)
    as [dirty E].
  rewrite E. destruct (assign_post_fields _ _ _ E) as [Hf Hu].
  destruct (Db.post_eq_dec dirty p) as [->|Hne].
  - exists p, s. split; [reflexivity|]. split; [exact Hf|].
    split; [|split; [intros _ _; apply not_before_refl | now left]].
    unfold restamped. split; [congruence|]. split; [|reflexivity].
    intros _ H. now destruct H.
  - destruct (touch_post_fields (utcnow s) p dirty kw Hf Hu Hne)
      as [Hf' Hu'].
    assert (Hun : Post.set_updated_at kw = None ->
                  Post.updated_at (Db.touch_post (utcnow s) p dirty)
                  = Some (utcnow s)).
    { intros Hn. apply touch_post_unset. rewrite Hu, Hn. reflexivity. }
    set (row := Db.touch_post (utcnow s) p dirty) in *.
    assert (Hs : Post.slug row = assign (Post.slug p) (Post.set_slug kw))
      by apply Hf'.
    assert (Hau : Some (Post.author_id row)
                  = assign (Some (Post.author_id p)) (Post.set_author_id kw))
      by apply Hf'.
    assert (Hid : Some (Post.id row)
                  = assign (Some (Post.id p)) (Post.set_id kw))
      by apply Hf'.
    rewrite <- Hid in Hkey. cbn [key_move_ok] in Hkey. cbv zeta.
    rewrite Hs, Hslug. symmetry in Hau. rewrite (Hauth _ Hau).
    assert (Hguard : negb (Post.id row =? Post.id p)
                       && has_post (Post.id row) s = false
                     /\ negb (Post.id row =? Post.id p)
                          && Db.post_referenced (Post.id p) s = false).
    { destruct Hkey as [->|[-> ->]].
      - now rewrite Z.eqb_refl.
      - now rewrite !andb_false_r. }
    destruct Hguard as [-> ->]. cbn [negb].
    eexists row, _. split; [reflexivity|]. split; [exact Hf'|].
    split; [exact Hu'|]. split; [|now right].
    intros Hn Hclock. now rewrite (Hun Hn).
Qed.

Lemma touch_comment_fields (now : Z) (c : Comment.t) (content : string) :
  comment_assigned c content (Db.touch_comment now (Db.assign_comment content c))
  /\ Comment.updated_at (Db.touch_comment now (Db.assign_comment content c))
     = Some now.
Proof.
  unfold comment_assigned. simpl. repeat split.
Qed.

Lemma commit_comment_spec (s : Store) (c : Comment.t) (content : string) :
  exists c' s',
    Db.commit_comment c content s = (Ok c', s')
    /\ comment_assigned c content c'
    /\ restamped (utcnow s) (content = Comment.content c)
                 (Comment.updated_at c) None (Comment.updated_at c')
    /\ (not_before (Comment.updated_at c) (Some (utcnow s)) ->
        not_before (Comment.updated_at c) (Comment.updated_at c'))
    /\ ((c' = c /\ s' = s)
        \/ s' = with_comments
                  (Db.replace_row Comment.id (Comment.id c) c' (comments s))
                  (comments_id_seq s) s).
Proof.
  unfold Db.commit_comment. destruct (String.eqb content _) eqn:E.
  - apply String.eqb_eq in E. exists c, s. split; [reflexivity|].
    split; [|split; [|split; [intros _; apply not_before_refl | now left]]].
    + unfold comment_assigned. repeat split. now symmetry.
    + unfold restamped. cbn [assign].
      split; [congruence|]. split; [|reflexivity].
      intros _ H. now destruct H.
  - apply String.eqb_neq in E.
    destruct (touch_comment_fields (utcnow s) c content) as [Hf Hu].
    eexists _, _. split; [reflexivity|]. split; [exact Hf|].
    split; [|split; [intros H; now rewrite Hu | now right]].
    unfold restamped. cbn [assign]. rewrite Hu.
    split; [congruence|]. split; [reflexivity|].
    intros _ H. now destruct E.
Qed.

Lemma assign_user_fields (kw : User.patch) (u dirty : User.t) :
  Db.assign_user kw u = Some dirty ->
  user_assigned u kw dirty
  /\ User.updated_at dirty
     = assign (User.updated_at u) (User.set_updated_at kw).
Proof.
  unfold Db.assign_user.
  destruct (Db.not_null (User.id u) _) as [i|] eqn:Ei; [|discriminate].
  destruct (Db.not_null (User.username u) _) as [un|] eqn:Eu; [|discriminate].
  destruct (Db.not_null (User.email u) _) as [em|] eqn:Ee; [|discriminate].
  destruct (Db.not_null (User.hashed_password u) _) as [pw|] eqn:Ep;
    [|discriminate].
  intros [= <-]. apply not_null_assign in Ei, Eu, Ee, Ep.
  unfold user_assigned. simpl. repeat split; assumption.
Qed.

Lemma assign_user_total (kw : User.patch) (u : User.t) :
  User.set_id kw <> Some None ->
  User.set_username kw <> Some None ->
  User.set_email kw <> Some None ->
  User.set_hashed_password kw <> Some None ->
  exists dirty, Db.assign_user kw u = Some dirty.
Proof.
  intros Hi Hu He Hp. unfold Db.assign_user.
  destruct (not_null_total (User.id u) _ Hi) as [i ->].
  destruct (not_null_total (User.username u) _ Hu) as [un ->].
  destruct (not_null_total (User.email u) _ He) as [em ->].
  destruct (not_null_total (User.hashed_password u) _ Hp) as [pw ->].
  eexists. reflexivity.
Qed.

Lemma user_assigned_same (u dirty : User.t) (kw : User.patch) :
  user_assigned u kw u ->
  user_assigned u kw dirty ->
  User.updated_at dirty = User.updated_at u ->
  dirty = u.
Proof.
  destruct u, dirty. unfold user_assigned. cbn.
  intros (A0 & A1 & A2 & A3 & A4 & A5 & A6 & A7 & A8)
         (B0 & B1 & B2 & B3 & B4 & B5 & B6 & B7 & B8) Hu.
  f_equal; congruence.
Qed.

Lemma touch_user_fields (now : Z) (old new : User.t) (kw : User.patch) :
  user_assigned old kw new ->
  User.updated_at new = assign (User.updated_at old) (User.set_updated_at kw) ->
  new <> old ->
  user_assigned old kw (Db.touch_user now old new)
  /\ restamped now (user_assigned old kw old) (User.updated_at old)
               (User.set_updated_at kw)
               (User.updated_at (Db.touch_user now old new)).
Proof.
  intros Hf Hu Hne. unfold Db.touch_user, restamped.
  destruct (Db.opt_Z_eqb _ _) eqn:E.
  - apply opt_Z_eqb_eq in E. split; [exact Hf|]. cbn [User.updated_at].
    split; [congruence|]. split; [reflexivity|].
    intros _ Hsame. destruct Hne.
    exact (user_assigned_same old new kw Hsame Hf E).
  - split; [exact Hf|]. split; [now intros _|].
    assert (Hd : assign (User.updated_at old) (User.set_updated_at kw)
                 <> User.updated_at old).
    { intros H. rewrite <- Hu in H. apply opt_Z_eqb_eq in H. congruence. }
    split; intros H; now destruct Hd.
Qed.

Lemma touch_user_unset (now : Z) (old new : User.t) :
  User.updated_at new = User.updated_at old ->
  User.updated_at (Db.touch_user now old new) = Some now.
Proof.
  intros H. unfold Db.touch_user.
  apply opt_Z_eqb_eq in H. rewrite H. reflexivity.
Qed.

Lemma commit_user_spec (s : Store) (u : User.t) (kw : User.patch) :
  user_patch_ok s u kw ->
  exists u' s',
    Db.commit_user u kw s = (Ok u', s')
    /\ user_assigned u kw u'
    /\ restamped (utcnow s) (user_assigned u kw u) (User.updated_at u)
                 (User.set_updated_at kw) (User.updated_at u')
    /\ (User.set_updated_at kw = None ->
        not_before (User.updated_at u) (Some (utcnow s)) ->
        not_before (User.updated_at u) (User.updated_at u'))
    /\ ((u' = u /\ s' = s)
        \/ s' = with_users (Db.replace_row User.id (User.id u) u' (users s))
                           (users_id_seq s) s).
Proof.
  intros (Hkey & Hn & He & Hp & Hname & Hmail). unfold Db.commit_user.
  destruct (assign_user_total kw u (key_move_not_null _ _ _ _ Hkey) Hn He Hp)
    as [dirty E].
  rewrite E. destruct (assign_user_fields _ _ _ E) as [Hf Hu].
  destruct (Db.user_eq_dec dirty u) as [->|Hne].
  - exists u, s. split; [reflexivity|]. split; [exact Hf|].
    split; [|split; [intros _ _; apply not_before_refl | now left]].
    unfold restamped. split; [congruence|]. split; [|reflexivity].
    intros _ H. now destruct H.
  - destruct (touch_user_fields (utcnow s) u dirty kw Hf Hu Hne)
      as [Hf' Hu'].
    assert (Hun : User.set_updated_at kw = None ->
                  User.updated_at (Db.touch_user (utcnow s) u dirty)
                  = Some (utcnow s)).
    { intros Hnone. apply touch_user_unset. rewrite Hu, Hnone. reflexivity. }
    set (row := Db.touch_user (utcnow s) u dirty) in *.
    assert (Hnm : Some (User.username row)
                  = assign (Some (User.username u)) (User.set_username kw))
      by apply Hf'.
    assert (Hem : Some (User.email row)
                  = assign (Some (User.email u)) (User.set_email kw))
      by apply Hf'.
    assert (Hid : Some (User.id row)
                  = assign (Some (User.id u)) (User.set_id kw))
      by apply Hf'.
    rewrite <- Hid in Hkey. cbn [key_move_ok] in Hkey. cbv zeta.
    rewrite Hnm, Hname, Hem, Hmail.
    assert (Hguard : negb (User.id row =? User.id u)
                       && has_user (User.id row) s = false
                     /\ negb (User.id row =? User.id u)
                          && Db.user_referenced (User.id u) s = false).
    { destruct Hkey as [->|[-> ->]].
      - now rewrite Z.eqb_refl.
      - now rewrite !andb_false_r. }
    destruct Hguard as [-> ->].
    eexists row, _. split; [reflexivity|]. split; [exact Hf'|].
    split; [exact Hu'|]. split; [|now right].
    intros Hnone Hclock. now rewrite (Hun Hnone).
Qed.

Lemma key_move_free {R} (key : R -> Z) (rows : list R) (i : Z) (new : R)
      (referenced : bool) :
  key_move_ok i (Some (key new))
              (fun j => existsb (fun r => key r =? j) rows) referenced ->
  key new = i \/ existsb (fun r => key r =? key new) rows = false.
Proof.
  intros [H|[H _]]; [now left | now right].
Qed.

(** C3 (amended).  A field set gives values to columns of the entity, the
    primary key among them.  Updating a key that is not stored returns
    [None] and leaves the store as it was.  Updating a stored user or post
    with assignments that violate no NOT NULL, unique, primary-key or
    foreign-key constraint, and updating the content of a stored comment,
    returns the entity as it is stored afterwards, under its key: every
    column but [updated_at] holds the assigned value, or the previous one
    when nothing was assigned to it.  [updated_at] holds the assigned value
    when that differs from the stored one; otherwise it holds the time of
    the commit when the assignments change another column, and the stored
    value when they change none.  When [updated_at] is not assigned and the
    stored timestamp is not ahead of the clock, the new timestamp is not
    before the previous one. *)
Theorem update_contract (s : Store) (i : Z) :
  (has_user i s = false ->
   forall kw, UserCRUD.update_user i kw s = (Ok None, s))
  /\ (has_post i s = false ->
      forall kw, PostCRUD.update_post i kw s = (Ok None, s))
  /\ (has_comment i s = false ->
      forall content, CommentCRUD.update_comment i content s = (Ok None, s))
  /\ (forall u kw,
         UserCRUD.get_user i s = (Ok (Some u), s) ->
         user_patch_ok s u kw ->
         exists u' s',
           UserCRUD.update_user i kw s = (Ok (Some u'), s')
           /\ UserCRUD.get_user (User.id u') s' = (Ok (Some u'), s')
           /\ user_assigned u kw u'
           /\ restamped (utcnow s) (user_assigned u kw u) (User.updated_at u)
                        (User.set_updated_at kw) (User.updated_at u')
           /\ (User.set_updated_at kw = None ->
               not_before (User.updated_at u) (Some (utcnow s)) ->
               not_before (User.updated_at u) (User.updated_at u')))
  /\ (forall p kw,
         PostCRUD.get_post i s = (Ok (Some p), s) ->
         post_patch_ok s p kw ->
         exists p' s',
           PostCRUD.update_post i kw s = (Ok (Some p'), s')
           /\ PostCRUD.get_post (Post.id p') s' = (Ok (Some p'), s')
           /\ post_assigned p kw p'
           /\ restamped (utcnow s) (post_assigned p kw p) (Post.updated_at p)
                        (Post.set_updated_at kw) (Post.updated_at p')
           /\ (Post.set_updated_at kw = None ->
               not_before (Post.updated_at p) (Some (utcnow s)) ->
               not_before (Post.updated_at p) (Post.updated_at p')))
  /\ (forall c content,
         CommentCRUD.get_comment i s = (Ok (Some c), s) ->
         exists c' s',
           CommentCRUD.update_comment i content s = (Ok (Some c'), s')
           /\ CommentCRUD.get_comment (Comment.id c') s' = (Ok (Some c'), s')
           /\ comment_assigned c content c'
           /\ restamped (utcnow s) (content = Comment.content c)
                        (Comment.updated_at c) None (Comment.updated_at c')
           /\ (not_before (Comment.updated_at c) (Some (utcnow s)) ->
               not_before (Comment.updated_at c) (Comment.updated_at c'))).
Proof.
  split; [|split; [|split; [|split; [|split]]]].
  - intros H kw. apply has_user_first in H.
    unfold UserCRUD.update_user, bind, query, ret. simpl. now rewrite H.
  - intros H kw. apply has_post_first in H.
    unfold PostCRUD.update_post, bind, query, ret. simpl. now rewrite H.
  - intros H content. apply has_comment_first in H.
    unfold CommentCRUD.update_comment, bind, query, ret. simpl. now rewrite H.
  - intros u kw Hget Hok.
    unfold UserCRUD.get_user, bind, query, ret in Hget. simpl in Hget.
    injection Hget as Hget.
    assert (Hi : User.id u = i).
    { apply first_filter_some in Hget. now apply Z.eqb_eq. }
    destruct (commit_user_spec s u kw Hok)
      as (u' & s' & Hc & Hf & Hu & Hnb & Hs).
    exists u', s'.
    split; [|split; [|split; [exact Hf | split; [exact Hu | exact Hnb]]]].
    + unfold UserCRUD.update_user, bind, query, ret. simpl.
      rewrite Hget, Hc. reflexivity.
    + unfold UserCRUD.get_user, bind, query, ret. simpl.
      destruct Hs as [[-> ->] | ->]; [now rewrite Hi, Hget|].
      cbn [users with_users]. rewrite Hi.
      rewrite (replace_row_get _ _ u); [reflexivity | exact Hget |].
      destruct Hok as [Hkey _]. destruct Hf as [Hid _].
      rewrite <- Hid, Hi in Hkey. exact (key_move_free _ _ _ _ _ Hkey).
  - intros p kw Hget Hok.
    unfold PostCRUD.get_post, bind, query, ret in Hget. simpl in Hget.
    injection Hget as Hget.
    assert (Hi : Post.id p = i).
    { apply first_filter_some in Hget. now apply Z.eqb_eq. }
    destruct (commit_post_spec s p kw Hok)
      as (p' & s' & Hc & Hf & Hu & Hnb & Hs).
    exists p', s'.
    split; [|split; [|split; [exact Hf | split; [exact Hu | exact Hnb]]]].
    + unfold PostCRUD.update_post, bind, query, ret. simpl.
      rewrite Hget, Hc. reflexivity.
    + unfold PostCRUD.get_post, bind, query, ret. simpl.
      destruct Hs as [[-> ->] | ->]; [now rewrite Hi, Hget|].
      cbn [posts with_posts]. rewrite Hi.
      rewrite (replace_row_get _ _ p); [reflexivity | exact Hget |].
      destruct Hok as [Hkey _]. destruct Hf as [Hid _].
      rewrite <- Hid, Hi in Hkey. exact (key_move_free _ _ _ _ _ Hkey).
  - intros c content Hget.
    unfold CommentCRUD.get_comment, bind, query, ret in Hget. simpl in Hget.
    injection Hget as Hget.
    assert (Hi : Comment.id c = i).
    { apply first_filter_some in Hget. now apply Z.eqb_eq. }
    destruct (commit_comment_spec s c content)
      as (c' & s' & Hc & Hf & Hu & Hnb & Hs).
    exists c', s'.
    assert (Hid : Comment.id c' = i).
    { destruct Hf as [Hid _]. now rewrite Hid. }
    split; [|split; [|split; [exact Hf | split; [exact Hu | exact Hnb]]]].
    + unfold CommentCRUD.update_comment, bind, query, ret. simpl.
      rewrite Hget, Hc. reflexivity.
    + unfold CommentCRUD.get_comment, bind, query, ret. simpl.
      destruct Hs as [[-> ->] | ->]; [now rewrite Hi, Hget|].
      cbn [comments with_comments]. rewrite Hi.
      rewrite (replace_row_get _ _ c); [reflexivity | exact Hget |].
      now left.
Qed.

Lemma update_contract_witness :
  let s := Sample.later Sample.blog in
  (has_user 9 s = false /\ UserCRUD.update_user 9 Sample.rename s = (Ok None, s))
  /\ (has_post 9 s = false
      /\ PostCRUD.update_post 9 Sample.retitle s = (Ok None, s))
  /\ (has_comment 9 s = false
      /\ CommentCRUD.update_comment 9 "very nice" s = (Ok None, s))
  /\ (UserCRUD.get_user 1 s = (Ok (Some Sample.john), s)
      /\ user_patch_ok s Sample.john Sample.rename
      /\ exists u' s',
          UserCRUD.update_user 1 Sample.rename s = (Ok (Some u'), s')
          /\ UserCRUD.get_user (User.id u') s' = (Ok (Some u'), s')
          /\ user_assigned Sample.john Sample.rename u'
          /\ User.updated_at u' = Some 4600
          /\ not_before (User.updated_at Sample.john) (User.updated_at u'))
  /\ (PostCRUD.get_post 1 s = (Ok (Some Sample.intro), s)
      /\ post_patch_ok s Sample.intro Sample.retitle
      /\ exists p' s',
          PostCRUD.update_post 1 Sample.retitle s = (Ok (Some p'), s')
          /\ PostCRUD.get_post (Post.id p') s' = (Ok (Some p'), s')
          /\ post_assigned Sample.intro Sample.retitle p'
          /\ Post.updated_at p' = Some 4600
          /\ not_before (Post.updated_at Sample.intro) (Post.updated_at p'))
  /\ (PostCRUD.get_post 2 Sample.with_patterns
      = (Ok (Some Sample.patterns), Sample.with_patterns)
      /\ post_patch_ok Sample.with_patterns Sample.patterns Sample.renumber
      /\ exists p' s',
          PostCRUD.update_post 2 Sample.renumber Sample.with_patterns
          = (Ok (Some p'), s')
          /\ PostCRUD.get_post (Post.id p') s' = (Ok (Some p'), s')
          /\ Post.id p' = 7)
  /\ (CommentCRUD.get_comment 1 s = (Ok (Some Sample.nice), s)
      /\ exists c' s',
          CommentCRUD.update_comment 1 "very nice" s = (Ok (Some c'), s')
          /\ CommentCRUD.get_comment (Comment.id c') s' = (Ok (Some c'), s')
          /\ comment_assigned Sample.nice "very nice" c'
          /\ Comment.updated_at c' = Some 4600
          /\ not_before (Comment.updated_at Sample.nice)
                        (Comment.updated_at c')).
Proof.
  intros s.
  pose proof (update_contract s 9) as [U9 [P9 [C9 _]]].
  pose proof (update_contract s 1) as [_ [_ [_ [U1 [P1 C1]]]]].
  pose proof (update_contract Sample.with_patterns 2) as [_ [_ [_ [_ [P2 _]]]]].
  assert (Hu : user_patch_ok s Sample.john Sample.rename).
  { unfold user_patch_ok. split; [now left|].
    repeat split; first [discriminate | reflexivity]. }
  assert (Hp : post_patch_ok s Sample.intro Sample.retitle).
  { unfold post_patch_ok. split; [now left|].
    repeat split; try discriminate; try reflexivity.
    intros a [= <-]. reflexivity. }
  assert (Hr : post_patch_ok Sample.with_patterns Sample.patterns
                             Sample.renumber).
  { unfold post_patch_ok. split; [right; split; reflexivity|].
    repeat split; try discriminate; try reflexivity.
    intros a [= <-]. reflexivity. }
  split; [|split; [|split; [|split; [|split; [|split]]]]].
  - split; [reflexivity|]. apply U9. reflexivity.
  - split; [reflexivity|]. apply P9. reflexivity.
  - split; [reflexivity|]. apply C9. reflexivity.
  - split; [reflexivity|]. split; [exact Hu|].
    destruct (U1 Sample.john Sample.rename eq_refl Hu)
      as (u' & s' & H1 & H2 & H3 & (_ & H4 & _) & H5).
    exists u', s'.
    split; [exact H1 | split; [exact H2 | split; [exact H3|]]].
    split; [|apply H5; [reflexivity | simpl; lia]].
    apply H4; [reflexivity|].
    intros (_ & _ & _ & _ & H & _). discriminate H.
  - split; [reflexivity|]. split; [exact Hp|].
    destruct (P1 Sample.intro Sample.retitle eq_refl Hp)
      as (p' & s' & H1 & H2 & H3 & (_ & H4 & _) & H5).
    exists p', s'.
    split; [exact H1 | split; [exact H2 | split; [exact H3|]]].
    split; [|apply H5; [reflexivity | simpl; lia]].
    apply H4; [reflexivity|].
    intros (_ & H & _). discriminate H.
  - split; [reflexivity|]. split; [exact Hr|].
    destruct (P2 Sample.patterns Sample.renumber eq_refl Hr)
      as (p' & s' & H1 & H2 & (H3 & _) & _).
    exists p', s'.
    split; [exact H1 | split; [exact H2|]].
    now injection H3.
  - split; [reflexivity|].
    destruct (C1 Sample.nice "very nice"%string eq_refl)
      as (c' & s' & H1 & H2 & H3 & (_ & H4 & _) & H5).
    exists c', s'.
    split; [exact H1 | split; [exact H2 | split; [exact H3|]]].
    split; [|apply H5; simpl; lia].
    apply H4; [reflexivity | discriminate].
Defined.

(** C3 as worded fails in four ways.  An assignment may break a
    constraint, and then the commit raises instead of returning the entity:
    a slug that another post has, a new key for a post that has comments.
    [updated_at] is a column like the others, so assigning it an earlier
    time moves the timestamp back.  An assignment of the value that
    [updated_at] already holds is no change of that column, so that the
    commit which writes another column stamps it with the clock: the
    column does not hold the supplied value.  And a stored timestamp that
    is ahead of the clock goes back at the next update. *)
Lemma update_contract_counterexample :
  ~ update_post_unconditional Sample.with_patterns 1 Sample.steal_slug
  /\ PostCRUD.update_post 1 Sample.steal_slug Sample.with_patterns
     = (Raise (IntegrityError "ix_posts_slug"), Sample.with_patterns)
  /\ ~ update_post_unconditional Sample.with_patterns 1 Sample.renumber
  /\ PostCRUD.update_post 1 Sample.renumber Sample.with_patterns
     = (Raise (IntegrityError "comments_post_id_fkey"), Sample.with_patterns)
  /\ ~ update_post_unconditional (Sample.later Sample.blog) 1 Sample.backdate
  /\ ~ update_post_unconditional (Sample.later Sample.blog) 1
       Sample.retitle_keep_stamp
  /\ (exists p' s',
         PostCRUD.update_post 1 Sample.retitle_keep_stamp
                              (Sample.later Sample.blog)
         = (Ok (Some p'), s')
         /\ Post.updated_at Sample.intro = Some 1000
         /\ Post.updated_at p' = Some 4600)
  /\ ~ update_post_unconditional Sample.with_postdated 2 Sample.retitle
  /\ (exists p' s',
         PostCRUD.update_post 2 Sample.retitle Sample.with_postdated
         = (Ok (Some p'), s')
         /\ Post.updated_at Sample.postdated = Some 9999
         /\ Post.updated_at p' = Some 1000).
Proof.
  split; [|split; [|split; [|split; [|split; [|split; [|split; [|split]]]]]]].
  - intros H. destruct (H Sample.intro eq_refl) as (p' & s' & E & _).
    vm_compute in E. discriminate.
  - reflexivity.
  - intros H. destruct (H Sample.intro eq_refl) as (p' & s' & E & _).
    vm_compute in E. discriminate.
  - reflexivity.
  - intros H.
    destruct (H Sample.intro eq_refl) as (p' & s' & E & _ & _ & Hnb).
    vm_compute in E. injection E as <- _. simpl in Hnb. lia.
  - intros H.
    destruct (H Sample.intro eq_refl) as (p' & s' & E & _ & Hset & _).
    vm_compute in E. injection E as <- _.
    specialize (Hset _ eq_refl). discriminate Hset.
  - eexists _, _. split; [vm_compute; reflexivity|]. split; reflexivity.
  - intros H.
    destruct (H Sample.postdated eq_refl) as (p' & s' & E & _ & _ & Hnb).
    vm_compute in E. injection E as <- _. simpl in Hnb. lia.
  - eexists _, _. split; [vm_compute; reflexivity|]. split; reflexivity.
Qed.

(** ** The DDL exporter *)

Section ExporterFacts.
Import SchemaDump.

Variable create_table : Dialect -> Table -> string.
Variable create_index : Dialect -> Index -> string.
Variable now_isoformat : string.

Lemma sequence_loop (table : Table) (cols : list Column) (acc : list string) :
  fold_left (sequence_step table) cols acc
  = acc ++ flat_map (sequence_block table) cols.
Proof.
  revert acc. induction cols as [|c cols IH]; intros acc; simpl.
  - now rewrite app_nil_r.
  - rewrite IH. unfold sequence_step, sequence_block.
    destruct (truthy _ && is_none _); simpl.
    + now rewrite <- app_assoc.
    + reflexivity.
Qed.

Lemma sequence_loops (tables : list Table) (acc : list string) :
  fold_left (fun acc table => fold_left (sequence_step table) (columns table) acc)
            tables acc
  = acc ++ flat_map (fun t => flat_map (sequence_block t) (columns t)) tables.
Proof.
  revert acc. induction tables as [|t tables IH]; intros acc; simpl.
  - now rewrite app_nil_r.
  - rewrite IH, sequence_loop. now rewrite <- app_assoc.
Qed.

Lemma table_loop (dialect : Dialect) (tables : list Table) (acc : list string) :
  fold_left (table_step create_table dialect) tables acc
  = acc ++ flat_map (table_block create_table dialect) tables.
Proof.
  revert acc. induction tables as [|t tables IH]; intros acc; simpl.
  - now rewrite app_nil_r.
  - rewrite IH. unfold table_step. now rewrite <- app_assoc.
Qed.

Lemma heading_app (b : bool) (x y : list string) :
  heading b (x ++ y) ++ x ++ y
  = heading b x ++ x ++ heading (b || nonempty x) y ++ y.
Proof.
  destruct b, x as [|a x], y as [|c y]; simpl;
    rewrite ?app_nil_r; reflexivity.
Qed.

Lemma nonempty_app (x y : list string) :
  nonempty (x ++ y) = nonempty x || nonempty y.
Proof.
  destruct x, y; reflexivity.
Qed.

Lemma index_loop (dialect : Dialect) (table : Table) (idxs : list Index)
      (acc : list string) (b : bool) :
  let blocks := flat_map (index_block create_index dialect table) idxs in
  fold_left (index_step create_index dialect table) idxs (acc, b)
  = (acc ++ heading b blocks ++ blocks, b || nonempty blocks).
Proof.
  revert acc b. induction idxs as [|i idxs IH]; intros acc b; simpl.
  - destruct b; simpl; now rewrite app_nil_r.
  - unfold index_step at 2. destruct b; simpl.
    + rewrite IH. simpl. now rewrite <- app_assoc.
    + rewrite IH. simpl. now rewrite <- !app_assoc.
Qed.

Lemma index_loops (dialect : Dialect) (tables : list Table)
      (acc : list string) (b : bool) :
  let blocks := index_blocks create_index dialect tables in
  fold_left
    (fun st table =>
       fold_left (index_step create_index dialect table) (indexes table) st)
    tables (acc, b)
  = (acc ++ heading b blocks ++ blocks, b || nonempty blocks).
Proof.
  unfold index_blocks.
  revert acc b. induction tables as [|t tables IH]; intros acc b; simpl.
  - destruct b; simpl; now rewrite app_nil_r.
  - rewrite index_loop, IH. rewrite heading_app, nonempty_app.
    now rewrite <- !app_assoc, orb_assoc.
Qed.

End ExporterFacts.

Lemma insert_table_perm (t : SchemaDump.Table) (l : list SchemaDump.Table) :
  Permutation (SchemaDump.insert_table t l) (t :: l).
Proof.
  induction l as [|u l IH]; simpl.
  - apply Permutation_refl.
  - destruct (String.leb _ _).
    + apply Permutation_refl.
    + apply perm_trans with (u :: t :: l).
      * now apply perm_skip.
      * apply perm_swap.
Qed.

Lemma name_sort_perm (l : list SchemaDump.Table) :
  Permutation (fold_right SchemaDump.insert_table [] l) l.
Proof.
  induction l as [|t l IH]; simpl.
  - apply perm_nil.
  - apply perm_trans with (t :: fold_right SchemaDump.insert_table [] l).
    + apply insert_table_perm.
    + now apply perm_skip.
Qed.

Lemma filter_split_perm {A} (f : A -> bool) (l : list A) :
  Permutation (filter (fun x => negb (f x)) l ++ filter f l) l.
Proof.
  induction l as [|a l IH]; simpl.
  - apply perm_nil.
  - destruct (f a); simpl.
    + apply Permutation_sym. apply Permutation_cons_app.
      now apply Permutation_sym.
    + now apply perm_skip.
Qed.

Lemma sort_as_subsets_perm (fuel : nat) (todo : list SchemaDump.Table) :
  Permutation (SchemaDump.sort_as_subsets fuel todo) todo.
Proof.
  revert todo. induction fuel as [|fuel IH]; intros todo; simpl.
  - apply Permutation_refl.
  - destruct (filter _ todo) as [|r ready] eqn:E.
    + apply Permutation_refl.
    + rewrite app_comm_cons, <- E.
      eapply perm_trans; [apply Permutation_app_head, IH|].
      apply (filter_split_perm (SchemaDump.waits (map SchemaDump.table_name todo))).
Qed.

(** Every registered table is enumerated, once. *)
Lemma sorted_tables_perm (metadata : SchemaDump.MetaData) :
  Permutation (SchemaDump.sorted_tables metadata) metadata.
Proof.
  unfold SchemaDump.sorted_tables.
  eapply perm_trans; [apply sort_as_subsets_perm | apply name_sort_perm].
Qed.

(** C8 as worded fails on the registered tables: the tables do not come in
    name order ([comments] refers to [posts] and [users], which therefore
    come first), and the sequence statements come before the tables, not
    after the indexes. *)
Lemma ddl_layout_counterexample :
  let statements :=
    SchemaDump.get_dialect_ddl_statements
      BlogMetaData.create_table BlogMetaData.create_index
      "2026-01-01T00:00:00" BlogMetaData.metadata "postgresql" in
  SchemaDump.sorted (map SchemaDump.table_name BlogMetaData.metadata)
  = ["comments"; "post_tags"; "posts"; "tags"; "users"]%string
  /\ SchemaDump.table_comments statements
     = ["tags"; "users"; "posts"; "comments"; "post_tags"]%string
  /\ SchemaDump.tables_in_name_order BlogMetaData.metadata statements = false
  /\ SchemaDump.sequences_last statements = false.
Proof.
  vm_compute. repeat split.
Qed.

(** *** [sorted_tables] is a dependency order *)

Lemma mem_name_In (x : string) (l : list string) :
  SchemaDump.mem_name x l = true <-> In x l.
Proof.
  unfold SchemaDump.mem_name. rewrite existsb_exists. split.
  - intros [y [Hy E]]. apply String.eqb_eq in E. now subst.
  - intros H. exists x. split; [exact H | apply String.eqb_refl].
Qed.

Lemma placed_more (registered done done' : list string)
      (t : SchemaDump.Table) :
  (forall r, In r done -> In r done') ->
  SchemaDump.placed registered done t = true ->
  SchemaDump.placed registered done' t = true.
Proof.
  intros Hsub. unfold SchemaDump.placed. rewrite !forallb_forall.
  intros H r Hr. specialize (H r Hr).
  apply orb_true_iff in H. apply orb_true_iff. destruct H as [H|H].
  - now left.
  - right. apply mem_name_In, Hsub, mem_name_In, H.
Qed.

Lemma dependency_order_all (registered : list string)
      (l : list SchemaDump.Table) (done : list string) :
  (forall t, In t l -> SchemaDump.placed registered done t = true) ->
  SchemaDump.dependency_order registered done l = true.
Proof.
  revert done. induction l as [|t l IH]; intros done H; simpl.
  - reflexivity.
  - apply andb_true_iff. split.
    + apply H. now left.
    + apply IH. intros u Hu.
      apply placed_more with (done := done).
      * intros r Hr. now right.
      * apply H. now right.
Qed.

Lemma dependency_order_more (registered : list string)
      (l : list SchemaDump.Table) (done done' : list string) :
  (forall r, In r done -> In r done') ->
  SchemaDump.dependency_order registered done l = true ->
  SchemaDump.dependency_order registered done' l = true.
Proof.
  revert done done'. induction l as [|t l IH]; intros done done' Hsub; simpl.
  - reflexivity.
  - rewrite !andb_true_iff. intros [Hp Hl]. split.
    + now apply placed_more with (done := done).
    + apply IH with (done := SchemaDump.table_name t :: done); [|exact Hl].
      intros r [<-|Hr]; [now left | right; now apply Hsub].
Qed.

Lemma dependency_order_app (registered : list string)
      (a b : list SchemaDump.Table) (done : list string) :
  SchemaDump.dependency_order registered done a = true ->
  SchemaDump.dependency_order
    registered (map SchemaDump.table_name a ++ done) b = true ->
  SchemaDump.dependency_order registered done (a ++ b) = true.
Proof.
  revert done. induction a as [|t a IH]; intros done Ha Hb; simpl in *.
  - exact Hb.
  - apply andb_true_iff in Ha. destruct Ha as [Ht Ha].
    apply andb_true_iff. split; [exact Ht|].
    apply IH; [exact Ha|].
    apply dependency_order_more
      with (done := SchemaDump.table_name t
                      :: map SchemaDump.table_name a ++ done);
      [|exact Hb].
    intros r [<-|Hr].
    + apply in_or_app. right. now left.
    + apply in_app_or in Hr. apply in_or_app.
      destruct Hr as [Hr|Hr]; [now left | right; now right].
Qed.

Lemma ready_placed (registered done : list string)
      (todo : list SchemaDump.Table) (t : SchemaDump.Table) :
  (forall r, In r registered ->
             In r done \/ In r (map SchemaDump.table_name todo)) ->
  SchemaDump.waits (map SchemaDump.table_name todo) t = false ->
  SchemaDump.placed registered done t = true.
Proof.
  intros Hcover Hw. unfold SchemaDump.placed. apply forallb_forall.
  intros r Hr. unfold SchemaDump.waits in Hw.
  destruct (String.eqb r (SchemaDump.table_name t)) eqn:Eself;
    [reflexivity|].
  destruct (SchemaDump.mem_name r registered) eqn:Ereg; [|reflexivity].
  simpl. apply mem_name_In. apply mem_name_In in Ereg.
  destruct (Hcover r Ereg) as [H|H]; [exact H|].
  exfalso. apply not_true_iff_false in Hw. apply Hw.
  apply existsb_exists. exists r. split; [exact Hr|].
  rewrite Eself. simpl. now apply mem_name_In.
Qed.

Lemma sort_as_subsets_order (registered : list string) (fuel : nat)
      (todo : list SchemaDump.Table) (done : list string) :
  (forall r, In r registered ->
             In r done \/ In r (map SchemaDump.table_name todo)) ->
  SchemaDump.resolves fuel todo = true ->
  SchemaDump.dependency_order
    registered done (SchemaDump.sort_as_subsets fuel todo) = true.
Proof.
  revert todo done. induction fuel as [|fuel IH]; intros todo done Hcover.
  - simpl. destruct todo; [reflexivity | discriminate].
  - cbn [SchemaDump.resolves SchemaDump.sort_as_subsets].
    set (pending := map SchemaDump.table_name todo) in *.
    destruct (filter (fun t => negb (SchemaDump.waits pending t)) todo)
      as [|r ready] eqn:E.
    + destruct todo; [reflexivity | discriminate].
    + intros Hres. rewrite <- E.
      apply dependency_order_app.
      * apply dependency_order_all. intros t Ht.
        apply filter_In in Ht. destruct Ht as [_ Ht].
        apply negb_true_iff in Ht.
        now apply ready_placed with (todo := todo).
      * apply IH; [|exact Hres].
        intros x Hx. destruct (Hcover x Hx) as [H|H].
        { left. apply in_or_app. now right. }
        apply in_map_iff in H. destruct H as [t [Hn Ht]].
        destruct (SchemaDump.waits pending t) eqn:Ew.
        { right. apply in_map_iff. exists t. split; [exact Hn|].
          apply filter_In. now split. }
        left. apply in_or_app. left. apply in_map_iff. exists t.
        split; [exact Hn|]. apply filter_In. split; [exact Ht|].
        now rewrite Ew.
Qed.

(** Unless the references run in a cycle, [sorted_tables] lists every table
    after the registered tables its foreign keys point to. *)
Lemma sorted_tables_dependency_order (metadata : SchemaDump.MetaData) :
  SchemaDump.resolves (List.length metadata)
                      (fold_right SchemaDump.insert_table [] metadata)
  = true ->
  SchemaDump.dependency_order
    (map SchemaDump.table_name metadata) []
    (SchemaDump.sorted_tables metadata) = true.
Proof.
  intros H. unfold SchemaDump.sorted_tables.
  apply sort_as_subsets_order; [|exact H].
  intros r Hr. right. apply in_map_iff in Hr. destruct Hr as [t [Hn Ht]].
  apply in_map_iff. exists t. split; [exact Hn|].
  apply Permutation_in with (l := metadata); [|exact Ht].
  apply Permutation_sym, name_sort_perm.
Qed.

(** C8 (amended).  For every set of registered tables and every dialect
    name, the statements of the dump are, in this order: the header; for
    the name ["postgresql"] only, the sequence statements, among them one
    for each auto-incrementing column whose default is [None]; the
    ["-- Tables"] heading; each registered table once, as a comment naming
    the table and its CREATE TABLE statement, every table after the tables
    its foreign keys point to unless the foreign keys run in a cycle; and
    the index statements, under one ["-- Indexes"] heading that is there
    when there is an index.  The text is these statements joined by line
    ends.  Which columns auto-increment is the library's affair; a column
    whose [autoincrement] is [False] never does. *)
Theorem ddl_layout (create_table : SchemaDump.Dialect -> SchemaDump.Table -> string)
        (create_index : SchemaDump.Dialect -> SchemaDump.Index -> string)
        (now_isoformat : string)
        (auto_incrementing : SchemaDump.Table -> SchemaDump.Column -> bool)
        (metadata : SchemaDump.MetaData) (dialect_name : string) :
  (forall t c, auto_incrementing t c = true ->
               SchemaDump.truthy (SchemaDump.autoincrement c) = true) ->
  let dialect := SchemaDump.get_dialect dialect_name in
  exists tables sequences,
    Permutation tables metadata
    /\ (SchemaDump.resolves (List.length metadata)
                            (fold_right SchemaDump.insert_table [] metadata)
        = true ->
        SchemaDump.dependency_order
          (map SchemaDump.table_name metadata) [] tables = true)
    /\ (dialect_name <> "postgresql"%string -> sequences = [])
    /\ (dialect_name = "postgresql"%string ->
        forall t c,
          In t metadata -> In c (SchemaDump.columns t) ->
          auto_incrementing t c = true ->
          SchemaDump.column_default c = None ->
          In ("CREATE SEQUENCE IF NOT EXISTS "
                ++ (SchemaDump.table_name t ++ "_"
                      ++ SchemaDump.column_name c ++ "_seq")
                ++ ";")%string
             sequences)
    /\ SchemaDump.get_dialect_ddl_statements
         create_table create_index now_isoformat metadata dialect_name
       = SchemaDump.header now_isoformat metadata dialect_name
           ++ sequences
           ++ ["-- Tables"%string]
           ++ flat_map (SchemaDump.table_block create_table dialect) tables
           ++ SchemaDump.heading
                false (SchemaDump.index_blocks create_index dialect tables)
           ++ SchemaDump.index_blocks create_index dialect tables
    /\ SchemaDump.get_dialect_ddl
         create_table create_index now_isoformat metadata dialect_name
       = String.concat
           (String SchemaDump.newline "")
           (SchemaDump.header now_isoformat metadata dialect_name
              ++ sequences
              ++ ["-- Tables"%string]
              ++ flat_map (SchemaDump.table_block create_table dialect) tables
              ++ SchemaDump.heading
                   false (SchemaDump.index_blocks create_index dialect tables)
              ++ SchemaDump.index_blocks create_index dialect tables).
Proof.
  intros Hauto dialect.
  set (tables := SchemaDump.sorted_tables metadata).
  exists tables, (SchemaDump.sequence_section dialect_name tables).
  assert (E : SchemaDump.get_dialect_ddl_statements
                create_table create_index now_isoformat metadata dialect_name
              = SchemaDump.header now_isoformat metadata dialect_name
                  ++ SchemaDump.sequence_section dialect_name tables
                  ++ ["-- Tables"%string]
                  ++ flat_map (SchemaDump.table_block create_table dialect)
                              tables
                  ++ SchemaDump.heading
                       false
                       (SchemaDump.index_blocks create_index dialect tables)
                  ++ SchemaDump.index_blocks create_index dialect tables).
  { unfold SchemaDump.get_dialect_ddl_statements, SchemaDump.sequence_section.
    fold tables. fold dialect.
    rewrite index_loops, table_loop. cbn [fst].
    destruct (String.eqb dialect_name "postgresql").
    - rewrite sequence_loops. now rewrite <- !app_assoc.
    - now rewrite <- !app_assoc. }
  split; [apply sorted_tables_perm|].
  split; [apply sorted_tables_dependency_order|].
  split.
  { intros Hne. unfold SchemaDump.sequence_section.
    apply String.eqb_neq in Hne. now rewrite Hne. }
  split.
  { intros -> t c Ht Hc Ha Hd. unfold SchemaDump.sequence_section.
    cbn [String.eqb Ascii.eqb Bool.eqb]. apply in_flat_map. exists t. split.
    - apply Permutation_in with (l := metadata); [|exact Ht].
      apply Permutation_sym, sorted_tables_perm.
    - apply in_flat_map. exists c. split; [exact Hc|].
      unfold SchemaDump.sequence_block.
      rewrite (Hauto t c Ha), Hd. cbn [is_none andb]. right. left.
      reflexivity. }
  split; [exact E|].
  unfold SchemaDump.get_dialect_ddl. now rewrite E.
Qed.

Lemma ddl_layout_witness :
  (forall t c, BlogMetaData.auto_incrementing t c = true ->
               SchemaDump.truthy (SchemaDump.autoincrement c) = true)
  /\ exists tables sequences,
      Permutation tables BlogMetaData.metadata
      /\ In "CREATE SEQUENCE IF NOT EXISTS posts_id_seq;"%string sequences
      /\ SchemaDump.get_dialect_ddl_statements
           BlogMetaData.create_table BlogMetaData.create_index
           "2026-01-01T00:00:00" BlogMetaData.metadata "postgresql"
         = SchemaDump.header "2026-01-01T00:00:00" BlogMetaData.metadata
                             "postgresql"
             ++ sequences
             ++ ["-- Tables"%string]
             ++ flat_map (SchemaDump.table_block BlogMetaData.create_table
                                                 SchemaDump.Postgresql)
                         tables
             ++ SchemaDump.heading
                  false
                  (SchemaDump.index_blocks BlogMetaData.create_index
                                           SchemaDump.Postgresql tables)
             ++ SchemaDump.index_blocks BlogMetaData.create_index
                                        SchemaDump.Postgresql tables.
Proof.
  assert (Hauto : forall t c,
             BlogMetaData.auto_incrementing t c = true ->
             SchemaDump.truthy (SchemaDump.autoincrement c) = true).
  { intros t c H. unfold BlogMetaData.auto_incrementing in H.
    apply andb_true_iff in H. exact (proj2 H). }
  split; [exact Hauto|].
  destruct (ddl_layout BlogMetaData.create_table BlogMetaData.create_index
                       "2026-01-01T00:00:00" BlogMetaData.auto_incrementing
                       BlogMetaData.metadata "postgresql" Hauto)
    as (tables & sequences & Hp & _ & _ & Hs & E & _).
  exists tables, sequences. split; [exact Hp|]. split; [|exact E].
  apply (Hs eq_refl BlogMetaData.posts_table
            (BlogMetaData.plain "id")).
  - right. right. left. reflexivity.
  - left. reflexivity.
  - reflexivity.
  - reflexivity.
Defined.

Example blog_tables_resolve :
  SchemaDump.resolves (List.length BlogMetaData.metadata)
                      (fold_right SchemaDump.insert_table []
                                  BlogMetaData.metadata)
  = true.
Proof.
  reflexivity.
Qed.

(** On the registered tables the dependency order is: [tags] and [users],
    which refer to nothing; [posts]; then [comments] and [post_tags]. *)
Example sorted_tables_of_the_blog :
  map SchemaDump.table_name (SchemaDump.sorted_tables BlogMetaData.metadata)
  = ["tags"; "users"; "posts"; "comments"; "post_tags"]%string.
Proof.
  reflexivity.
Qed.

(** ** The pg_dump drivers *)

Lemma run_fails_within (args : Subprocess.RunArgs) (limit : Z)
      (p : Subprocess.Process) :
  Subprocess.timeout args = Some limit ->
  Subprocess.check args = true ->
  fails_within limit p ->
  Subprocess.run args p = Subprocess.TimeoutExpired
  \/ exists rc err, Subprocess.run args p = Subprocess.CalledProcessError rc err.
Proof.
  intros Ht Hc Hf. unfold Subprocess.run. rewrite Ht, Hc.
  destruct p as [seconds rc out err| |]; [|now left|destruct Hf].
  simpl in Hf. destruct (limit <? seconds) eqn:El; [now left|].
  apply Z.ltb_ge in El. destruct Hf as [Hf|Hf]; [lia|].
  apply Z.eqb_neq in Hf. rewrite Hf. simpl. right. now exists rc, err.
Qed.

(** [run_pg_dump] waits at most 30 seconds, and reports a failed or expired
    [pg_dump] as [(False, "")]. *)
Lemma run_pg_dump_failure (env : Env) (database : string) (w : World) :
  fails_within 30 (pg_dump env) ->
  exists args,
    ValidateAndDump.run_pg_dump env database w
    = Returns (false, ""%string) (started args w)
    /\ Subprocess.timeout args = Some 30.
Proof.
  intros Hf. unfold ValidateAndDump.run_pg_dump.
  exists (Subprocess.mkRun (pg_dump_cmd (container_id env) "test" database)
                           true (Some 30)).
  split; [|reflexivity].
  destruct (run_fails_within
              (Subprocess.mkRun (pg_dump_cmd (container_id env) "test" database)
                                true (Some 30))
              30 (pg_dump env) eq_refl eq_refl Hf) as [E|[rc [err E]]];
    now rewrite E.
Qed.

(** On the [validate_and_dump.py] path the contract holds: a failed or
    expired [pg_dump] gives exit status 1 and no file. *)
Lemma validate_and_dump_failure (env : Env) (skip_migrations : bool)
      (alembic_ini : option string) (w : World) :
  fails_within 30 (pg_dump env) ->
  exists w',
    ValidateAndDump.main env skip_migrations alembic_ini w = Returns 1 w'
    /\ files w' = files w
    /\ links w' = links w
    /\ forall c, In c (calls w') ->
                 In c (calls w) \/ Subprocess.timeout c = Some 30.
Proof.
  intros Hf. unfold ValidateAndDump.main, ValidateAndDump.validate_and_dump.
  destruct (negb (models_import env)).
  { exists w. repeat split; auto. }
  destruct (negb _).
  { exists w. repeat split; auto. }
  destruct (run_pg_dump_failure env "test" w Hf) as [args [E Ht]].
  rewrite E. simpl. eexists. split; [reflexivity|].
  simpl. repeat split. intros c Hc. apply in_app_or in Hc.
  destruct Hc as [Hc|[<-|[]]]; [now left | now right].
Qed.

(** C9.  [pg_dump_helper.py] at the two failing runs.  When [pg_dump] exits
    with status 1, [dump_with_testcontainer] returns [None] and writes no
    file, but the script ends with exit status 0.  When [pg_dump] never
    exits, the call, which is made without a timeout, never returns.  On
    the same two runs [validate_and_dump.py], which passes [timeout=30],
    ends with exit status 1 and no file. *)
Theorem pg_dump_helper_failing_runs :
  let call := Subprocess.mkRun DumpRuns.testcontainer_cmd true in
  PgDumpHelper.dump_with_testcontainer DumpRuns.exits_1 DumpRuns.nothing
  = Returns None (mkWorld [] [] [call None])
  /\ PgDumpHelper.main DumpRuns.exits_1 true false DumpRuns.nothing
     = Returns 0 (mkWorld [] [] [call None])
  /\ PgDumpHelper.main DumpRuns.hangs true false DumpRuns.nothing
     = Blocks (mkWorld [] [] [call None])
  /\ ValidateAndDump.main DumpRuns.exits_1 false None DumpRuns.nothing
     = Returns 1 (mkWorld [] [] [call (Some 30)])
  /\ ValidateAndDump.main DumpRuns.hangs false None DumpRuns.nothing
     = Returns 1 (mkWorld [] [] [call (Some 30)]).
Proof.
  repeat split.
Qed.

(** Whatever happens, [pg_dump_helper.py] that runs to its end exits with
    status 0. *)
Lemma pg_dump_helper_exit_status (env : Env) (use_testcontainer use_running : bool)
      (w w' : World) (status : Z) :
  PgDumpHelper.main env use_testcontainer use_running w = Returns status w' ->
  status = 0.
Proof.
  unfold PgDumpHelper.main.
  destruct use_testcontainer.
  { destruct (PgDumpHelper.dump_with_testcontainer env w);
      [now intros [= <- _] | discriminate | discriminate]. }
  destruct use_running.
  { destruct (PgDumpHelper.dump_with_running_container env w);
      [now intros [= <- _] | discriminate | discriminate]. }
  destruct (PgDumpHelper.dump_with_running_container env w) as [[f|] w0|e w0|w0];
    try discriminate; try (now intros [= <- _]).
  destruct (PgDumpHelper.dump_with_testcontainer env w0);
    [now intros [= <- _] | discriminate | discriminate].
Qed.

(** Once the tables are created, a [pg_dump] that never exits blocks
    [dump_with_testcontainer] for good. *)
Lemma dump_with_testcontainer_blocks (env : Env) (w : World) :
  create_all env = true ->
  pg_dump env = Subprocess.Hangs ->
  exists args,
    PgDumpHelper.dump_with_testcontainer env w = Blocks (started args w)
    /\ Subprocess.timeout args = None.
Proof.
  intros Hc H. unfold PgDumpHelper.dump_with_testcontainer.
  rewrite Hc. cbn [negb].
  destruct (match url_user_db env with Some m => m | None => _ end)
    as [username database].
  exists (Subprocess.mkRun (pg_dump_cmd (container_id env) username database)
                           true None).
  split; [|reflexivity]. unfold Subprocess.run. rewrite H. reflexivity.
Qed.

(* ================================================================= *)
(** * Further properties of the data-access helpers *)

(** ** What a call leaves behind *)

Lemma has_key_In {R} (key : R -> Z) (rows : list R) (i : Z) :
  existsb (fun r => key r =? i) rows = true <-> In i (map key rows).
Proof.
  rewrite existsb_exists, in_map_iff. split.
  - intros [r [Hr E]]. apply Z.eqb_eq in E. now exists r.
  - intros [r [E Hr]]. exists r. split; [exact Hr | now apply Z.eqb_eq].
Qed.

Lemma has_key_row {R} (key : R -> Z) (rows : list R) (r : R) :
  In r rows -> existsb (fun x => key x =? key r) rows = true.
Proof.
  intros H. apply has_key_In. now apply in_map.
Qed.

Lemma create_user_after (s : Store) (username email password : string)
      (kw : User.kwargs) :
  after (UserCRUD.create_user username email password kw) s = s
  \/ exists u,
      has_user (User.id u) s = false
      /\ after (UserCRUD.create_user username email password kw) s
         = with_users (users s ++ [u])
                      (pk_seq (User.kw_id kw) (users_id_seq s)) s.
Proof.
  unfold after, UserCRUD.create_user, Db.add_user.
  destruct (has_user _ s) eqn:Hpk; [now left|].
  destruct (taken _ _ _ _ _); [now left|].
  destruct (taken _ _ _ _ _); [now left|].
  right. eexists. split; [exact Hpk | reflexivity].
Qed.

Lemma create_post_after (s : Store) (title content : string) (author_id : Z)
      (kw : Post.kwargs) :
  after (PostCRUD.create_post title content author_id kw) s = s
  \/ exists p,
      p = Db.new_post title content author_id kw (posts_id_seq s) (utcnow s)
      /\ has_post (Post.id p) s = false
      /\ taken Post.id Post.slug (Post.id p) (Post.slug p) (posts s) = false
      /\ has_user author_id s = true
      /\ after (PostCRUD.create_post title content author_id kw) s
         = with_posts (posts s ++ [p])
                      (pk_seq (Post.kw_id kw) (posts_id_seq s)) s.
Proof.
  unfold after, PostCRUD.create_post, Db.add_post.
  destruct (has_post _ s) eqn:Hpk; [now left|].
  destruct (taken _ _ _ _ _) eqn:Hs; [now left|].
  destruct (has_user author_id s) eqn:Ha; [|now left].
  right. eexists. repeat split; try reflexivity; assumption.
Qed.

Lemma create_tag_after (s : Store) (name : string) (kw : Tag.kwargs) :
  after (TagCRUD.create_tag name kw) s = s
  \/ exists t,
      t = Db.new_tag name kw (tags_id_seq s) (utcnow s)
      /\ has_tag (Tag.id t) s = false
      /\ taken Tag.id (fun t => Some (Tag.name t)) (Tag.id t) (Some name)
               (tags s) = false
      /\ taken Tag.id Tag.slug (Tag.id t) (Tag.slug t) (tags s) = false
      /\ after (TagCRUD.create_tag name kw) s
         = with_tags (tags s ++ [t]) (pk_seq (Tag.kw_id kw) (tags_id_seq s)) s.
Proof.
  unfold after, TagCRUD.create_tag, Db.add_tag.
  destruct (has_tag _ s) eqn:Hpk; [now left|].
  destruct (taken Tag.id (fun t => Some (Tag.name t)) _ _ _) eqn:Hn;
    [now left|].
  destruct (taken Tag.id Tag.slug _ _ _) eqn:Hs; [now left|].
  right. eexists. repeat split; try reflexivity; assumption.
Qed.

Lemma create_comment_after (s : Store) (content : string)
      (author_id post_id : Z) (parent_id : option Z) :
  after (CommentCRUD.create_comment content author_id post_id parent_id) s = s
  \/ exists c,
      c = Db.new_comment content author_id post_id parent_id
                         (comments_id_seq s) (utcnow s)
      /\ has_comment (Comment.id c) s = false
      /\ has_user author_id s = true
      /\ has_post post_id s = true
      /\ (forall i, parent_id = Some i -> has_comment i s = true)
      /\ after (CommentCRUD.create_comment content author_id post_id parent_id) s
         = with_comments (comments s ++ [c]) (comments_id_seq s + 1) s.
Proof.
  unfold after, CommentCRUD.create_comment, Db.add_comment.
  destruct (has_comment _ s) eqn:Hpk; [now left|].
  destruct (has_user author_id s) eqn:Ha; [|now left].
  destruct (has_post post_id s) eqn:Hp; [|now left].
  simpl.
  destruct parent_id as [i|].
  - destruct (has_comment i s) eqn:Hi; [|now left].
    right. eexists. repeat split; try reflexivity; try assumption.
    now intros j [= <-].
  - right. eexists. repeat split; try reflexivity; try assumption.
    discriminate.
Qed.

Lemma update_user_after (s : Store) (i : Z) (kw : User.patch) :
  after (UserCRUD.update_user i kw) s = s
  \/ exists u row,
      In u (users s) /\ User.id u = i
      /\ Some (User.id row) = assign (Some i) (User.set_id kw)
      /\ (User.id row = User.id u
          \/ (has_user (User.id row) s = false
              /\ Db.user_referenced (User.id u) s = false))
      /\ after (UserCRUD.update_user i kw) s
         = with_users (Db.replace_row User.id (User.id u) row (users s))
                      (users_id_seq s) s.
Proof.
  unfold after, UserCRUD.update_user, bind, query, ret. simpl.
  destruct (first _) as [u|] eqn:E; [|now left].
  apply first_filter_some in E. destruct E as [Hin Hi].
  apply Z.eqb_eq in Hi.
  unfold Db.commit_user.
  destruct (Db.assign_user kw u) as [dirty|] eqn:Ea; [|now left].
  destruct (Db.user_eq_dec dirty u); [now left|].
  cbv zeta. set (row := Db.touch_user (utcnow s) u dirty).
  destruct (negb (User.id row =? User.id u) && has_user (User.id row) s)
    eqn:G1; [now left|].
  destruct (taken _ _ _ _ _); [now left|].
  destruct (taken _ _ _ _ _); [now left|].
  destruct (negb (User.id row =? User.id u)
            && Db.user_referenced (User.id u) s) eqn:G2; [now left|].
  right. exists u, row. split; [exact Hin|]. split; [exact Hi|].
  split; [|split; [|reflexivity]].
  { destruct (assign_user_fields _ _ _ Ea) as [[Hid _] _].
    rewrite <- Hi, <- Hid. unfold row, Db.touch_user.
    now destruct (Db.opt_Z_eqb _ _). }
  destruct (User.id row =? User.id u) eqn:Eid.
  - left. now apply Z.eqb_eq.
  - right. now split.
Qed.

Lemma update_post_after (s : Store) (i : Z) (kw : Post.patch) :
  after (PostCRUD.update_post i kw) s = s
  \/ exists p row,
      In p (posts s) /\ Post.id p = i
      /\ Some (Post.id row) = assign (Some i) (Post.set_id kw)
      /\ (Post.id row = Post.id p
          \/ (has_post (Post.id row) s = false
              /\ Db.post_referenced (Post.id p) s = false))
      /\ taken Post.id Post.slug (Post.id p) (Post.slug row) (posts s) = false
      /\ has_user (Post.author_id row) s = true
      /\ after (PostCRUD.update_post i kw) s
         = with_posts (Db.replace_row Post.id (Post.id p) row (posts s))
                      (posts_id_seq s) s.
Proof.
  unfold after, PostCRUD.update_post, bind, query, ret. simpl.
  destruct (first _) as [p|] eqn:E; [|now left].
  apply first_filter_some in E. destruct E as [Hin Hi].
  apply Z.eqb_eq in Hi.
  unfold Db.commit_post.
  destruct (Db.assign_post kw p) as [dirty|] eqn:Ea; [|now left].
  destruct (Db.post_eq_dec dirty p); [now left|].
  cbv zeta. set (row := Db.touch_post (utcnow s) p dirty).
  destruct (negb (Post.id row =? Post.id p) && has_post (Post.id row) s)
    eqn:G1; [now left|].
  destruct (taken _ _ _ _ _) eqn:Hs; [now left|].
  destruct (has_user _ s) eqn:Hu; [|now left].
  cbn [negb].
  destruct (negb (Post.id row =? Post.id p)
            && Db.post_referenced (Post.id p) s) eqn:G2; [now left|].
  right. exists p, row. split; [exact Hin|]. split; [exact Hi|].
  split; [|split; [|split; [exact Hs | split; [exact Hu | reflexivity]]]].
  { destruct (assign_post_fields _ _ _ Ea) as [[Hid _] _].
    rewrite <- Hi, <- Hid. unfold row, Db.touch_post.
    now destruct (Db.opt_Z_eqb _ _). }
  destruct (Post.id row =? Post.id p) eqn:Eid.
  - left. now apply Z.eqb_eq.
  - right. now split.
Qed.

Lemma update_comment_after (s : Store) (i : Z) (content : string) :
  after (CommentCRUD.update_comment i content) s = s
  \/ exists c row,
      In c (comments s) /\ Comment.id c = i
      /\ Comment.id row = Comment.id c
      /\ Comment.author_id row = Comment.author_id c
      /\ Comment.post_id row = Comment.post_id c
      /\ Comment.parent_id row = Comment.parent_id c
      /\ after (CommentCRUD.update_comment i content) s
         = with_comments
             (Db.replace_row Comment.id (Comment.id c) row (comments s))
             (comments_id_seq s) s.
Proof.
  unfold after, CommentCRUD.update_comment, bind, query, ret. simpl.
  destruct (first _) as [c|] eqn:E; [|now left].
  apply first_filter_some in E. destruct E as [Hin Hi].
  apply Z.eqb_eq in Hi.
  unfold Db.commit_comment.
  destruct (String.eqb content _); [now left|].
  right. exists c.
  exists (Db.touch_comment (utcnow s) (Db.assign_comment content c)).
  split; [exact Hin|]. split; [exact Hi|]. simpl. repeat split; reflexivity.
Qed.

Lemma delete_missing (s : Store) (i : Z) :
  (first (filter (fun x => User.id x =? i) (users s)) = None ->
   UserCRUD.delete_user i s = (Ok false, s))
  /\ (first (filter (fun x => Post.id x =? i) (posts s)) = None ->
      PostCRUD.delete_post i s = (Ok false, s))
  /\ (first (filter (fun x => Comment.id x =? i) (comments s)) = None ->
      CommentCRUD.delete_comment i s = (Ok false, s)).
Proof.
  unfold UserCRUD.delete_user, PostCRUD.delete_post,
    CommentCRUD.delete_comment, bind, query, ret. simpl.
  repeat split; intros ->; reflexivity.
Qed.

Lemma delete_after (s : Store) (i : Z) :
  (after (UserCRUD.delete_user i) s = s
   \/ exists us ps cs,
       after (UserCRUD.delete_user i) s = snd (Db.flush_delete us ps cs s))
  /\ (after (PostCRUD.delete_post i) s = s
      \/ exists us ps cs,
          after (PostCRUD.delete_post i) s = snd (Db.flush_delete us ps cs s))
  /\ (after (CommentCRUD.delete_comment i) s = s
      \/ exists us ps cs,
          after (CommentCRUD.delete_comment i) s
          = snd (Db.flush_delete us ps cs s)).
Proof.
  destruct (delete_missing s i) as (HU & HP & HC). unfold after.
  repeat split.
  - destruct (first (filter (fun x => User.id x =? i) (users s)))
      as [u|] eqn:E.
    + right. rewrite (delete_user_found s i u E).
      unfold Db.delete_user. eexists _, _, _. reflexivity.
    + left. now rewrite HU.
  - destruct (first (filter (fun x => Post.id x =? i) (posts s)))
      as [p|] eqn:E.
    + right. rewrite (delete_post_found s i p E).
      unfold Db.delete_post. eexists _, _, _. reflexivity.
    + left. now rewrite HP.
  - destruct (first (filter (fun x => Comment.id x =? i) (comments s)))
      as [c|] eqn:E.
    + right. rewrite (delete_comment_found s i c E).
      unfold Db.delete_comment. eexists _, _, _. reflexivity.
    + left. now rewrite HC.
Qed.

Lemma add_tag_to_post_after (s : Store) (post_id tag_id : Z) :
  after (PostCRUD.add_tag_to_post post_id tag_id) s = s
  \/ (has_post post_id s = true /\ has_tag tag_id s = true
      /\ ~ In (post_id, tag_id) (post_tags s)
      /\ after (PostCRUD.add_tag_to_post post_id tag_id) s
         = with_post_tags (post_tags s ++ [(post_id, tag_id)]) s).
Proof.
  unfold after, PostCRUD.add_tag_to_post, bind, query, ret. simpl.
  destruct (first (filter _ (posts s))) as [p|] eqn:Ep; [|now left].
  destruct (first (filter _ (tags s))) as [t|] eqn:Et; [|now left].
  apply first_filter_some in Ep, Et.
  destruct Ep as [Hp Ep], Et as [Ht Et].
  apply Z.eqb_eq in Ep, Et. subst post_id tag_id.
  unfold Db.append_tag.
  destruct (existsb _ (post_tags s)) eqn:E; [now left|].
  right. split; [now apply (has_key_row Post.id)|].
  split; [now apply (has_key_row Tag.id)|].
  split; [|reflexivity].
  intros H. apply has_pair in H. congruence.
Qed.

(** ** Primary keys stay unique *)

Lemma NoDup_snoc {A} (l : list A) (x : A) :
  NoDup l -> ~ In x l -> NoDup (l ++ [x]).
Proof.
  intros Hl Hx. apply NoDup_app; [exact Hl | repeat constructor; auto |].
  intros a Ha [<-|[]]. contradiction.
Qed.

Lemma keys_snoc {R} (key : R -> Z) (rows : list R) (r : R) :
  NoDup (map key rows) ->
  existsb (fun x => key x =? key r) rows = false ->
  NoDup (map key (rows ++ [r])).
Proof.
  intros Hn Hr. rewrite map_app. simpl. apply NoDup_snoc; [exact Hn|].
  intros H. apply has_key_In in H. congruence.
Qed.

Lemma replace_row_keys {R} (key : R -> Z) (new : R) (rows : list R) :
  map key (Db.replace_row key (key new) new rows) = map key rows.
Proof.
  unfold Db.replace_row. induction rows as [|r rows IH]; simpl.
  - reflexivity.
  - rewrite IH. destruct (key r =? key new) eqn:E; [|reflexivity].
    apply Z.eqb_eq in E. now rewrite E.
Qed.

Lemma replace_row_In_other {R} (key : R -> Z) (old : Z) (new : R)
      (rows : list R) (x : R) :
  In x (Db.replace_row key old new rows) ->
  (x = new /\ In old (map key rows)) \/ (In x rows /\ key x <> old).
Proof.
  unfold Db.replace_row. intros H. apply in_map_iff in H.
  destruct H as [r [E Hr]]. destruct (key r =? old) eqn:Ek.
  - left. split; [now symmetry|]. apply Z.eqb_eq in Ek. rewrite <- Ek.
    now apply in_map.
  - right. subst x. split; [exact Hr | now apply Z.eqb_neq].
Qed.

(** An UPDATE that gives a row a key no row has leaves the keys unique. *)
Lemma replace_row_NoDup {R} (key : R -> Z) (old : Z) (new : R)
      (rows : list R) :
  NoDup (map key rows) ->
  key new = old \/ existsb (fun r => key r =? key new) rows = false ->
  NoDup (map key (Db.replace_row key old new rows)).
Proof.
  intros Hn [<-|Hfree]; [now rewrite replace_row_keys|].
  assert (Hnew : ~ In (key new) (map key rows)).
  { intros H. apply has_key_In in H. congruence. }
  clear Hfree. unfold Db.replace_row.
  induction rows as [|r rows IH]; cbn [map]; [constructor|].
  cbn [map] in Hn, Hnew. inversion Hn as [|k ks Hk Hks]; subst.
  assert (Htail : forall x,
             In x (map key (map (fun r0 => if key r0 =? old then new else r0)
                                rows)) ->
             (x = key new /\ In old (map key rows))
             \/ (In x (map key rows) /\ x <> old)).
  { intros x Hx. apply in_map_iff in Hx. destruct Hx as [y [<- Hy]].
    destruct (replace_row_In_other key old new rows y Hy) as [[-> H]|[H1 H2]].
    - left. now split.
    - right. split; [now apply in_map | exact H2]. }
  constructor; [|apply IH; [exact Hks | intros Hx; apply Hnew; now right]].
  intros Hin. apply Htail in Hin.
  destruct (key r =? old) eqn:E.
  - apply Z.eqb_eq in E. destruct Hin as [[_ H]|[H _]].
    + apply Hk. now rewrite E.
    + apply Hnew. now right.
  - apply Z.eqb_neq in E. destruct Hin as [[H _]|[H _]].
    + apply Hnew. left. now symmetry.
    + now apply Hk.
Qed.

Lemma NoDup_map_filter {A B} (f : A -> B) (g : A -> bool) (l : list A) :
  NoDup (map f l) -> NoDup (map f (filter g l)).
Proof.
  induction l as [|a l IH]; simpl; [auto|].
  intros H. inversion H as [|x xs Hx Hl]; subst.
  destruct (g a); simpl; [|now apply IH].
  constructor; [|now apply IH].
  intros Hin. apply Hx. apply in_map_iff in Hin.
  destruct Hin as [b [Hb Hin]]. apply filter_In in Hin.
  apply in_map_iff. exists b. tauto.
Qed.

Lemma detach_keys (now : Z) (dead : list Z) (cs : list Comment.t) :
  map Comment.id (map (Db.detach now dead) cs) = map Comment.id cs.
Proof.
  rewrite map_map. apply map_ext. intros c. unfold Db.detach.
  now destruct (_ && _).
Qed.

Lemma flush_delete_keys (s : Store) (us ps cs : list Z) :
  keys_unique s -> keys_unique (snd (Db.flush_delete us ps cs s)).
Proof.
  intros (Hu & Hp & Ht & Hc). unfold keys_unique, Db.flush_delete,
    Db.delete_cascade, Db.delete_rows.
  cbn [snd users posts tags comments with_comments].
  repeat split;
    [ now apply NoDup_map_filter | now apply NoDup_map_filter | exact Ht
    | apply NoDup_map_filter; now rewrite detach_keys ].
Qed.

Lemma call_keys (c : Call) (s : Store) :
  keys_unique s -> keys_unique (call c s).
Proof.
  intros H. pose proof H as (Hu & Hp & Ht & Hc).
  destruct c as [un em pw kw | i kw | i | ti co au kw | i kw | i | p t
                | co au po pa | i co | i | na kw]; cbn [call].
  - destruct (create_user_after s un em pw kw) as [->|[u [Hk ->]]]; [exact H|].
    unfold keys_unique. cbn [users posts tags comments with_users].
    repeat split; auto. now apply keys_snoc.
  - destruct (update_user_after s i kw) as [->|(u & row & _ & _ & _ & Hk & ->)];
      [exact H|].
    unfold keys_unique. cbn [users posts tags comments with_users].
    repeat split; auto. apply replace_row_NoDup; [exact Hu|].
    destruct Hk as [Hk|[Hk _]]; [now left | now right].
  - destruct (proj1 (delete_after s i)) as [->|(us & ps & cs & ->)];
      [exact H | now apply flush_delete_keys].
  - destruct (create_post_after s ti co au kw)
      as [->|(p & _ & Hk & _ & _ & ->)]; [exact H|].
    unfold keys_unique. cbn [users posts tags comments with_posts].
    repeat split; auto. now apply keys_snoc.
  - destruct (update_post_after s i kw)
      as [->|(p & row & _ & _ & _ & Hk & _ & _ & ->)]; [exact H|].
    unfold keys_unique. cbn [users posts tags comments with_posts].
    repeat split; auto. apply replace_row_NoDup; [exact Hp|].
    destruct Hk as [Hk|[Hk _]]; [now left | now right].
  - destruct (proj1 (proj2 (delete_after s i))) as [->|(us & ps & cs & ->)];
      [exact H | now apply flush_delete_keys].
  - destruct (add_tag_to_post_after s p t) as [->|(_ & _ & _ & ->)];
      exact H.
  - destruct (create_comment_after s co au po pa)
      as [->|(c & _ & Hk & _ & _ & _ & ->)]; [exact H|].
    unfold keys_unique. cbn [users posts tags comments with_comments].
    repeat split; auto. now apply keys_snoc.
  - destruct (update_comment_after s i co)
      as [->|(c & row & _ & _ & Hk & _ & _ & _ & ->)]; [exact H|].
    unfold keys_unique. cbn [users posts tags comments with_comments].
    repeat split; auto. rewrite <- Hk. now rewrite replace_row_keys.
  - destruct (proj2 (proj2 (delete_after s i))) as [->|(us & ps & cs & ->)];
      [exact H | now apply flush_delete_keys].
  - destruct (create_tag_after s na kw)
      as [->|(t & _ & Hk & _ & _ & ->)]; [exact H|].
    unfold keys_unique. cbn [users posts tags comments with_tags].
    repeat split; auto. now apply keys_snoc.
Qed.

(** X1.  Whatever helpers are called, with whatever values for the columns,
    [id] among them, and whether they return or raise, the primary keys of
    the four tables stay unique: no call leaves two rows with the same [id]
    in a table.  Keyword arguments that name a relationship are not
    covered. *)
Theorem keys_stay_unique (cs : list Call) (s : Store) :
  keys_unique s -> keys_unique (run_calls cs s).
Proof.
  revert s. induction cs as [|c cs IH]; intros s H; simpl.
  - exact H.
  - apply IH. now apply call_keys.
Qed.

(** ** Foreign keys stay valid *)

Lemma has_key_snoc {R} (key : R -> Z) (rows : list R) (r : R) (i : Z) :
  existsb (fun x => key x =? i) rows = true ->
  existsb (fun x => key x =? i) (rows ++ [r]) = true.
Proof.
  intros H. rewrite existsb_app, H. reflexivity.
Qed.

Lemma has_key_last {R} (key : R -> Z) (rows : list R) (r : R) :
  existsb (fun x => key x =? key r) (rows ++ [r]) = true.
Proof.
  rewrite existsb_app. simpl. rewrite Z.eqb_refl. apply orb_true_iff.
  right. reflexivity.
Qed.

Lemma has_key_replace {R} (key : R -> Z) (new : R) (rows : list R) (i : Z) :
  existsb (fun x => key x =? i) (Db.replace_row key (key new) new rows)
  = existsb (fun x => key x =? i) rows.
Proof.
  apply eq_true_iff_eq. rewrite !has_key_In. now rewrite replace_row_keys.
Qed.

(** An UPDATE takes no key away but, when it moves one, the old key of the
    row. *)
Lemma has_key_replace_keep {R} (key : R -> Z) (old : Z) (new : R)
      (rows : list R) (i : Z) :
  key new = old \/ i <> old ->
  existsb (fun x => key x =? i) rows = true ->
  existsb (fun x => key x =? i) (Db.replace_row key old new rows) = true.
Proof.
  intros [<-|Hne] H; [now rewrite has_key_replace|].
  apply existsb_exists in H. destruct H as [r [Hr E]].
  apply existsb_exists. exists r. split; [|exact E].
  unfold Db.replace_row. apply in_map_iff. exists r. split; [|exact Hr].
  apply Z.eqb_eq in E. replace (key r =? old) with false; [reflexivity|].
  symmetry. apply Z.eqb_neq. congruence.
Qed.

(** No row holds [i] in the column [col] when [existsb] finds none. *)
Lemma not_referenced {R} (col : R -> Z) (rows : list R) (i : Z) (r : R) :
  existsb (fun x => col x =? i) rows = false -> In r rows -> col r <> i.
Proof.
  intros H Hr E. apply not_true_iff_false in H. apply H.
  apply existsb_exists. exists r. split; [exact Hr | now apply Z.eqb_eq].
Qed.

Lemma has_key_delete {R} (key : R -> Z) (dead : list Z) (rows : list R)
      (i : Z) :
  existsb (fun x => key x =? i) rows = true ->
  ~ In i dead ->
  existsb (fun x => key x =? i) (Db.delete_rows key dead rows) = true.
Proof.
  intros H Hd. apply existsb_exists in H. destruct H as [r [Hr E]].
  apply existsb_exists. exists r. split; [|exact E].
  apply delete_rows_In. split; [exact Hr|].
  apply Z.eqb_eq in E. now rewrite E.
Qed.

Lemma replace_row_In {R} (key : R -> Z) (old : Z) (new : R) (rows : list R)
      (x : R) :
  In x (Db.replace_row key old new rows) -> x = new \/ In x rows.
Proof.
  unfold Db.replace_row. intros H. apply in_map_iff in H.
  destruct H as [r [E Hr]]. destruct (key r =? old).
  - left. now symmetry.
  - right. now subst.
Qed.

Lemma detach_fields (now : Z) (dead : list Z) (c : Comment.t) :
  Comment.id (Db.detach now dead c) = Comment.id c
  /\ Comment.content (Db.detach now dead c) = Comment.content c
  /\ Comment.author_id (Db.detach now dead c) = Comment.author_id c
  /\ Comment.post_id (Db.detach now dead c) = Comment.post_id c
  /\ (Comment.parent_id (Db.detach now dead c) = None
      \/ Db.detach now dead c = c).
Proof.
  unfold Db.detach. destruct (_ && _); simpl; repeat split; auto.
Qed.

(** A flush of deletions leaves no row that points to a deleted row,
    whichever keys it starts from. *)
Lemma flush_delete_references (s : Store) (us ps cs : list Z) :
  references_hold s -> references_hold (snd (Db.flush_delete us ps cs s)).
Proof.
  intros (HP & HC & HT).
  unfold Db.flush_delete, Db.delete_cascade.
  set (s1 := with_comments
               (map (Db.detach (utcnow s) cs) (comments s))
               (comments_id_seq s) s).
  set (dps := Db.doomed_posts us ps s1).
  set (dcs := Db.doomed_comments us dps cs s1).
  assert (Hauthor : forall p, In p (posts s) -> ~ In (Post.id p) dps ->
                              ~ In (Post.author_id p) us).
  { intros p Hp Hn Hu. apply Hn. unfold dps, Db.doomed_posts.
    apply in_or_app. right. apply in_map. apply filter_In.
    split; [exact Hp | now apply mem_In]. }
  assert (Hseed : forall c, In c (comments s1) -> ~ In (Comment.id c) dcs ->
                            ~ In (Comment.author_id c) us
                            /\ ~ In (Comment.post_id c) dps).
  { intros c Hc Hn. split; intros Hx; apply Hn; unfold dcs, Db.doomed_comments;
      apply cascade_replies_extends; apply in_or_app; right; apply in_map;
      apply filter_In; (split; [exact Hc|]); apply orb_true_iff.
    - left. now apply mem_In.
    - right. now apply mem_In. }
  assert (Hclosed : forall c i, In c (comments s1) ->
                                Comment.parent_id c = Some i ->
                                ~ In (Comment.id c) dcs -> ~ In i dcs).
  { intros c i Hc Hpar Hn Hi. apply Hn. unfold dcs, Db.doomed_comments in *.
    apply cascade_replies_closed with (p := i); auto.
    pose proof (alive_le (comments s1)
                         (cs ++ map Comment.id
                                    (filter (fun c0 =>
                                               mem (Comment.author_id c0) us
                                               || mem (Comment.post_id c0) dps)
                                            (comments s1)))).
    lia. }
  unfold references_hold, has_user, has_post, has_tag, has_comment.
  cbn [snd users posts tags comments post_tags].
  fold s1. fold dps. fold dcs.
  split; [|split].
  - intros p Hp. apply delete_rows_In in Hp. destruct Hp as [Hp Hn].
    apply has_key_delete; [now apply HP | now apply Hauthor].
  - intros c' Hc'. apply delete_rows_In in Hc'. destruct Hc' as [Hc' Hn].
    destruct (Hseed c' Hc' Hn) as [Hau Hpo].
    cbn [comments with_comments s1] in Hc'.
    apply in_map_iff in Hc'. destruct Hc' as [c [<- Hc]].
    destruct (detach_fields (utcnow s) cs c) as (Hid & _ & Ha & Hpid & Hpar).
    destruct (HC c Hc) as (H1 & H2 & H3).
    rewrite Ha in *. rewrite Hpid in *.
    split; [now apply has_key_delete|].
    split; [now apply has_key_delete|].
    intros i Hi. destruct Hpar as [Hpar|Hsame]; [congruence|].
    apply has_key_delete.
    + apply has_key_In. cbn [comments with_comments s1].
      rewrite detach_keys. apply has_key_In. apply H3. now rewrite <- Hsame.
    + apply (Hclosed (Db.detach (utcnow s) cs c) i); auto.
      cbn [comments with_comments s1]. now apply in_map.
  - intros pt Hpt. apply filter_In in Hpt. destruct Hpt as [Hpt Hn].
    destruct (HT pt Hpt) as [H1 H2]. split; [|exact H2].
    apply has_key_delete; [exact H1|].
    apply negb_true_iff in Hn. intros Hx. apply mem_In in Hx. congruence.
Qed.

Lemma call_references (c : Call) (s : Store) :
  references_hold s -> references_hold (call c s).
Proof.
  intros H. pose proof H as (HP & HC & HT).
  destruct c as [un em pw kw | i kw | i | ti co au kw | i kw | i | p t
                | co au po pa | i co | i | na kw]; cbn [call].
  - destruct (create_user_after s un em pw kw) as [->|[u [Hk ->]]]; [exact H|].
    unfold references_hold, has_user, has_post, has_tag, has_comment.
    cbn [users posts tags comments post_tags with_users].
    split; [|split].
    + intros p Hp. apply has_key_snoc. now apply HP.
    + intros c Hc. destruct (HC c Hc) as (H1 & H2 & H3).
      split; [now apply has_key_snoc | now split].
    + exact HT.
  - destruct (update_user_after s i kw) as [->|(u & row & _ & _ & _ & Hk & ->)];
      [exact H|].
    unfold references_hold, has_user, has_post, has_tag, has_comment.
    cbn [users posts tags comments post_tags with_users].
    assert (Hkeep : forall j,
               (exists p, In p (posts s) /\ Post.author_id p = j)
               \/ (exists c, In c (comments s) /\ Comment.author_id c = j) ->
               User.id row = User.id u \/ j <> User.id u).
    { intros j Hj. destruct Hk as [Hk|[_ Hk]]; [now left|right].
      unfold Db.user_referenced in Hk. apply orb_false_iff in Hk.
      destruct Hk as [Hk1 Hk2].
      destruct Hj as [[p [Hp <-]]|[c [Hc <-]]].
      - exact (not_referenced Post.author_id _ _ p Hk1 Hp).
      - exact (not_referenced Comment.author_id _ _ c Hk2 Hc). }
    split; [|split].
    + intros p Hp. apply has_key_replace_keep; [|now apply HP].
      apply Hkeep. left. now exists p.
    + intros c Hc. destruct (HC c Hc) as (H1 & H2 & H3).
      split; [|now split].
      apply has_key_replace_keep; [|exact H1].
      apply Hkeep. right. now exists c.
    + exact HT.
  - destruct (proj1 (delete_after s i)) as [->|(us & ps & cs & ->)];
      [exact H | now apply flush_delete_references].
  - destruct (create_post_after s ti co au kw)
      as [->|(p & Ep & Hk & _ & Hau & ->)]; [exact H|].
    unfold references_hold, has_user, has_post, has_tag, has_comment.
    cbn [users posts tags comments post_tags with_posts].
    split; [|split].
    + intros q Hq. apply in_app_or in Hq. destruct Hq as [Hq|[<-|[]]].
      * now apply HP.
      * rewrite Ep. exact Hau.
    + intros c Hc. destruct (HC c Hc) as (H1 & H2 & H3).
      split; [exact H1|]. split; [now apply has_key_snoc | exact H3].
    + intros pt Hpt. destruct (HT pt Hpt) as [H1 H2].
      split; [now apply has_key_snoc | exact H2].
  - destruct (update_post_after s i kw)
      as [->|(p & row & _ & _ & _ & Hk & _ & Hau & ->)]; [exact H|].
    unfold references_hold, has_user, has_post, has_tag, has_comment.
    cbn [users posts tags comments post_tags with_posts].
    assert (Hkeep : forall j,
               (exists c, In c (comments s) /\ Comment.post_id c = j)
               \/ (exists pt, In pt (post_tags s) /\ fst pt = j) ->
               Post.id row = Post.id p \/ j <> Post.id p).
    { intros j Hj. destruct Hk as [Hk|[_ Hk]]; [now left|right].
      unfold Db.post_referenced in Hk. apply orb_false_iff in Hk.
      destruct Hk as [Hk1 Hk2].
      destruct Hj as [[c [Hc <-]]|[pt [Hpt <-]]].
      - exact (not_referenced Comment.post_id _ _ c Hk1 Hc).
      - exact (not_referenced fst _ _ pt Hk2 Hpt). }
    split; [|split].
    + intros q Hq. apply replace_row_In in Hq. destruct Hq as [->|Hq].
      * exact Hau.
      * now apply HP.
    + intros c Hc. destruct (HC c Hc) as (H1 & H2 & H3).
      split; [exact H1|]. split; [|exact H3].
      apply has_key_replace_keep; [|exact H2].
      apply Hkeep. left. now exists c.
    + intros pt Hpt. destruct (HT pt Hpt) as [H1 H2]. split; [|exact H2].
      apply has_key_replace_keep; [|exact H1].
      apply Hkeep. right. now exists pt.
  - destruct (proj1 (proj2 (delete_after s i))) as [->|(us & ps & cs & ->)];
      [exact H | now apply flush_delete_references].
  - destruct (add_tag_to_post_after s p t) as [->|(Hp & Ht & _ & ->)];
      [exact H|].
    unfold references_hold. cbn [users posts tags comments post_tags
                                       with_post_tags].
    split; [exact HP|]. split; [exact HC|].
    intros pt Hpt. apply in_app_or in Hpt. destruct Hpt as [Hpt|[<-|[]]].
    + now apply HT.
    + now split.
  - destruct (create_comment_after s co au po pa)
      as [->|(c & Ec & Hk & Hau & Hpo & Hpa & ->)]; [exact H|].
    unfold references_hold, has_user, has_post, has_tag, has_comment.
    cbn [users posts tags comments post_tags with_comments].
    split; [exact HP|]. split; [|exact HT].
    intros d Hd. apply in_app_or in Hd. destruct Hd as [Hd|[<-|[]]].
    + destruct (HC d Hd) as (H1 & H2 & H3).
      split; [exact H1|]. split; [exact H2|].
      intros j Hj. apply has_key_snoc. now apply H3.
    + rewrite Ec. cbn. split; [exact Hau|]. split; [exact Hpo|].
      intros j Hj. apply has_key_snoc. now apply Hpa.
  - destruct (update_comment_after s i co)
      as [->|(c & row & Hc & _ & Hk & Ha & Hp & Hpar & ->)]; [exact H|].
    rewrite <- Hk.
    unfold references_hold, has_user, has_post, has_tag, has_comment.
    cbn [users posts tags comments post_tags with_comments].
    split; [exact HP|]. split; [|exact HT].
    intros d Hd. apply replace_row_In in Hd.
    assert (Hrow : has_user (Comment.author_id d) s = true
                   /\ has_post (Comment.post_id d) s = true
                   /\ forall j, Comment.parent_id d = Some j ->
                                has_comment j s = true).
    { destruct Hd as [->|Hd]; [|now apply HC].
      rewrite Ha, Hp, Hpar. now apply HC. }
    destruct Hrow as (H1 & H2 & H3).
    split; [exact H1|]. split; [exact H2|].
    intros j Hj. rewrite has_key_replace. now apply H3.
  - destruct (proj2 (proj2 (delete_after s i))) as [->|(us & ps & cs & ->)];
      [exact H | now apply flush_delete_references].
  - destruct (create_tag_after s na kw)
      as [->|(t & _ & Hk & _ & _ & ->)]; [exact H|].
    unfold references_hold, has_user, has_post, has_tag, has_comment.
    cbn [users posts tags comments post_tags with_tags].
    split; [exact HP|]. split; [exact HC|].
    intros pt Hpt. destruct (HT pt Hpt) as [H1 H2].
    split; [exact H1 | now apply has_key_snoc].
Qed.

(** X2.  On an engine that checks foreign keys, as PostgreSQL does and the
    SQLite default of [config.py] does not, the foreign keys stay valid
    whatever helpers are called with whatever values for the columns: after
    any sequence of calls every post has a stored author, every comment a
    stored author, a stored post and a stored or null parent, and every
    [post_tags] row a stored post and a stored tag.  In particular a delete
    leaves no row that points to a row it removed, and no update takes a
    key away that a row points to. *)
Theorem references_stay_valid (cs : list Call) (s : Store) :
  references_hold s -> references_hold (run_calls cs s).
Proof.
  revert s. induction cs as [|c cs IH]; intros s H; simpl.
  - exact H.
  - apply IH. now apply call_references.
Qed.

(** ** Unique columns stay unique *)

Lemma not_taken_row {R} (key : R -> Z) (col : R -> option string) (self : Z)
      (v : string) (rows : list R) (r : R) :
  taken key col self (Some v) rows = false ->
  In r rows -> col r = Some v -> key r = self.
Proof.
  intros Ht Hr Hc. destruct (Z.eq_dec (key r) self) as [E|E]; [exact E|].
  exfalso. apply not_true_iff_false in Ht. apply Ht. apply taken_spec.
  now exists r.
Qed.

Lemma absent_key {R} (key : R -> Z) (rows : list R) (r : R) (i : Z) :
  existsb (fun x => key x =? i) rows = false -> In r rows -> key r <> i.
Proof.
  intros H Hr E. apply not_true_iff_false in H. apply H.
  apply existsb_exists. exists r. split; [exact Hr | now apply Z.eqb_eq].
Qed.

(** A unique column stays unique when a row that passed the check is
    appended. *)
Lemma unique_snoc {R} (key : R -> Z) (col : R -> option string)
      (rows : list R) (r : R) :
  (forall a b v, In a rows -> In b rows ->
                 col a = Some v -> col b = Some v -> key a = key b) ->
  existsb (fun x => key x =? key r) rows = false ->
  taken key col (key r) (col r) rows = false ->
  forall a b v, In a (rows ++ [r]) -> In b (rows ++ [r]) ->
                col a = Some v -> col b = Some v -> key a = key b.
Proof.
  intros Hu Hk Ht a b v Ha Hb Hca Hcb.
  apply in_app_or in Ha. apply in_app_or in Hb.
  destruct Ha as [Ha|[<-|[]]], Hb as [Hb|[<-|[]]].
  - now apply Hu with (v := v).
  - rewrite Hcb in Ht. exfalso.
    apply (absent_key key rows a (key r) Hk Ha).
    now apply (not_taken_row key col (key r) v rows a).
  - rewrite Hca in Ht. exfalso.
    apply (absent_key key rows b (key r) Hk Hb).
    now apply (not_taken_row key col (key r) v rows b).
  - reflexivity.
Qed.

(** ... and when a row that passed the check replaces the rows with its
    key. *)
Lemma unique_replace {R} (key : R -> Z) (col : R -> option string)
      (rows : list R) (old : Z) (row : R) :
  (forall a b v, In a rows -> In b rows ->
                 col a = Some v -> col b = Some v -> key a = key b) ->
  taken key col old (col row) rows = false ->
  forall a b v, In a (Db.replace_row key old row rows) ->
                In b (Db.replace_row key old row rows) ->
                col a = Some v -> col b = Some v -> key a = key b.
Proof.
  intros Hu Ht a b v Ha Hb Hca Hcb.
  apply replace_row_In_other in Ha. apply replace_row_In_other in Hb.
  destruct Ha as [[-> _]|[Ha Hna]], Hb as [[-> _]|[Hb Hnb]].
  - reflexivity.
  - rewrite Hca in Ht. exfalso. apply Hnb.
    now apply (not_taken_row key col old v rows b).
  - rewrite Hcb in Ht. exfalso. apply Hna.
    now apply (not_taken_row key col old v rows a).
  - now apply Hu with (v := v).
Qed.

Lemma call_uniques (c : Call) (s : Store) :
  uniques_hold s -> uniques_hold (call c s).
Proof.
  intros H. pose proof H as (HS & HN & HT).
  assert (Hdel : forall us ps cs,
             uniques_hold (snd (Db.flush_delete us ps cs s))).
  { intros us ps cs. unfold uniques_hold, Db.flush_delete, Db.delete_cascade.
    cbn [snd posts tags]. split; [|now split].
    intros p q v Hp Hq. apply delete_rows_In in Hp, Hq.
    apply HS; tauto. }
  destruct c as [un em pw kw | i kw | i | ti co au kw | i kw | i | p t
                | co au po pa | i co | i | na kw]; cbn [call].
  - destruct (create_user_after s un em pw kw) as [->|[u [Hk ->]]]; exact H.
  - destruct (update_user_after s i kw) as [->|(u & row & _ & _ & _ & _ & ->)];
      exact H.
  - destruct (proj1 (delete_after s i)) as [->|(us & ps & cs & ->)];
      [exact H | apply Hdel].
  - destruct (create_post_after s ti co au kw)
      as [->|(p & _ & Hk & Hs & _ & ->)]; [exact H|].
    unfold uniques_hold. cbn [posts tags with_posts].
    split; [|now split]. now apply unique_snoc.
  - destruct (update_post_after s i kw)
      as [->|(p & row & _ & _ & _ & _ & Hs & _ & ->)]; [exact H|].
    unfold uniques_hold. cbn [posts tags with_posts].
    split; [|now split]. now apply unique_replace.
  - destruct (proj1 (proj2 (delete_after s i))) as [->|(us & ps & cs & ->)];
      [exact H | apply Hdel].
  - destruct (add_tag_to_post_after s p t) as [->|(_ & _ & _ & ->)]; exact H.
  - destruct (create_comment_after s co au po pa)
      as [->|(c & _ & _ & _ & _ & _ & ->)]; exact H.
  - destruct (update_comment_after s i co)
      as [->|(c & row & _ & _ & _ & _ & _ & _ & ->)]; exact H.
  - destruct (proj2 (proj2 (delete_after s i))) as [->|(us & ps & cs & ->)];
      [exact H | apply Hdel].
  - destruct (create_tag_after s na kw)
      as [->|(t & Et & Hk & Hn & Hs & ->)]; [exact H|].
    unfold uniques_hold. cbn [posts tags with_tags].
    split; [exact HS|]. split.
    + intros a b Ha Hb E.
      apply (unique_snoc Tag.id (fun t => Some (Tag.name t)) (tags s) t)
        with (v := Tag.name a); auto.
      * intros x y v Hx Hy [= Ex] [= Ey]. apply HN; auto. congruence.
      * replace (Some (Tag.name t)) with (Some na); [exact Hn|].
        now rewrite Et.
      * now rewrite E.
    + now apply unique_snoc.
Qed.

(** X3.  Whatever helpers are called, the unique columns declared in
    [models/post.py] stay unique: after any sequence of calls, stored posts
    with the same slug have the same key, and so have stored tags with the
    same name or the same slug.  Posts and tags without a slug are not
    concerned. *)
Theorem uniques_stay_valid (cs : list Call) (s : Store) :
  uniques_hold s -> uniques_hold (run_calls cs s).
Proof.
  revert s. induction cs as [|c cs IH]; intros s H; simpl.
  - exact H.
  - apply IH. now apply call_uniques.
Qed.

Lemma blog_keys_unique : keys_unique Sample.blog.
Proof.
  unfold keys_unique. simpl. repeat split; repeat constructor; simpl;
    intuition discriminate.
Qed.

Lemma blog_references_hold : references_hold Sample.blog.
Proof.
  unfold references_hold. split; [|split].
  - intros p [<-|[]]. reflexivity.
  - intros c [<-|[<-|[]]];
      (split; [reflexivity | split; [reflexivity|]]);
      intros i; simpl; intros Hi;
      [discriminate | injection Hi as <-; reflexivity].
  - intros pt [<-|[]]. split; reflexivity.
Qed.

Lemma blog_uniques_hold : uniques_hold Sample.blog.
Proof.
  unfold uniques_hold. simpl. repeat split; intros;
    repeat match goal with
           | H : _ \/ _ |- _ => destruct H
           | H : False |- _ => destruct H
           | H : _ = _ |- _ => subst
           end; reflexivity.
Qed.

Lemma keys_stay_unique_witness :
  keys_unique Sample.blog /\ keys_unique (run_calls sample_calls Sample.blog).
Proof.
  split; [exact blog_keys_unique|].
  apply (keys_stay_unique sample_calls Sample.blog). exact blog_keys_unique.
Defined.

Lemma references_stay_valid_witness :
  references_hold Sample.blog
  /\ references_hold (run_calls sample_calls Sample.blog).
Proof.
  split; [exact blog_references_hold|].
  apply (references_stay_valid sample_calls Sample.blog).
  exact blog_references_hold.
Defined.

Lemma uniques_stay_valid_witness :
  uniques_hold Sample.blog
  /\ uniques_hold (run_calls sample_calls Sample.blog).
Proof.
  split; [exact blog_uniques_hold|].
  apply (uniques_stay_valid sample_calls Sample.blog).
  exact blog_uniques_hold.
Defined.

(** ** Pagination *)

Lemma offset_limit_length {R} (skip limit : nat) (rows : list R) :
  List.length (offset_limit skip limit rows)
  = Nat.min limit (List.length rows - skip).
Proof.
  unfold offset_limit. now rewrite length_firstn, length_skipn.
Qed.

Lemma firstn_plus {R} (n k : nat) (l : list R) :
  firstn (n + k) l = firstn n l ++ firstn k (skipn n l).
Proof.
  revert l. induction n as [|n IH]; intros l; simpl.
  - reflexivity.
  - destruct l as [|a l]; simpl.
    + now destruct k.
    + now rewrite IH.
Qed.

Lemma offset_limit_pages {R} (skip limit k : nat) (rows : list R) :
  offset_limit skip (limit + k) rows
  = offset_limit skip limit rows ++ offset_limit (skip + limit) k rows.
Proof.
  unfold offset_limit. rewrite firstn_plus, skipn_skipn.
  now rewrite (Nat.add_comm limit skip).
Qed.

Lemma offset_limit_In {R} (skip limit : nat) (rows : list R) (r : R) :
  In r (offset_limit skip limit rows) -> In r rows.
Proof.
  unfold offset_limit. intros H.
  rewrite <- (firstn_skipn skip rows). apply in_or_app. right.
  rewrite <- (firstn_skipn limit (skipn skip rows)). apply in_or_app.
  now left.
Qed.

Lemma offset_limit_all {R} (limit : nat) (rows : list R) :
  (List.length rows <= limit)%nat -> offset_limit 0 limit rows = rows.
Proof.
  intros H. unfold offset_limit. cbn [skipn]. now apply firstn_all2.
Qed.

Lemma paginate_page {R} (skip limit : Z) (rows : list R) :
  0 <= skip -> 0 <= limit ->
  exists page,
    paginate skip limit rows = Ok page
    /\ Z.of_nat (List.length page)
       = Z.min limit (Z.max 0 (Z.of_nat (List.length rows) - skip))
    /\ (forall r, In r page -> In r rows)
    /\ (skip = 0 -> Z.of_nat (List.length rows) <= limit ->
        forall r, In r rows -> In r page).
Proof.
  intros Hs Hl. unfold paginate.
  replace (skip <? 0) with false by (symmetry; apply Z.ltb_ge; lia).
  replace (limit <? 0) with false by (symmetry; apply Z.ltb_ge; lia).
  eexists. split; [reflexivity|]. split; [|split].
  - rewrite offset_limit_length. lia.
  - intros r. apply offset_limit_In.
  - intros -> Hn r Hr. cbn [Z.to_nat]. rewrite offset_limit_all; [exact Hr|].
    lia.
Qed.

(** X4.  For a [skip] and a [limit] that are not negative, [get_users] and
    [get_posts] return and do not write; the page has
    [min(limit, max(0, total - skip))] rows, all of them stored rows; and a
    page from the start whose limit is at least the size of the table holds
    every stored row. *)
Theorem pagination (s : Store) (skip limit : Z) :
  0 <= skip ->
  0 <= limit ->
  (exists page,
      UserCRUD.get_users skip limit s = (Ok page, s)
      /\ Z.of_nat (List.length page)
         = Z.min limit (Z.max 0 (Z.of_nat (List.length (users s)) - skip))
      /\ (forall u, In u page -> In u (users s))
      /\ (skip = 0 -> Z.of_nat (List.length (users s)) <= limit ->
          forall u, In u (users s) -> In u page))
  /\ (exists page,
         PostCRUD.get_posts skip limit s = (Ok page, s)
         /\ Z.of_nat (List.length page)
            = Z.min limit (Z.max 0 (Z.of_nat (List.length (posts s)) - skip))
         /\ (forall p, In p page -> In p (posts s))
         /\ (skip = 0 -> Z.of_nat (List.length (posts s)) <= limit ->
             forall p, In p (posts s) -> In p page)).
Proof.
  intros Hs Hl. split.
  - destruct (paginate_page skip limit (users s) Hs Hl)
      as (page & E & H1 & H2 & H3).
    exists page. unfold UserCRUD.get_users, bind, query. rewrite E.
    repeat split; assumption.
  - destruct (paginate_page skip limit (posts s) Hs Hl)
      as (page & E & H1 & H2 & H3).
    exists page. unfold PostCRUD.get_posts, bind, query. rewrite E.
    repeat split; assumption.
Qed.

Lemma pagination_witness :
  0 <= 0
  /\ 0 <= 100
  /\ exists page,
      UserCRUD.get_users 0 100 Sample.blog = (Ok page, Sample.blog)
      /\ Z.of_nat (List.length page) = 1
      /\ In Sample.john page.
Proof.
  assert (H0 : 0 <= 0) by lia.
  assert (H100 : 0 <= 100) by lia.
  split; [exact H0|]. split; [exact H100|].
  destruct (proj1 (pagination Sample.blog 0 100 H0 H100))
    as (page & E & Hn & _ & Hall).
  exists page. split; [exact E|]. split; [exact Hn|].
  apply (Hall eq_refl); [cbn; lia|]. left. reflexivity.
Defined.

(** ** What a creation leaves alone *)

Lemma first_filter_snoc {R} (f : R -> bool) (rows : list R) (x r : R) :
  first (filter f rows) = Some r ->
  first (filter f (rows ++ [x])) = Some r.
Proof.
  intros H. rewrite filter_app. destruct (filter f rows); [discriminate|].
  exact H.
Qed.

Lemma create_outcome (s : Store) :
  (forall username email password kw r s',
      UserCRUD.create_user username email password kw s = (r, s') ->
      match r with
      | Ok u => s' = with_users (users s ++ [u])
                                (pk_seq (User.kw_id kw) (users_id_seq s)) s
      | Raise _ => s' = s
      end)
  /\ (forall title content author_id kw r s',
         PostCRUD.create_post title content author_id kw s = (r, s') ->
         match r with
         | Ok p => s' = with_posts (posts s ++ [p])
                                   (pk_seq (Post.kw_id kw) (posts_id_seq s)) s
         | Raise _ => s' = s
         end)
  /\ (forall name kw r s',
         TagCRUD.create_tag name kw s = (r, s') ->
         match r with
         | Ok t => s' = with_tags (tags s ++ [t])
                                  (pk_seq (Tag.kw_id kw) (tags_id_seq s)) s
         | Raise _ => s' = s
         end)
  /\ (forall content author_id post_id parent_id r s',
         CommentCRUD.create_comment content author_id post_id parent_id s
         = (r, s') ->
         match r with
         | Ok c => s' = with_comments (comments s ++ [c])
                                      (comments_id_seq s + 1) s
         | Raise _ => s' = s
         end).
Proof.
  repeat apply conj.
  - intros username email password kw r s'.
    unfold UserCRUD.create_user, Db.add_user.
    repeat match goal with
           | |- context [if ?b then _ else _] => destruct b
           end; intros [= <- <-]; reflexivity.
  - intros title content author_id kw r s'.
    unfold PostCRUD.create_post, Db.add_post.
    repeat match goal with
           | |- context [if ?b then _ else _] => destruct b
           end; intros [= <- <-]; reflexivity.
  - intros name kw r s'.
    unfold TagCRUD.create_tag, Db.add_tag.
    repeat match goal with
           | |- context [if ?b then _ else _] => destruct b
           end; intros [= <- <-]; reflexivity.
  - intros content author_id post_id parent_id r s'.
    unfold CommentCRUD.create_comment, Db.add_comment.
    repeat match goal with
           | |- context [if ?b then _ else _] => destruct b
           end; intros [= <- <-]; reflexivity.
Qed.

Lemma In_snoc {R} (l : list R) (a x : R) :
  In x (l ++ [a]) <-> In x l \/ x = a.
Proof.
  rewrite in_app_iff. cbn. intuition congruence.
Qed.

(** X5.  A creation whose keyword arguments name columns is all or nothing
    and touches one table.  When [create_user], [create_post], [create_tag]
    or [create_comment] raises, the five tables hold the rows they held
    before.  When it returns, its table holds the old rows and the new one,
    the other tables are as before, and every key that fetched a row before
    fetches the same row.  A keyword argument that names a relationship
    ([tags=], [comments=]) writes other tables and is not covered. *)
Theorem create_is_atomic (s s' : Store) :
  (forall username email password kw r,
      UserCRUD.create_user username email password kw s = (r, s') ->
      match r with
      | Raise _ => same_rows s s'
      | Ok u =>
          (forall x, In x (users s') <-> In x (users s) \/ x = u)
          /\ posts s' = posts s /\ tags s' = tags s
          /\ comments s' = comments s /\ post_tags s' = post_tags s
          /\ forall i old, UserCRUD.get_user i s = (Ok (Some old), s) ->
                           UserCRUD.get_user i s' = (Ok (Some old), s')
      end)
  /\ (forall title content author_id kw r,
         PostCRUD.create_post title content author_id kw s = (r, s') ->
         match r with
         | Raise _ => same_rows s s'
         | Ok p =>
             (forall x, In x (posts s') <-> In x (posts s) \/ x = p)
             /\ users s' = users s /\ tags s' = tags s
             /\ comments s' = comments s /\ post_tags s' = post_tags s
             /\ forall i old, PostCRUD.get_post i s = (Ok (Some old), s) ->
                              PostCRUD.get_post i s' = (Ok (Some old), s')
         end)
  /\ (forall name kw r,
         TagCRUD.create_tag name kw s = (r, s') ->
         match r with
         | Raise _ => same_rows s s'
         | Ok t =>
             (forall x, In x (tags s') <-> In x (tags s) \/ x = t)
             /\ users s' = users s /\ posts s' = posts s
             /\ comments s' = comments s /\ post_tags s' = post_tags s
             /\ forall i old, TagCRUD.get_tag i s = (Ok (Some old), s) ->
                              TagCRUD.get_tag i s' = (Ok (Some old), s')
         end)
  /\ (forall content author_id post_id parent_id r,
         CommentCRUD.create_comment content author_id post_id parent_id s
         = (r, s') ->
         match r with
         | Raise _ => same_rows s s'
         | Ok c =>
             (forall x, In x (comments s') <-> In x (comments s) \/ x = c)
             /\ users s' = users s /\ posts s' = posts s
             /\ tags s' = tags s /\ post_tags s' = post_tags s
             /\ forall i old,
                 CommentCRUD.get_comment i s = (Ok (Some old), s) ->
                 CommentCRUD.get_comment i s' = (Ok (Some old), s')
         end).
Proof.
  destruct (create_outcome s) as (HU & HP & HT & HC).
  repeat apply conj.
  - intros username email password kw r H.
    specialize (HU _ _ _ _ _ _ H). destruct r as [u|e];
      [|rewrite HU; repeat split].
    subst s'. cbn. split; [intros x; apply In_snoc|]. repeat split.
    intros i old Hg. unfold UserCRUD.get_user, bind, query, ret in *.
    simpl in *. injection Hg as Hg. now rewrite (first_filter_snoc _ _ u old).
  - intros title content author_id kw r H.
    specialize (HP _ _ _ _ _ _ H). destruct r as [p|e];
      [|rewrite HP; repeat split].
    subst s'. cbn. split; [intros x; apply In_snoc|]. repeat split.
    intros i old Hg. unfold PostCRUD.get_post, bind, query, ret in *.
    simpl in *. injection Hg as Hg. now rewrite (first_filter_snoc _ _ p old).
  - intros name kw r H.
    specialize (HT _ _ _ _ H). destruct r as [t|e];
      [|rewrite HT; repeat split].
    subst s'. cbn. split; [intros x; apply In_snoc|]. repeat split.
    intros i old Hg. unfold TagCRUD.get_tag, bind, query, ret in *.
    simpl in *. injection Hg as Hg. now rewrite (first_filter_snoc _ _ t old).
  - intros content author_id post_id parent_id r H.
    specialize (HC _ _ _ _ _ _ H). destruct r as [c|e];
      [|rewrite HC; repeat split].
    subst s'. cbn. split; [intros x; apply In_snoc|]. repeat split.
    intros i old Hg. unfold CommentCRUD.get_comment, bind, query, ret in *.
    simpl in *. injection Hg as Hg. now rewrite (first_filter_snoc _ _ c old).
Qed.

Lemma create_is_atomic_witness :
  (exists s',
      UserCRUD.create_user "jane" "jane@example.com" "hashed"
                           Sample.jane_kwargs Sample.blog
      = (Ok Sample.jane, s')
      /\ (forall x, In x (users s') <-> In x (users Sample.blog) \/ x = Sample.jane)
      /\ UserCRUD.get_user 1 s' = (Ok (Some Sample.john), s'))
  /\ (exists e s',
         PostCRUD.create_post "Orphan" "No author" 99 Post.no_kwargs Sample.blog
         = (Raise e, s')
         /\ same_rows Sample.blog s')
  /\ (exists e s',
         TagCRUD.create_tag "Technology" Tag.no_kwargs Sample.blog
         = (Raise e, s')
         /\ same_rows Sample.blog s')
  /\ (exists s',
         CommentCRUD.create_comment "agreed" 1 1 (Some 2) Sample.blog
         = (Ok Sample.agreed, s')
         /\ (forall x, In x (comments s')
                       <-> In x (comments Sample.blog) \/ x = Sample.agreed)
         /\ CommentCRUD.get_comment 2 s' = (Ok (Some Sample.thanks), s')).
Proof.
  repeat apply conj.
  - eexists. split; [reflexivity|].
    match goal with
    | |- (forall x, In x (users ?s') <-> _) /\ _ =>
        pose proof (proj1 (create_is_atomic Sample.blog s')
                          "jane"%string "jane@example.com"%string
                          "hashed"%string Sample.jane_kwargs (Ok Sample.jane)
                          eq_refl) as H
    end.
    cbv beta iota in H. destruct H as (H1 & _ & _ & _ & _ & H6).
    split; [exact H1 | apply H6; reflexivity].
  - eexists _, _. split; [reflexivity|].
    exact (proj1 (proj2 (create_is_atomic Sample.blog Sample.blog))
                 "Orphan"%string "No author"%string 99 Post.no_kwargs
                 (Raise (IntegrityError "posts_author_id_fkey")) eq_refl).
  - eexists _, _. split; [reflexivity|].
    exact (proj1 (proj2 (proj2 (create_is_atomic Sample.blog Sample.blog)))
                 "Technology"%string Tag.no_kwargs
                 (Raise (IntegrityError "ix_tags_name")) eq_refl).
  - eexists. split; [reflexivity|].
    match goal with
    | |- (forall x, In x (comments ?s') <-> _) /\ _ =>
        pose proof (proj2 (proj2 (proj2 (create_is_atomic Sample.blog s')))
                          "agreed"%string 1 1 (Some 2) (Ok Sample.agreed)
                          eq_refl) as H
    end.
    cbv beta iota in H. destruct H as (H1 & _ & _ & _ & _ & H6).
    split; [exact H1 | apply H6; reflexivity].
Defined.

(** ** Rows that point nowhere are refused *)

(** X6.  On an engine that checks foreign keys, as PostgreSQL does and the
    SQLite default of [config.py] does not, [create_post] for an author that
    is not stored, and [create_comment] for an author, a post or a parent
    comment that is not stored, raise [IntegrityError] and leave the rows of
    the five tables as they were, whatever values the other columns are
    given. *)
Theorem missing_reference_rejected (s : Store) :
  (forall title content author_id kw,
      has_user author_id s = false ->
      exists c s',
        PostCRUD.create_post title content author_id kw s
        = (Raise (IntegrityError c), s')
        /\ same_rows s s')
  /\ (forall content author_id post_id parent_id,
         has_user author_id s = false
         \/ has_post post_id s = false
         \/ (exists i, parent_id = Some i /\ has_comment i s = false) ->
         exists c s',
           CommentCRUD.create_comment content author_id post_id parent_id s
           = (Raise (IntegrityError c), s')
           /\ same_rows s s').
Proof.
  assert (Hsame : same_rows s s) by (repeat split).
  split.
  - intros title content author_id kw H.
    unfold PostCRUD.create_post, Db.add_post. rewrite H. simpl.
    destruct (has_post _ s); [eexists _, _; split; [reflexivity|exact Hsame]|].
    destruct (taken _ _ _ _ _);
      eexists _, _; (split; [reflexivity|exact Hsame]).
  - intros content author_id post_id parent_id H.
    unfold CommentCRUD.create_comment, Db.add_comment.
    destruct (has_comment _ s);
      [eexists _, _; split; [reflexivity|exact Hsame]|].
    destruct (has_user author_id s) eqn:Ha;
      [|eexists _, _; split; [reflexivity|exact Hsame]].
    destruct (has_post post_id s) eqn:Hp;
      [|eexists _, _; split; [reflexivity|exact Hsame]].
    destruct H as [H|[H|[i [-> H]]]]; try discriminate.
    simpl. rewrite H. eexists _, _. split; [reflexivity|exact Hsame].
Qed.

Lemma missing_reference_rejected_witness :
  has_user 99 Sample.blog = false
  /\ (exists c s',
         PostCRUD.create_post "Orphan" "No author" 99 Post.no_kwargs Sample.blog
         = (Raise (IntegrityError c), s')
         /\ same_rows Sample.blog s')
  /\ (exists i, Some 7 = Some i /\ has_comment i Sample.blog = false)
  /\ (exists c s',
         CommentCRUD.create_comment "lost" 1 1 (Some 7) Sample.blog
         = (Raise (IntegrityError c), s')
         /\ same_rows Sample.blog s').
Proof.
  pose proof (missing_reference_rejected Sample.blog) as [HP HC].
  assert (H7 : exists i, Some 7 = Some i /\ has_comment i Sample.blog = false)
    by (exists 7; split; reflexivity).
  split; [reflexivity|]. split; [apply HP; reflexivity|].
  split; [exact H7|]. apply HC. right. right. exact H7.
Defined.

(** ** Unique columns refuse duplicates *)

Lemma taken_by {R} (key : R -> Z) (col : R -> option string) (self : Z)
      (v : string) (rows : list R) (r : R) :
  In r rows -> col r = Some v -> key r <> self ->
  taken key col self (Some v) rows = true.
Proof.
  intros Hr Hc Hk. apply taken_spec. now exists r.
Qed.

(** X7.  A slug or a tag name that a stored row already has is refused:
    [create_post] with the slug of a stored post, and [create_tag] with the
    name or the slug of a stored tag, raise [IntegrityError] and leave the
    rows of the five tables as they were. *)
Theorem duplicate_refused (s : Store) :
  (forall q v title content author_id kw,
      In q (posts s) -> Post.slug q = Some v -> Post.kw_slug kw = Some v ->
      exists c s',
        PostCRUD.create_post title content author_id kw s
        = (Raise (IntegrityError c), s')
        /\ same_rows s s')
  /\ (forall u kw,
         In u (tags s) ->
         exists c s',
           TagCRUD.create_tag (Tag.name u) kw s
           = (Raise (IntegrityError c), s')
           /\ same_rows s s')
  /\ (forall u v name kw,
         In u (tags s) -> Tag.slug u = Some v -> Tag.kw_slug kw = Some v ->
         exists c s',
           TagCRUD.create_tag name kw s = (Raise (IntegrityError c), s')
           /\ same_rows s s').
Proof.
  assert (Hsame : same_rows s s) by (repeat split).
  split; [|split].
  - intros q v title content author_id kw Hq Hs Hk.
    unfold PostCRUD.create_post, Db.add_post.
    destruct (has_post _ s) eqn:Hpk;
      [eexists _, _; split; [reflexivity|exact Hsame]|].
    cbn [Post.slug Db.new_post]. rewrite Hk.
    rewrite (taken_by Post.id Post.slug _ v (posts s) q Hq Hs);
      [eexists _, _; split; [reflexivity|exact Hsame]|].
    now apply (absent_key Post.id (posts s)).
  - intros u kw Hu.
    unfold TagCRUD.create_tag, Db.add_tag.
    destruct (has_tag _ s) eqn:Hpk;
      [eexists _, _; split; [reflexivity|exact Hsame]|].
    rewrite (taken_by Tag.id (fun t => Some (Tag.name t)) _ (Tag.name u)
                      (tags s) u Hu eq_refl);
      [eexists _, _; split; [reflexivity|exact Hsame]|].
    now apply (absent_key Tag.id (tags s)).
  - intros u v name kw Hu Hs Hk.
    unfold TagCRUD.create_tag, Db.add_tag.
    destruct (has_tag _ s) eqn:Hpk;
      [eexists _, _; split; [reflexivity|exact Hsame]|].
    destruct (taken Tag.id (fun t => Some (Tag.name t)) _ _ _);
      [eexists _, _; split; [reflexivity|exact Hsame]|].
    cbn [Tag.slug Db.new_tag]. rewrite Hk.
    rewrite (taken_by Tag.id Tag.slug _ v (tags s) u Hu Hs);
      [eexists _, _; split; [reflexivity|exact Hsame]|].
    now apply (absent_key Tag.id (tags s)).
Qed.

Lemma duplicate_refused_witness :
  (In Sample.patterns (posts Sample.with_patterns)
   /\ Post.slug Sample.patterns = Some "patterns"%string
   /\ Post.kw_slug Sample.patterns_kwargs = Some "patterns"%string
   /\ exists c s',
       PostCRUD.create_post "Again" "Same slug" 1 Sample.patterns_kwargs
                            Sample.with_patterns
       = (Raise (IntegrityError c), s')
       /\ same_rows Sample.with_patterns s')
  /\ (In databases (tags with_databases)
      /\ exists c s',
          TagCRUD.create_tag (Tag.name databases) Tag.no_kwargs with_databases
          = (Raise (IntegrityError c), s')
          /\ same_rows with_databases s')
  /\ (In databases (tags with_databases)
      /\ Tag.slug databases = Some "databases"%string
      /\ Tag.kw_slug databases_kwargs = Some "databases"%string
      /\ exists c s',
          TagCRUD.create_tag "Storage" databases_kwargs with_databases
          = (Raise (IntegrityError c), s')
          /\ same_rows with_databases s').
Proof.
  assert (HP : In Sample.patterns (posts Sample.with_patterns))
    by (right; left; reflexivity).
  assert (HT : In databases (tags with_databases))
    by (right; left; reflexivity).
  split; [|split].
  - split; [exact HP|]. split; [reflexivity|]. split; [reflexivity|].
    exact (proj1 (duplicate_refused Sample.with_patterns)
                 Sample.patterns "patterns"%string "Again"%string
                 "Same slug"%string 1 Sample.patterns_kwargs
                 HP eq_refl eq_refl).
  - split; [exact HT|].
    exact (proj1 (proj2 (duplicate_refused with_databases))
                 databases Tag.no_kwargs HT).
  - split; [exact HT|]. split; [reflexivity|]. split; [reflexivity|].
    exact (proj2 (proj2 (duplicate_refused with_databases))
                 databases "databases"%string "Storage"%string
                 databases_kwargs HT eq_refl eq_refl).
Defined.

(** ** Listings after a creation *)

(** The listings of the store after a creation, from those before. *)
Lemma listings_grow (s s' : Store) :
  (forall title content author_id kw p,
      PostCRUD.create_post title content author_id kw s = (Ok p, s') ->
      forall a l,
        PostCRUD.get_posts_by_author a s = (Ok l, s) ->
        PostCRUD.get_posts_by_author a s'
        = (Ok (if author_id =? a then l ++ [p] else l), s'))
  /\ (forall content author_id post_id parent_id c,
         CommentCRUD.create_comment content author_id post_id parent_id s
         = (Ok c, s') ->
         (forall q l,
             CommentCRUD.get_post_comments q s = (Ok l, s) ->
             CommentCRUD.get_post_comments q s'
             = (Ok (if (post_id =? q) && is_none parent_id
                    then l ++ [c] else l), s'))
         /\ (forall i l,
                CommentCRUD.get_comment_replies i s = (Ok l, s) ->
                CommentCRUD.get_comment_replies i s'
                = (Ok (if opt_eqb parent_id i then l ++ [c] else l), s')))
  /\ (forall name kw t,
         TagCRUD.create_tag name kw s = (Ok t, s') ->
         forall l,
           TagCRUD.get_tags s = (Ok l, s) ->
           TagCRUD.get_tags s' = (Ok (l ++ [t]), s')).
Proof.
  destruct (create_outcome s) as (_ & HP & HT & HC).
  split; [|split].
  - intros title content author_id kw p H a l.
    pose proof (HP _ _ _ _ _ _ H) as E. cbn in E.
    apply create_post_get in H as [_ Hp].
    unfold PostCRUD.get_posts_by_author, bind, query, ret.
    intros [= <-]. rewrite E at 1. cbn [posts with_posts].
    rewrite filter_app. cbn [filter].
    replace (Post.author_id p) with author_id by (now subst p).
    destruct (author_id =? a); [reflexivity|]. now rewrite app_nil_r.
  - intros content author_id post_id parent_id c H. split.
    + intros q l. pose proof (HC _ _ _ _ _ _ H) as E. cbn in E.
      apply create_comment_get in H as [_ Hc].
      unfold CommentCRUD.get_post_comments, bind, query, ret.
      intros [= <-]. rewrite E at 1. cbn [comments with_comments].
      rewrite filter_app. cbn [filter].
      replace (Comment.post_id c) with post_id by (now subst c).
      replace (Comment.parent_id c) with parent_id by (now subst c).
      destruct ((post_id =? q) && is_none parent_id); [reflexivity|].
      now rewrite app_nil_r.
    + intros i l. pose proof (HC _ _ _ _ _ _ H) as E. cbn in E.
      apply create_comment_get in H as [_ Hc].
      unfold CommentCRUD.get_comment_replies, bind, query, ret.
      intros [= <-]. rewrite E at 1. cbn [comments with_comments].
      rewrite filter_app. cbn [filter].
      replace (Comment.parent_id c) with parent_id by (now subst c).
      destruct (opt_eqb parent_id i); [reflexivity|]. now rewrite app_nil_r.
  - intros name kw t H l. pose proof (HT _ _ _ _ H) as E. cbn in E.
    unfold TagCRUD.get_tags, query. intros [= <-]. now rewrite E at 1.
Qed.

(** X8.  A created row joins the listings it belongs to and no other: a
    post the listing of its author; a comment without parent the top-level
    listing of its post; a reply the replies of its parent and no top-level
    listing; a tag the listing of all tags.  Every listing holds the rows it
    held before. *)
Theorem listings_after_create (s s' : Store) :
  (forall title content author_id kw p,
      PostCRUD.create_post title content author_id kw s = (Ok p, s') ->
      forall a, exists l l',
        PostCRUD.get_posts_by_author a s = (Ok l, s)
        /\ PostCRUD.get_posts_by_author a s' = (Ok l', s')
        /\ forall x, In x l' <-> In x l \/ (x = p /\ author_id = a))
  /\ (forall content author_id post_id parent_id c,
         CommentCRUD.create_comment content author_id post_id parent_id s
         = (Ok c, s') ->
         (forall q, exists l l',
             CommentCRUD.get_post_comments q s = (Ok l, s)
             /\ CommentCRUD.get_post_comments q s' = (Ok l', s')
             /\ forall x, In x l' <->
                          In x l
                          \/ (x = c /\ post_id = q /\ parent_id = None))
         /\ (forall i, exists l l',
                CommentCRUD.get_comment_replies i s = (Ok l, s)
                /\ CommentCRUD.get_comment_replies i s' = (Ok l', s')
                /\ forall x, In x l' <->
                             In x l \/ (x = c /\ parent_id = Some i)))
  /\ (forall name kw t,
         TagCRUD.create_tag name kw s = (Ok t, s') ->
         exists l l',
           TagCRUD.get_tags s = (Ok l, s)
           /\ TagCRUD.get_tags s' = (Ok l', s')
           /\ forall x, In x l' <-> In x l \/ x = t).
Proof.
  destruct (listings_grow s s') as (HP & HC & HT).
  split; [|split].
  - intros title content author_id kw p H a.
    eexists _, _. split; [reflexivity|].
    split; [exact (HP _ _ _ _ _ H a _ eq_refl)|].
    intros x. destruct (author_id =? a) eqn:E.
    + apply Z.eqb_eq in E. rewrite In_snoc. intuition.
    + apply Z.eqb_neq in E. intuition.
  - intros content author_id post_id parent_id c H.
    destruct (HC _ _ _ _ _ H) as [H1 H2]. split.
    + intros q. eexists _, _. split; [reflexivity|].
      split; [exact (H1 q _ eq_refl)|].
      intros x.
      destruct ((post_id =? q) && is_none parent_id) eqn:E.
      * apply andb_true_iff in E as [E1 E2]. apply Z.eqb_eq in E1.
        destruct parent_id; [discriminate|]. rewrite In_snoc. intuition.
      * split; [now left|]. intros [Hx|(_ & Eq & Ep)]; [exact Hx|].
        subst. rewrite Z.eqb_refl in E. discriminate.
    + intros i. eexists _, _. split; [reflexivity|].
      split; [exact (H2 i _ eq_refl)|].
      intros x. destruct (opt_eqb parent_id i) eqn:E.
      * destruct parent_id as [j|]; [|discriminate]. apply Z.eqb_eq in E.
        subst j. rewrite In_snoc. intuition.
      * split; [now left|]. intros [Hx|(_ & Ep)]; [exact Hx|].
        subst. cbn in E. rewrite Z.eqb_refl in E. discriminate.
  - intros name kw t H. eexists _, _. split; [reflexivity|].
    split; [exact (HT _ _ _ H _ eq_refl)|].
    intros x. apply In_snoc.
Qed.

Lemma listings_after_create_witness :
  (exists l',
      PostCRUD.get_posts_by_author 1 Sample.with_patterns
      = (Ok l', Sample.with_patterns)
      /\ In Sample.patterns l')
  /\ (exists l',
         CommentCRUD.get_comment_replies 2 Sample.with_agreed
         = (Ok l', Sample.with_agreed)
         /\ In Sample.agreed l')
  /\ (exists l',
         TagCRUD.get_tags with_databases = (Ok l', with_databases)
         /\ In databases l').
Proof.
  split; [|split].
  - destruct (proj1 (listings_after_create Sample.blog Sample.with_patterns)
                    "Patterns"%string "Design patterns"%string 1
                    Sample.patterns_kwargs Sample.patterns eq_refl 1)
      as (l & l' & _ & E & H).
    exists l'. split; [exact E|]. apply H. right. split; reflexivity.
  - destruct (proj2 (proj1 (proj2 (listings_after_create
                                     Sample.blog Sample.with_agreed))
                           "agreed"%string 1 1 (Some 2) Sample.agreed eq_refl)
                    2)
      as (l & l' & _ & E & H).
    exists l'. split; [exact E|]. apply H. right. split; reflexivity.
  - destruct (proj2 (proj2 (listings_after_create Sample.blog with_databases))
                    "Databases"%string databases_kwargs databases eq_refl)
      as (l & l' & _ & E & H).
    exists l'. split; [exact E|]. apply H. now right.
Defined.

(** ** Tagging *)

Lemma tag_posts_snoc (s : Store) (t : Tag.t) (row : Z * Z) :
  snd row <> Tag.id t ->
  Db.tag_posts t (with_post_tags (post_tags s ++ [row]) s) = Db.tag_posts t s.
Proof.
  intros Hne. unfold Db.tag_posts. cbn [posts post_tags with_post_tags].
  apply filter_ext. intros p. rewrite existsb_app. cbn [existsb].
  unfold Db.pair_eqb at 2. cbn [fst snd].
  replace (Tag.id t =? snd row) with false
    by (symmetry; apply Z.eqb_neq; congruence).
  now rewrite andb_false_r, !orb_false_r.
Qed.

(** X9.  Tagging a stored post with a stored tag returns the post, the post
    is then among the posts of that tag, and every other tag has the posts it
    had before. *)
Theorem tagging_round_trip (s : Store) (post_id tag_id : Z) :
  has_post post_id s = true ->
  has_tag tag_id s = true ->
  exists p s',
    PostCRUD.add_tag_to_post post_id tag_id s = (Ok (Some p), s')
    /\ Post.id p = post_id
    /\ (exists l, TagCRUD.get_posts_by_tag tag_id s' = (Ok l, s') /\ In p l)
    /\ (forall t l l' x,
           t <> tag_id ->
           TagCRUD.get_posts_by_tag t s = (Ok l, s) ->
           TagCRUD.get_posts_by_tag t s' = (Ok l', s') ->
           (In x l' <-> In x l)).
Proof.
  intros Hp Ht.
  destruct (first_filter_exists _ _ Hp) as [p Fp].
  destruct (first_filter_exists _ _ Ht) as [t Ft].
  destruct (first_filter_some _ _ _ Fp) as [Ip Ep].
  destruct (first_filter_some _ _ _ Ft) as [It Et].
  apply Z.eqb_eq in Ep, Et.
  assert (Hadd : forall s0, posts s0 = posts s -> tags s0 = tags s ->
                            PostCRUD.add_tag_to_post post_id tag_id s0
                            = if existsb (Db.pair_eqb (Post.id p, Tag.id t))
                                         (post_tags s0)
                              then (Ok (Some p), s0)
                              else (Ok (Some p),
                                    with_post_tags
                                      (post_tags s0 ++ [(Post.id p, Tag.id t)])
                                      s0)).
  { intros s0 E1 E2. unfold PostCRUD.add_tag_to_post, bind, query, ret.
    rewrite E1, E2, Fp, Ft. unfold Db.append_tag.
    destruct (existsb _ _); reflexivity. }
  exists p.
  destruct (existsb (Db.pair_eqb (Post.id p, Tag.id t)) (post_tags s)) eqn:Hx.
  - exists s.
    assert (Hs : PostCRUD.add_tag_to_post post_id tag_id s = (Ok (Some p), s)).
    { rewrite (Hadd s eq_refl eq_refl). now rewrite Hx. }
    split; [exact Hs|]. split; [exact Ep|]. split.
    2:{ intros t0 l l' x _ E1 E2. rewrite E1 in E2. injection E2 as <-.
        reflexivity. }
    exists (Db.tag_posts t s). split.
    + unfold TagCRUD.get_posts_by_tag, bind, query, ret. now rewrite Ft.
    + unfold Db.tag_posts. apply filter_In. auto.
  - set (s' := with_post_tags (post_tags s ++ [(Post.id p, Tag.id t)]) s).
    assert (Hx' : existsb (Db.pair_eqb (Post.id p, Tag.id t)) (post_tags s')
                  = true).
    { apply has_pair. unfold s'. cbn [post_tags with_post_tags].
      apply in_or_app. right. now left. }
    exists s'. split; [|split; [exact Ep|split]].
    + rewrite (Hadd s eq_refl eq_refl). now rewrite Hx.
    + exists (Db.tag_posts t s'). split.
      * unfold TagCRUD.get_posts_by_tag, bind, query, ret.
        change (tags s') with (tags s). now rewrite Ft.
      * unfold Db.tag_posts. apply filter_In. split; [exact Ip|exact Hx'].
    + intros t' l l' x Hne.
      unfold TagCRUD.get_posts_by_tag, bind, query, ret.
      change (tags s') with (tags s).
      destruct (first (filter (fun x => Tag.id x =? t') (tags s))) as [u|] eqn:Fu;
        [|intros [= <-] [= <-]; reflexivity].
      intros [= <-] [= <-]. unfold s'. rewrite tag_posts_snoc; [reflexivity|].
      cbn [snd].
      apply first_filter_some in Fu as [_ Eu]. apply Z.eqb_eq in Eu.
      congruence.
Qed.

Lemma tagging_round_trip_witness :
  has_post 2 Sample.with_patterns = true
  /\ has_tag 1 Sample.with_patterns = true
  /\ exists p s',
      PostCRUD.add_tag_to_post 2 1 Sample.with_patterns = (Ok (Some p), s')
      /\ Post.id p = 2
      /\ (exists l, TagCRUD.get_posts_by_tag 1 s' = (Ok l, s') /\ In p l)
      /\ (forall t l l' x,
             t <> 1 ->
             TagCRUD.get_posts_by_tag t Sample.with_patterns
             = (Ok l, Sample.with_patterns) ->
             TagCRUD.get_posts_by_tag t s' = (Ok l', s') ->
             (In x l' <-> In x l)).
Proof.
  split; [reflexivity|]. split; [reflexivity|].
  apply (tagging_round_trip Sample.with_patterns 2 1); reflexivity.
Defined.

(** ** What a deletion leaves *)

Lemma filter_none {R} (f : R -> bool) (l : list R) :
  (forall x, In x l -> f x = false) -> filter f l = [].
Proof.
  induction l as [|a l IH]; intros H; [reflexivity|].
  cbn [filter]. rewrite (H a (or_introl eq_refl)).
  apply IH. intros x Hx. apply H. now right.
Qed.

Lemma mem_ext (a b : list Z) (i : Z) :
  (forall x, In x a <-> In x b) -> mem i a = mem i b.
Proof.
  intros H. destruct (mem i a) eqn:Ea, (mem i b) eqn:Eb; try reflexivity.
  - apply mem_In, H, mem_In in Ea. congruence.
  - apply mem_In, H, mem_In in Eb. congruence.
Qed.

(** Once the replies that outlive their parents are detached, the database
    finds no reply left to cascade to. *)
Lemma orphans_detached (now : Z) (dead dead' : list Z) (cs : list Comment.t) :
  (forall x, In x dead' <-> In x dead) ->
  Db.orphans (map (Db.detach now dead) cs) dead' = [].
Proof.
  intros H. unfold Db.orphans. apply filter_none. intros x Hx.
  apply in_map_iff in Hx as [c [<- _]]. unfold Db.detach.
  destruct (opt_mem (Comment.parent_id c) dead
            && negb (mem (Comment.id c) dead)) eqn:E.
  - reflexivity.
  - rewrite <- E. f_equal; [|f_equal; now apply mem_ext].
    destruct (Comment.parent_id c) as [p|]; [|reflexivity].
    now apply mem_ext.
Qed.

(** The comments a flush leaves, when the unit of work deletes every comment
    of the deleted users and posts itself: the others, detached where their
    parent went. *)
Lemma flush_delete_comments (s : Store) (us ps cs : list Z) :
  (forall c, In c (comments s) ->
             mem (Comment.author_id c) us
             || mem (Comment.post_id c) (Db.doomed_posts us ps s) = true ->
             In (Comment.id c) cs) ->
  comments (snd (Db.flush_delete us ps cs s))
  = Db.delete_rows Comment.id cs (map (Db.detach (utcnow s) cs) (comments s)).
Proof.
  intros H. unfold Db.flush_delete, Db.delete_cascade.
  cbn [snd comments]. unfold Db.doomed_comments.
  cbn [comments with_comments].
  set (cs1 := map (Db.detach (utcnow s) cs) (comments s)).
  set (seed := cs ++ _).
  assert (Hseed : forall x, In x seed <-> In x cs).
  { intros x. unfold seed. rewrite in_app_iff. split; [|now left].
    intros [Hx|Hx]; [exact Hx|].
    apply in_map_iff in Hx as [c' [<- Hc']].
    apply filter_In in Hc' as [Hc' Hf].
    apply in_map_iff in Hc' as [c [<- Hc]].
    destruct (detach_fields (utcnow s) cs c) as (-> & _ & Ea & Ep & _).
    rewrite Ea, Ep in Hf. apply (H c Hc). exact Hf. }
  cbn [Db.cascade_replies]. unfold cs1 at 1.
  rewrite (orphans_detached _ cs seed _ Hseed).
  unfold Db.delete_rows. apply filter_ext. intros c.
  f_equal. now apply mem_ext.
Qed.

Lemma filter_all {R} (f : R -> bool) (l : list R) :
  (forall x, In x l -> f x = true) -> filter f l = l.
Proof.
  induction l as [|a l IH]; intros H; [reflexivity|].
  cbn [filter]. rewrite (H a (or_introl eq_refl)). f_equal.
  apply IH. intros x Hx. apply H. now right.
Qed.

Lemma delete_rows_nil {R} (key : R -> Z) (rows : list R) :
  Db.delete_rows key [] rows = rows.
Proof.
  unfold Db.delete_rows. now apply filter_all.
Qed.

Lemma delete_rows_one {R} (key : R -> Z) (i : Z) (rows : list R) :
  Db.delete_rows key [i] rows = filter (fun r => negb (key r =? i)) rows.
Proof.
  unfold Db.delete_rows. apply filter_ext. intros r. cbn.
  now rewrite orb_false_r.
Qed.

(** Without a deleted user, the posts that go are the ones asked for. *)
Lemma doomed_posts_nil (ps : list Z) (s : Store) :
  Db.doomed_posts [] ps s = ps.
Proof.
  unfold Db.doomed_posts. rewrite filter_none; [apply app_nil_r|].
  reflexivity.
Qed.

Lemma key_inj {R} (key : R -> Z) (rows : list R) (a b : R) :
  NoDup (map key rows) -> In a rows -> In b rows -> key a = key b -> a = b.
Proof.
  induction rows as [|r rows IH]; intros Hn Ha Hb E; [contradiction|].
  cbn [map] in Hn. inversion Hn as [|? ? Hr Hn']; subst.
  destruct Ha as [<-|Ha], Hb as [<-|Hb].
  - reflexivity.
  - exfalso. apply Hr. rewrite E. now apply in_map.
  - exfalso. apply Hr. rewrite <- E. now apply in_map.
  - now apply IH.
Qed.

(** The shape of the store after [Db.delete_post]. *)
Lemma delete_post_store (s : Store) (p : Post.t) :
  let s' := snd (Db.delete_post p s) in
  users s' = users s
  /\ tags s' = tags s
  /\ posts s' = filter (fun q => negb (Post.id q =? Post.id p)) (posts s)
  /\ post_tags s'
     = filter (fun pt => negb (fst pt =? Post.id p)) (post_tags s)
  /\ comments s'
     = Db.delete_rows
         Comment.id (Db.post_comments (Post.id p) s)
         (map (Db.detach (utcnow s) (Db.post_comments (Post.id p) s))
              (comments s)).
Proof.
  unfold Db.delete_post. split; [|split; [|split; [|split]]].
  - unfold Db.flush_delete, Db.delete_cascade. cbn [snd users with_comments].
    apply delete_rows_nil.
  - reflexivity.
  - unfold Db.flush_delete, Db.delete_cascade. cbn [snd posts].
    rewrite doomed_posts_nil. cbn [posts with_comments].
    apply delete_rows_one.
  - unfold Db.flush_delete, Db.delete_cascade. cbn [snd post_tags].
    rewrite doomed_posts_nil. cbn [post_tags with_comments].
    apply filter_ext. intros pt. cbn. now rewrite orb_false_r.
  - apply flush_delete_comments. intros c Hc. rewrite doomed_posts_nil.
    cbn. rewrite orb_false_r. intros E. apply Z.eqb_eq in E.
    now apply post_comments_In.
Qed.

(** X10.  Deleting a stored post removes the post, its rows of [post_tags]
    and the comments on it, and nothing else: users and tags stay as they
    are, the other posts and associations stay, and every comment on
    another post stays with its key, content, author and post.
    Such a comment stays as it is unless its parent was a comment on the
    deleted post; then it has no parent afterwards. *)
Theorem delete_post_leaves (s : Store) (i : Z) :
  NoDup (map Comment.id (comments s)) ->
  has_post i s = true ->
  let s' := after (PostCRUD.delete_post i) s in
  users s' = users s
  /\ tags s' = tags s
  /\ (forall q, In q (posts s') <-> In q (posts s) /\ Post.id q <> i)
  /\ (forall pt, In pt (post_tags s') <-> In pt (post_tags s) /\ fst pt <> i)
  /\ (forall c', In c' (comments s') -> Comment.post_id c' <> i)
  /\ (forall c,
         In c (comments s) -> Comment.post_id c <> i ->
         exists c',
           In c' (comments s')
           /\ Comment.id c' = Comment.id c
           /\ Comment.content c' = Comment.content c
           /\ Comment.author_id c' = Comment.author_id c
           /\ Comment.post_id c' = Comment.post_id c
           /\ Comment.parent_id c'
              = (if opt_mem (Comment.parent_id c) (Db.post_comments i s)
                 then None else Comment.parent_id c)
           /\ (opt_mem (Comment.parent_id c) (Db.post_comments i s) = false ->
               c' = c)).
Proof.
  intros Hn Hp s'.
  destruct (first_filter_exists _ _ Hp) as [p Fp].
  destruct (first_filter_some _ _ _ Fp) as [_ Ep]. apply Z.eqb_eq in Ep.
  assert (Es : s' = snd (Db.delete_post p s)).
  { unfold s', after. now rewrite (delete_post_found s i p Fp). }
  destruct (delete_post_store s p) as (HU & HT & HP & HPT & HC).
  rewrite Ep in HP, HPT, HC. rewrite Es.
  split; [exact HU|]. split; [exact HT|].
  split; [intros q; rewrite HP, filter_In, negb_true_iff, Z.eqb_neq; tauto|].
  split; [intros pt; rewrite HPT, filter_In, negb_true_iff, Z.eqb_neq; tauto|].
  assert (Hout : forall c, In c (comments s) -> Comment.post_id c <> i ->
                           ~ In (Comment.id c) (Db.post_comments i s)).
  { intros c Hc Hne Hin. unfold Db.post_comments in Hin.
    apply in_map_iff in Hin as [c2 [E2 H2]].
    apply filter_In in H2 as [H2 P2]. apply Z.eqb_eq in P2.
    rewrite (key_inj Comment.id (comments s) c c2 Hn Hc H2 (eq_sym E2)) in Hne.
    contradiction. }
  split.
  - intros c' Hc'. rewrite HC in Hc'.
    apply delete_rows_In in Hc' as [Hc' Hk].
    apply in_map_iff in Hc' as [c [<- Hc]].
    destruct (detach_fields (utcnow s) (Db.post_comments i s) c)
      as (Ei & _ & _ & Ep' & _).
    rewrite Ep'. intros E. apply Hk. rewrite Ei.
    now apply post_comments_In.
  - intros c Hc Hne. pose proof (Hout c Hc Hne) as Hk.
    exists (Db.detach (utcnow s) (Db.post_comments i s) c).
    destruct (detach_fields (utcnow s) (Db.post_comments i s) c)
      as (Ei & Ect & Ea & Ep' & _).
    split.
    { rewrite HC. apply delete_rows_In. split; [now apply in_map|].
      now rewrite Ei. }
    split; [exact Ei|]. split; [exact Ect|]. split; [exact Ea|].
    split; [exact Ep'|].
    unfold Db.detach.
    replace (mem (Comment.id c) (Db.post_comments i s)) with false
      by (symmetry; apply not_true_iff_false; now rewrite mem_In).
    rewrite andb_true_r.
    destruct (opt_mem (Comment.parent_id c) (Db.post_comments i s));
      split; try reflexivity; discriminate.
Qed.

Lemma delete_post_leaves_witness :
  NoDup (map Comment.id (comments with_elsewhere))
  /\ has_post 1 with_elsewhere = true
  /\ In elsewhere (comments with_elsewhere)
  /\ Comment.post_id elsewhere <> 1
  /\ ~ In Sample.intro (posts (after (PostCRUD.delete_post 1) with_elsewhere))
  /\ exists c',
      In c' (comments (after (PostCRUD.delete_post 1) with_elsewhere))
      /\ Comment.id c' = 3
      /\ Comment.parent_id c' = None.
Proof.
  assert (Hn : NoDup (map Comment.id (comments with_elsewhere))).
  { cbn. repeat constructor; cbn; intros H;
      repeat (destruct H as [H|H]; [discriminate H|]); exact H. }
  assert (Hin : In elsewhere (comments with_elsewhere))
    by (right; right; left; reflexivity).
  assert (Hne : Comment.post_id elsewhere <> 1) by discriminate.
  pose proof (delete_post_leaves with_elsewhere 1 Hn eq_refl) as H.
  cbv zeta in H. destruct H as (_ & _ & HP & _ & _ & HC).
  destruct (HC elsewhere Hin Hne) as (c' & Hc' & Hid & _ & _ & _ & Hpar & _).
  split; [exact Hn|]. split; [reflexivity|]. split; [exact Hin|].
  split; [exact Hne|].
  split; [intros Hi; apply HP in Hi as [_ Hi]; now apply Hi|].
  exists c'. split; [exact Hc'|]. split; [exact Hid|exact Hpar].
Defined.

(** The shape of the store after [Db.delete_comment]. *)
Lemma delete_comment_store (s : Store) (c : Comment.t) :
  let s' := snd (Db.delete_comment c s) in
  users s' = users s
  /\ posts s' = posts s
  /\ tags s' = tags s
  /\ post_tags s' = post_tags s
  /\ comments s'
     = Db.delete_rows
         Comment.id [Comment.id c]
         (map (Db.detach (utcnow s) [Comment.id c]) (comments s)).
Proof.
  unfold Db.delete_comment. split; [|split; [|split; [|split]]].
  - unfold Db.flush_delete, Db.delete_cascade. cbn [snd users with_comments].
    apply delete_rows_nil.
  - unfold Db.flush_delete, Db.delete_cascade. cbn [snd posts].
    rewrite doomed_posts_nil. apply delete_rows_nil.
  - reflexivity.
  - unfold Db.flush_delete, Db.delete_cascade. cbn [snd post_tags].
    rewrite doomed_posts_nil. cbn [post_tags with_comments].
    now apply filter_all.
  - apply flush_delete_comments. intros x Hx. rewrite doomed_posts_nil.
    cbn. discriminate.
Qed.

(** X11.  Deleting a stored comment removes that comment and no other row:
    users, posts, tags and [post_tags] stay as they are, and every other
    comment stays with its key, content, author and post.  The replies to
    the deleted comment are not deleted: they have no parent afterwards, so
    the deleted key has no replies, and every other comment stays as it
    is. *)
Theorem delete_comment_leaves (s : Store) (i : Z) :
  has_comment i s = true ->
  let s' := after (CommentCRUD.delete_comment i) s in
  users s' = users s
  /\ posts s' = posts s
  /\ tags s' = tags s
  /\ post_tags s' = post_tags s
  /\ CommentCRUD.get_comment_replies i s' = (Ok [], s')
  /\ (forall c', In c' (comments s') -> Comment.id c' <> i)
  /\ (forall c,
         In c (comments s) -> Comment.id c <> i ->
         exists c',
           In c' (comments s')
           /\ Comment.id c' = Comment.id c
           /\ Comment.content c' = Comment.content c
           /\ Comment.author_id c' = Comment.author_id c
           /\ Comment.post_id c' = Comment.post_id c
           /\ Comment.parent_id c'
              = (if opt_eqb (Comment.parent_id c) i
                 then None else Comment.parent_id c)
           /\ (opt_eqb (Comment.parent_id c) i = false -> c' = c)).
Proof.
  intros Hc s'.
  destruct (first_filter_exists _ _ Hc) as [c0 F0].
  destruct (first_filter_some _ _ _ F0) as [_ E0]. apply Z.eqb_eq in E0.
  assert (Es : s' = snd (Db.delete_comment c0 s)).
  { unfold s', after. now rewrite (delete_comment_found s i c0 F0). }
  destruct (delete_comment_store s c0) as (HU & HP & HT & HPT & HC).
  rewrite E0 in HC. rewrite Es.
  split; [exact HU|]. split; [exact HP|]. split; [exact HT|].
  split; [exact HPT|].
  assert (Hdet : forall c,
             Comment.id c <> i ->
             Comment.parent_id (Db.detach (utcnow s) [i] c)
             = (if opt_eqb (Comment.parent_id c) i
                then None else Comment.parent_id c)
             /\ (opt_eqb (Comment.parent_id c) i = false ->
                 Db.detach (utcnow s) [i] c = c)).
  { intros c Hne. unfold Db.detach.
    replace (mem (Comment.id c) [i]) with false
      by (symmetry; cbn; rewrite orb_false_r; now apply Z.eqb_neq).
    rewrite andb_true_r.
    replace (opt_mem (Comment.parent_id c) [i])
      with (opt_eqb (Comment.parent_id c) i)
      by (destruct (Comment.parent_id c); cbn;
          [now rewrite orb_false_r | reflexivity]).
    destruct (opt_eqb (Comment.parent_id c) i);
      split; try reflexivity; discriminate. }
  assert (Hkey : forall c', In c' (comments (snd (Db.delete_comment c0 s))) ->
                            exists c, In c (comments s)
                                      /\ c' = Db.detach (utcnow s) [i] c
                                      /\ Comment.id c <> i).
  { intros c' Hc'. rewrite HC in Hc'.
    apply delete_rows_In in Hc' as [Hc' Hk].
    apply in_map_iff in Hc' as [c [<- Hin]]. exists c.
    split; [exact Hin|]. split; [reflexivity|].
    destruct (detach_fields (utcnow s) [i] c) as (Ei & _).
    rewrite Ei in Hk. intros E. apply Hk. now left. }
  split; [|split].
  - unfold CommentCRUD.get_comment_replies, bind, query, ret.
    rewrite filter_none; [reflexivity|].
    intros c' Hc'. destruct (Hkey c' Hc') as (c & _ & -> & Hne).
    destruct (Hdet c Hne) as [-> _].
    destruct (opt_eqb (Comment.parent_id c) i) eqn:E; [reflexivity|exact E].
  - intros c' Hc'. destruct (Hkey c' Hc') as (c & _ & -> & Hne).
    destruct (detach_fields (utcnow s) [i] c) as (-> & _). exact Hne.
  - intros c Hin Hne.
    exists (Db.detach (utcnow s) [i] c).
    destruct (detach_fields (utcnow s) [i] c) as (Ei & Ect & Ea & Ep & _).
    split.
    { rewrite HC. apply delete_rows_In. split; [now apply in_map|].
      rewrite Ei. intros [E|[]]. now apply Hne. }
    split; [exact Ei|]. split; [exact Ect|]. split; [exact Ea|].
    split; [exact Ep|]. exact (Hdet c Hne).
Qed.

Lemma delete_comment_leaves_witness :
  has_comment 1 Sample.with_agreed = true
  /\ CommentCRUD.get_comment_replies
       1 (after (CommentCRUD.delete_comment 1) Sample.with_agreed)
     = (Ok [], after (CommentCRUD.delete_comment 1) Sample.with_agreed)
  /\ exists c',
      In c' (comments (after (CommentCRUD.delete_comment 1) Sample.with_agreed))
      /\ Comment.id c' = 2
      /\ Comment.parent_id c' = None.
Proof.
  pose proof (delete_comment_leaves Sample.with_agreed 1 eq_refl) as H.
  cbv zeta in H. destruct H as (_ & _ & _ & _ & HR & _ & HC).
  assert (Hin : In Sample.thanks (comments Sample.with_agreed))
    by (right; left; reflexivity).
  assert (Hne : Comment.id Sample.thanks <> 1) by discriminate.
  destruct (HC Sample.thanks Hin Hne)
    as (c' & Hc' & Hid & _ & _ & _ & Hpar & _).
  split; [reflexivity|]. split; [exact HR|].
  exists c'. split; [exact Hc'|]. split; [exact Hid|exact Hpar].
Defined.

(** ** What an update leaves *)

Lemma replace_row_other {R} (key : R -> Z) (old : Z) (new : R)
      (rows : list R) (j : Z) :
  key new <> j ->
  j <> old ->
  first (filter (fun r => key r =? j) (Db.replace_row key old new rows))
  = first (filter (fun r => key r =? j) rows).
Proof.
  intros Hne Hold. unfold Db.replace_row.
  induction rows as [|r rows IH]; [reflexivity|].
  cbn [map filter]. destruct (key r =? old) eqn:E.
  - apply Z.eqb_eq in E.
    replace (key new =? j) with false by (symmetry; now apply Z.eqb_neq).
    replace (key r =? j) with false
      by (symmetry; apply Z.eqb_neq; congruence).
    exact IH.
  - destruct (key r =? j); [reflexivity|exact IH].
Qed.

Lemma replace_row_length {R} (key : R -> Z) (old : Z) (new : R)
      (rows : list R) :
  List.length (Db.replace_row key old new rows) = List.length rows.
Proof.
  unfold Db.replace_row. apply length_map.
Qed.

Lemma replace_row_keeps {R} (key : R -> Z) (old : Z) (new : R)
      (rows : list R) (r : R) :
  In r rows -> key r <> old -> In r (Db.replace_row key old new rows).
Proof.
  intros Hr Hne. unfold Db.replace_row. apply in_map_iff. exists r.
  split; [|exact Hr].
  replace (key r =? old) with false; [reflexivity|].
  symmetry. now apply Z.eqb_neq.
Qed.

(** The key of the row an UPDATE writes: the one assigned, and the one the
    row had when none was. *)
Lemma assigned_key (i k : Z) (set : option (option Z)) (j : Z) :
  Some k = assign (Some i) set ->
  j <> i ->
  set <> Some (Some j) ->
  k <> j.
Proof.
  destruct set as [[v|]|]; cbn [assign]; intros [= ->]; congruence.
Qed.

(** What an UPDATE of the rows with key [i] leaves of a table. *)
Lemma replace_row_leaves {R} (key : R -> Z) (get : Z -> list R -> option R)
      (i : Z) (set : option (option Z)) (row : R) (rows : list R) :
  (forall j l, get j l = first (filter (fun r => key r =? j) l)) ->
  Some (key row) = assign (Some i) set ->
  let rows' := Db.replace_row key i row rows in
  List.length rows' = List.length rows
  /\ (forall r, In r rows -> key r <> i -> In r rows')
  /\ (forall j, j <> i -> set <> Some (Some j) -> get j rows' = get j rows)
  /\ (set = None ->
      forall j, In j (map key rows') <-> In j (map key rows)).
Proof.
  intros Hget Hk rows'. unfold rows'.
  split; [apply replace_row_length|].
  split; [intros r; apply replace_row_keeps|].
  split.
  - intros j Hj Hset. rewrite !Hget. apply replace_row_other; [|exact Hj].
    exact (assigned_key _ _ _ _ Hk Hj Hset).
  - intros -> j. cbn [assign] in Hk. injection Hk as <-.
    now rewrite replace_row_keys.
Qed.

(** X12.  An update whose keyword arguments name columns writes at most the
    rows of its table that have the key it names.  The other four tables
    stay as they are; the table has as many rows as before; every row with
    another key is still stored; every other key, the one the update
    assigns to [id] apart, fetches the row it fetched before; and when [id]
    is not assigned, the table keeps its keys.  This holds for every
    outcome of the update, an [IntegrityError] included. *)
Theorem update_leaves (s : Store) (i : Z) :
  (forall kw,
      let s' := after (UserCRUD.update_user i kw) s in
      posts s' = posts s /\ tags s' = tags s
      /\ comments s' = comments s /\ post_tags s' = post_tags s
      /\ List.length (users s') = List.length (users s)
      /\ (forall u, In u (users s) -> User.id u <> i -> In u (users s'))
      /\ (forall j, j <> i -> User.set_id kw <> Some (Some j) ->
                    fst (UserCRUD.get_user j s') = fst (UserCRUD.get_user j s))
      /\ (User.set_id kw = None ->
          forall j, In j (map User.id (users s'))
                    <-> In j (map User.id (users s))))
  /\ (forall kw,
         let s' := after (PostCRUD.update_post i kw) s in
         users s' = users s /\ tags s' = tags s
         /\ comments s' = comments s /\ post_tags s' = post_tags s
         /\ List.length (posts s') = List.length (posts s)
         /\ (forall p, In p (posts s) -> Post.id p <> i -> In p (posts s'))
         /\ (forall j, j <> i -> Post.set_id kw <> Some (Some j) ->
                       fst (PostCRUD.get_post j s')
                       = fst (PostCRUD.get_post j s))
         /\ (Post.set_id kw = None ->
             forall j, In j (map Post.id (posts s'))
                       <-> In j (map Post.id (posts s))))
  /\ (forall content,
         let s' := after (CommentCRUD.update_comment i content) s in
         users s' = users s /\ posts s' = posts s
         /\ tags s' = tags s /\ post_tags s' = post_tags s
         /\ List.length (comments s') = List.length (comments s)
         /\ (forall c, In c (comments s) -> Comment.id c <> i ->
                       In c (comments s'))
         /\ (forall j, j <> i ->
                       fst (CommentCRUD.get_comment j s')
                       = fst (CommentCRUD.get_comment j s))
         /\ (forall j, In j (map Comment.id (comments s'))
                       <-> In j (map Comment.id (comments s)))).
Proof.
  split; [|split].
  - intros kw s'. unfold s'.
    destruct (update_user_after s i kw)
      as [->|(u & row & _ & Hi & Hk & _ & ->)].
    + repeat split; auto.
    + cbn [users posts tags comments post_tags with_users].
      repeat (split; [reflexivity|]). rewrite Hi.
      destruct (replace_row_leaves
                  User.id
                  (fun j l => first (filter (fun r => User.id r =? j) l))
                  i (User.set_id kw) row (users s)
                  (fun _ _ => eq_refl) Hk) as (H1 & H2 & H3 & H4).
      split; [exact H1|]. split; [exact H2|]. split; [|exact H4].
      intros j Hj Hset. unfold UserCRUD.get_user, bind, query, ret.
      cbn [fst users with_users]. f_equal. exact (H3 j Hj Hset).
  - intros kw s'. unfold s'.
    destruct (update_post_after s i kw)
      as [->|(p & row & _ & Hi & Hk & _ & _ & _ & ->)].
    + repeat split; auto.
    + cbn [users posts tags comments post_tags with_posts].
      repeat (split; [reflexivity|]). rewrite Hi.
      destruct (replace_row_leaves
                  Post.id
                  (fun j l => first (filter (fun r => Post.id r =? j) l))
                  i (Post.set_id kw) row (posts s)
                  (fun _ _ => eq_refl) Hk) as (H1 & H2 & H3 & H4).
      split; [exact H1|]. split; [exact H2|]. split; [|exact H4].
      intros j Hj Hset. unfold PostCRUD.get_post, bind, query, ret.
      cbn [fst posts with_posts]. f_equal. exact (H3 j Hj Hset).
  - intros content s'. unfold s'.
    destruct (update_comment_after s i content)
      as [->|(c & row & _ & Hi & Hk & _ & _ & _ & ->)].
    + repeat split; auto.
    + cbn [users posts tags comments post_tags with_comments].
      repeat (split; [reflexivity|]). rewrite Hi.
      assert (Hk' : Some (Comment.id row) = assign (Some i) None)
        by (cbn [assign]; congruence).
      destruct (replace_row_leaves
                  Comment.id
                  (fun j l => first (filter (fun r => Comment.id r =? j) l))
                  i None row (comments s)
                  (fun _ _ => eq_refl) Hk') as (H1 & H2 & H3 & H4).
      split; [exact H1|]. split; [exact H2|]. split; [|exact (H4 eq_refl)].
      intros j Hj. unfold CommentCRUD.get_comment, bind, query, ret.
      cbn [fst comments with_comments]. f_equal.
      apply (H3 j Hj). discriminate.
Qed.

(** X13.  An update that changes nothing writes nothing: [update_user] and
    [update_post] without keyword arguments, and [update_comment] with the
    content the comment already has, return what the lookup of the key
    returns and leave the store as it is; no [updated_at] is stamped. *)
Theorem update_without_change (s : Store) (i : Z) :
  UserCRUD.update_user i User.no_patch s = UserCRUD.get_user i s
  /\ PostCRUD.update_post i Post.no_patch s = PostCRUD.get_post i s
  /\ (forall c,
         CommentCRUD.get_comment i s = (Ok (Some c), s) ->
         CommentCRUD.update_comment i (Comment.content c) s
         = (Ok (Some c), s)).
Proof.
  split; [|split].
  - unfold UserCRUD.update_user, UserCRUD.get_user, bind, query, ret.
    destruct (first _) as [u|]; [|reflexivity].
    unfold Db.commit_user.
    replace (Db.assign_user User.no_patch u) with (Some u)
      by (now destruct u).
    destruct (Db.user_eq_dec u u); [reflexivity|contradiction].
  - unfold PostCRUD.update_post, PostCRUD.get_post, bind, query, ret.
    destruct (first _) as [p|]; [|reflexivity].
    unfold Db.commit_post.
    replace (Db.assign_post Post.no_patch p) with (Some p)
      by (now destruct p).
    destruct (Db.post_eq_dec p p); [reflexivity|contradiction].
  - intros c. unfold CommentCRUD.update_comment, CommentCRUD.get_comment,
                bind, query, ret.
    intros [= ->]. unfold Db.commit_comment.
    now rewrite String.eqb_refl.
Qed.

Lemma update_leaves_witness :
  let s' :=
    after (PostCRUD.update_post 2 Sample.renumber) Sample.with_patterns in
  let s'' :=
    after (PostCRUD.update_post 2 Sample.retitle) Sample.with_patterns in
  1 <> 2
  /\ Post.set_id Sample.renumber <> Some (Some 1)
  /\ fst (PostCRUD.get_post 1 s') = Ok (Some Sample.intro)
  /\ In Sample.intro (posts Sample.with_patterns)
  /\ Post.id Sample.intro <> 2
  /\ In Sample.intro (posts s')
  /\ Post.set_id Sample.retitle = None
  /\ In 2 (map Post.id (posts s'')).
Proof.
  intros s' s''.
  assert (Hne : 1 <> 2) by discriminate.
  assert (Hset : Post.set_id Sample.renumber <> Some (Some 1)) by discriminate.
  assert (Hin : In Sample.intro (posts Sample.with_patterns))
    by (left; reflexivity).
  assert (Hid : Post.id Sample.intro <> 2) by discriminate.
  assert (Hnone : Post.set_id Sample.retitle = None) by reflexivity.
  pose proof (proj1 (proj2 (update_leaves Sample.with_patterns 2))
                    Sample.renumber) as H.
  pose proof (proj1 (proj2 (update_leaves Sample.with_patterns 2))
                    Sample.retitle) as H'.
  cbv zeta in H, H'.
  destruct H as (_ & _ & _ & _ & _ & H2 & H3 & _).
  destruct H' as (_ & _ & _ & _ & _ & _ & _ & H4).
  split; [exact Hne|]. split; [exact Hset|].
  split; [exact (H3 1 Hne Hset)|].
  split; [exact Hin|]. split; [exact Hid|].
  split; [exact (H2 _ Hin Hid)|].
  split; [exact Hnone|].
  apply (H4 Hnone 2). right. left. reflexivity.
Defined.

Lemma update_without_change_witness :
  CommentCRUD.get_comment 1 Sample.blog = (Ok (Some Sample.nice), Sample.blog)
  /\ CommentCRUD.update_comment 1 "nice" Sample.blog
     = (Ok (Some Sample.nice), Sample.blog).
Proof.
  split; [reflexivity|].
  exact (proj2 (proj2 (update_without_change Sample.blog 1))
               Sample.nice eq_refl).
Defined.

(* ================================================================= *)
(** * Further properties of the dump scripts *)

(** X14.  Once the container is up, [validate_and_dump.py] never waits
    forever, and it ends in one of three ways.  It exits with status 0,
    exactly when the models import, the schema is created (which cannot fail
    when migrations are used: the fallback to [create_models_directly] is
    never taken) and [pg_dump] exits with status 0 within 30 seconds; two
    files are written then, after one call of [subprocess.run].  It exits
    with status 1, when the models do not import, the schema is not created,
    or [pg_dump] exits with another status or is not done within 30 seconds;
    no file is written and no link is made.  Or, with the models imported
    and the schema created, the child process cannot be
    started: the [OSError] ([FileNotFoundError] when the executable is not
    found) is caught nowhere, and no file is written and no link is made. *)
Theorem validate_and_dump_outcome (env : Env) (skip_migrations : bool)
        (alembic_ini : option string) (w : World) :
  let r := ValidateAndDump.main env skip_migrations alembic_ini w in
  (exists w',
      r = Returns 0 w'
      /\ models_import env = true
      /\ (skip_migrations = false \/ create_all env = true)
      /\ succeeds_within 30 (pg_dump env)
      /\ List.length (files w') = (List.length (files w) + 2)%nat
      /\ List.length (calls w') = (List.length (calls w) + 1)%nat)
  \/ (exists w',
         r = Returns 1 w'
         /\ (models_import env = false
             \/ (skip_migrations = true /\ create_all env = false)
             \/ fails_within 30 (pg_dump env))
         /\ files w' = files w
         /\ links w' = links w)
  \/ (exists w',
         r = Uncaught "OSError" w'
         /\ models_import env = true
         /\ (skip_migrations = false \/ create_all env = true)
         /\ pg_dump env = Subprocess.CannotStart
         /\ files w' = files w
         /\ links w' = links w).
Proof.
  cbv zeta.
  unfold ValidateAndDump.main, ValidateAndDump.validate_and_dump,
    ValidateAndDump.run_alembic_migrations,
    ValidateAndDump.create_models_directly.
  destruct (models_import env) eqn:Hm; cbn [negb];
    [|right; left; exists w; auto].
  assert (Hdump :
            forall (ok : skip_migrations = false \/ create_all env = true)
                   (r : Result Z),
              r = match ValidateAndDump.run_pg_dump env "test" w with
                  | Returns (success, dump_output) w0 =>
                      if negb success then Returns 1 w0
                      else
                        let (_, w1) :=
                          ValidateAndDump.save_schema_dump
                            env dump_output "schema" w0 in
                        Returns 0 w1
                  | Uncaught e w0 => Uncaught e w0
                  | Blocks w0 => Blocks w0
                  end ->
              (exists w',
                  r = Returns 0 w'
                  /\ true = true
                  /\ (skip_migrations = false \/ create_all env = true)
                  /\ succeeds_within 30 (pg_dump env)
                  /\ List.length (files w') = (List.length (files w) + 2)%nat
                  /\ List.length (calls w') = (List.length (calls w) + 1)%nat)
              \/ (exists w',
                     r = Returns 1 w'
                     /\ (true = false
                         \/ (skip_migrations = true /\ create_all env = false)
                         \/ fails_within 30 (pg_dump env))
                     /\ files w' = files w
                     /\ links w' = links w)
              \/ (exists w',
                     r = Uncaught "OSError" w'
                     /\ true = true
                     /\ (skip_migrations = false \/ create_all env = true)
                     /\ pg_dump env = Subprocess.CannotStart
                     /\ files w' = files w
                     /\ links w' = links w)).
  { intros ok r ->. unfold ValidateAndDump.run_pg_dump, Subprocess.run.
    cbn [Subprocess.timeout Subprocess.check].
    destruct (pg_dump env) as [sec rc out err| |].
    - destruct (30 <? sec) eqn:El.
      + apply Z.ltb_lt in El. right; left. eexists. split; [reflexivity|].
        cbn. auto 6.
      + apply Z.ltb_ge in El. destruct (rc =? 0) eqn:Er; cbn [negb andb].
        * apply Z.eqb_eq in Er. left. eexists. split; [reflexivity|].
          cbn. rewrite !length_app. cbn. repeat split; auto; lia.
        * apply Z.eqb_neq in Er. right; left. eexists.
          split; [reflexivity|]. cbn. auto 6.
    - right; left. eexists. split; [reflexivity|]. cbn. auto 6.
    - right; right. eexists. split; [reflexivity|]. cbn. auto 6. }
  destruct skip_migrations; cbn [negb].
  - destruct (create_all env) eqn:Hc; cbn [negb].
    + apply Hdump; [now right|reflexivity].
    + right; left. exists w. auto 6.
  - apply Hdump; [now left|reflexivity].
Qed.

Ltac dump_cases env :=
  unfold PgDumpHelper.main, PgDumpHelper.dump_with_running_container,
    PgDumpHelper.dump_with_testcontainer, PgDumpHelper.write_dump,
    Subprocess.run;
  cbn [Subprocess.timeout Subprocess.check];
  destruct (url_user_db env) as [[username database]|];
  destruct (create_all env) eqn:Hcreate;
  destruct (docker_ps env) as [sec1 rc1 names err1| |];
  destruct (pg_dump_dev env) as [sec2 rc2 out2 err2| |];
  destruct (pg_dump env) as [sec3 rc3 out3 err3| |];
  try destruct (rc1 =? 0); try destruct (rc2 =? 0); try destruct (rc3 =? 0);
  cbn [negb andb];
  try destruct (contains "postgres-dev" names); cbn [negb].

(** X15.  Once the container is up, [pg_dump_helper.py] ends in one of four
    ways: it runs to its end, with exit status 0; it waits forever for a
    child process that never exits; a child process cannot be started and
    the [OSError] ([FileNotFoundError] when the executable is not found) is
    caught nowhere; or the tables cannot be created and the error of
    [create_all], which is called outside any [try], is caught nowhere.  It calls [subprocess.run] at most
    three times and passes no timeout, so no run ends in
    [TimeoutExpired]. *)
Theorem pg_dump_helper_outcome (env : Env) (use_testcontainer use_running : bool)
        (w : World) :
  let r := PgDumpHelper.main env use_testcontainer use_running w in
  ((exists w', r = Returns 0 w')
   \/ (exists w',
          r = Blocks w'
          /\ (docker_ps env = Subprocess.Hangs
              \/ pg_dump_dev env = Subprocess.Hangs
              \/ pg_dump env = Subprocess.Hangs))
   \/ (exists w',
          r = Uncaught "OSError" w'
          /\ (docker_ps env = Subprocess.CannotStart
              \/ pg_dump_dev env = Subprocess.CannotStart
              \/ pg_dump env = Subprocess.CannotStart))
   \/ (exists w',
          r = Uncaught "SQLAlchemyError" w'
          /\ create_all env = false))
  /\ exists new,
      calls (world_of r) = calls w ++ new
      /\ (List.length new <= 3)%nat
      /\ Forall (fun a => Subprocess.timeout a = None
                          /\ Subprocess.check a = true) new.
Proof.
  intros r. unfold r. clear r.
  destruct use_testcontainer, use_running; dump_cases env;
    (split;
     [ first [ left; eexists; reflexivity
             | right; left; eexists; split; [reflexivity|]; auto
             | right; right; left; eexists; split; [reflexivity|]; auto
             | right; right; right; eexists; split; [reflexivity|]; auto ]
     | cbn; rewrite <- ?app_assoc;
       first [ eexists; split; [reflexivity|];
               split; [cbn; lia|]; repeat constructor
             | exists []; split; [now rewrite app_nil_r|];
               split; [cbn; lia|]; constructor ] ]).
Qed.

(** X16.  Without a mode option [pg_dump_helper.py] asks the container
    [postgres-dev] first.  When that gives a dump, the script starts the two
    child processes of that path and no other, writes one file (this path
    writes no clean version) and is done, whatever the test container would
    do.  When it gives none, nothing has been written, and the script goes
    on as with [--use-testcontainer]. *)
Theorem pg_dump_helper_default_mode (env : Env) (w : World) :
  (dev_available env ->
   exists w',
     PgDumpHelper.main env false false w = Returns 0 w'
     /\ calls w' = calls w ++ [docker_ps_args; pg_dump_dev_args]
     /\ List.length (files w') = (List.length (files w) + 1)%nat)
  /\ (dev_unavailable env ->
      exists w0,
        files w0 = files w
        /\ links w0 = links w
        /\ PgDumpHelper.main env false false w
           = PgDumpHelper.main env true false w0).
Proof.
  unfold dev_available, dev_unavailable. split.
  - intros H.
    unfold PgDumpHelper.main, PgDumpHelper.dump_with_running_container,
      PgDumpHelper.write_dump, Subprocess.run.
    cbn [Subprocess.timeout Subprocess.check].
    destruct (docker_ps env) as [sec1 rc1 names err1| |];
      [|contradiction|contradiction].
    destruct (pg_dump_dev env) as [sec2 rc2 out2 err2| |];
      [|contradiction|contradiction].
    destruct H as (-> & Hn & ->). cbn [Z.eqb negb andb].
    rewrite Hn. cbn [negb].
    eexists. split; [reflexivity|]. cbn. rewrite <- app_assoc.
    split; [reflexivity|]. rewrite length_app. reflexivity.
  - intros H.
    unfold PgDumpHelper.main, PgDumpHelper.dump_with_running_container,
      PgDumpHelper.write_dump, Subprocess.run.
    cbn [Subprocess.timeout Subprocess.check].
    destruct (docker_ps env) as [sec1 rc1 names err1| |];
      [|contradiction|contradiction].
    destruct (rc1 =? 0) eqn:E1; cbn [negb andb].
    + apply Z.eqb_eq in E1.
      destruct (contains "postgres-dev" names) eqn:En; cbn [negb].
      * destruct (pg_dump_dev env) as [sec2 rc2 out2 err2| |];
          [|destruct H as [H|[H|H]]; [lia|discriminate|contradiction]
           |destruct H as [H|[H|H]]; [lia|discriminate|contradiction]].
        destruct (rc2 =? 0) eqn:E2; cbn [negb andb].
        { apply Z.eqb_eq in E2. destruct H as [H|[H|H]];
            [lia|discriminate|lia]. }
        eexists. split; [|split; [|reflexivity]]; reflexivity.
      * eexists. split; [|split; [|reflexivity]]; reflexivity.
    + eexists. split; [|split; [|reflexivity]]; reflexivity.
Qed.

Lemma pg_dump_helper_default_mode_witness :
  dev_available dev_running
  /\ (exists w',
         PgDumpHelper.main dev_running false false DumpRuns.nothing
         = Returns 0 w'
         /\ calls w' = [docker_ps_args; pg_dump_dev_args]
         /\ List.length (files w') = 1%nat)
  /\ dev_unavailable DumpRuns.exits_1
  /\ (exists w0,
         files w0 = []
         /\ links w0 = []
         /\ PgDumpHelper.main DumpRuns.exits_1 false false DumpRuns.nothing
            = PgDumpHelper.main DumpRuns.exits_1 true false w0).
Proof.
  assert (Ha : dev_available dev_running) by (cbn; auto).
  assert (Hu : dev_unavailable DumpRuns.exits_1) by (cbn; auto).
  split; [exact Ha|].
  split; [exact (proj1 (pg_dump_helper_default_mode dev_running
                                                    DumpRuns.nothing) Ha)|].
  split; [exact Hu|].
  exact (proj2 (pg_dump_helper_default_mode DumpRuns.exits_1
                                            DumpRuns.nothing) Hu).
Defined.

(** ** The files of a dump *)

Lemma filter_filter_negb {R} (f : R -> bool) (l : list R) :
  filter f (filter (fun x => negb (f x)) l) = [].
Proof.
  apply filter_none. intros x Hx. apply filter_In in Hx as [_ Hx].
  now apply negb_true_iff.
Qed.

Lemma symlink_to_links (link target : string) (w : World) :
  filter (fun l => String.eqb (fst l) link) (links (symlink_to link target w))
  = [(link, target)]
  /\ forall l, In l (links w) -> fst l <> link ->
               In l (links (symlink_to link target w)).
Proof.
  unfold symlink_to. cbn [links]. split.
  - rewrite filter_app, filter_filter_negb. cbn [filter fst app].
    now rewrite String.eqb_refl.
  - intros l Hl Hne. apply in_or_app. left. apply filter_In.
    split; [exact Hl|]. apply negb_true_iff. now apply String.eqb_neq.
Qed.

Lemma append_assoc (a b c : string) :
  ((a ++ b) ++ c = a ++ b ++ c)%string.
Proof.
  induction a as [|x a IH]; cbn [String.append]; [reflexivity|].
  now rewrite IH.
Qed.

(** X17.  After a dump is saved, [schema_postgres_latest.sql] in the output
    directory is one link, whatever was there before, and it names the file
    just written, by its file name; the other links are still there.  That
    file holds the header followed by the output of [pg_dump], unchanged.
    This holds for [save_schema_dump] and for both dump functions of
    [pg_dump_helper.py]. *)
Theorem latest_link_replaced (env : Env) (dump dir origin : string)
        (w : World) :
  let name := ("schema_postgres_" ++ timestamp env ++ ".sql")%string in
  (let latest := (dir ++ "/schema_postgres_latest.sql")%string in
   let w' := snd (ValidateAndDump.save_schema_dump env dump dir w) in
   fst (ValidateAndDump.save_schema_dump env dump dir w)
   = (dir ++ "/" ++ name)%string
   /\ filter (fun l => String.eqb (fst l) latest) (links w')
      = [(latest, name)]
   /\ (forall l, In l (links w) -> fst l <> latest -> In l (links w'))
   /\ exists header,
       In ((dir ++ "/" ++ name)%string, (header ++ dump)%string) (files w'))
  /\ (let latest := "schema/schema_postgres_latest.sql"%string in
      let w' := snd (PgDumpHelper.write_dump env origin dump w) in
      fst (PgDumpHelper.write_dump env origin dump w)
      = ("schema/" ++ name)%string
      /\ filter (fun l => String.eqb (fst l) latest) (links w')
         = [(latest, name)]
      /\ (forall l, In l (links w) -> fst l <> latest -> In l (links w'))
      /\ exists header,
          In (("schema/" ++ name)%string, (header ++ dump)%string)
             (files w')).
Proof.
  intros name. split.
  - unfold ValidateAndDump.save_schema_dump. cbn [fst snd].
    split; [reflexivity|].
    match goal with
    | |- context [symlink_to ?l ?t ?w1] =>
        destruct (symlink_to_links l t w1) as [H1 H2]
    end.
    split; [exact H1|]. split; [exact H2|].
    exists ("--" ++ nl
              ++ "-- PostgreSQL Schema Dump (via testcontainer)" ++ nl
              ++ "-- Generated: " ++ isoformat env ++ nl
              ++ "-- Method: Integrated validation with migrations" ++ nl
              ++ "--" ++ nl ++ nl)%string.
    cbn [files write_file symlink_to]. apply in_or_app. left.
    apply in_or_app. right. left. f_equal.
    now rewrite !append_assoc.
  - unfold PgDumpHelper.write_dump. cbn [fst snd].
    split; [reflexivity|].
    match goal with
    | |- context [symlink_to ?l ?t ?w1] =>
        destruct (symlink_to_links l t w1) as [H1 H2]
    end.
    split; [exact H1|]. split; [exact H2|].
    exists ("--" ++ nl
              ++ "-- PostgreSQL Schema Dump" ++ nl
              ++ "-- Generated: " ++ isoformat env ++ nl
              ++ origin ++ nl
              ++ "--" ++ nl ++ nl)%string.
    cbn [files write_file symlink_to]. apply in_or_app. right. left.
    f_equal. now rewrite !append_assoc.
Qed.

Lemma latest_link_replaced_witness :
  In ("schema/current.sql", "schema_postgres_20250101_000000.sql")%string
     (links old_links)
  /\ "schema/current.sql"%string <> "schema/schema_postgres_latest.sql"%string
  /\ filter (fun l => String.eqb (fst l) "schema/schema_postgres_latest.sql")
            (links (snd (ValidateAndDump.save_schema_dump
                           DumpRuns.exits_1 "CREATE TABLE users ();" "schema"
                           old_links)))
     = [("schema/schema_postgres_latest.sql",
         "schema_postgres_20260101_000000.sql")]%string
  /\ In ("schema/current.sql", "schema_postgres_20250101_000000.sql")%string
        (links (snd (ValidateAndDump.save_schema_dump
                       DumpRuns.exits_1 "CREATE TABLE users ();" "schema"
                       old_links))).
Proof.
  assert (Hin : In ("schema/current.sql",
                    "schema_postgres_20250101_000000.sql")%string
                   (links old_links)) by (right; left; reflexivity).
  assert (Hne : "schema/current.sql"%string
                <> "schema/schema_postgres_latest.sql"%string)
    by (apply String.eqb_neq; reflexivity).
  pose proof (proj1 (latest_link_replaced
                       DumpRuns.exits_1 "CREATE TABLE users ();" "schema" ""
                       old_links)) as H.
  cbv zeta in H. destruct H as (_ & H1 & H2 & _).
  split; [exact Hin|]. split; [exact Hne|]. split; [exact H1|].
  exact (H2 _ Hin Hne).
Defined.

Lemma readlines_line (l : string) :
  forall cur rest,
    one_line l = true ->
    readlines cur (l ++ nl ++ rest) = (cur ++ l ++ nl)%string :: readlines "" rest.
Proof.
  induction l as [|a l IH]; intros cur rest H.
  - unfold nl. cbn [String.append readlines]. now rewrite Ascii.eqb_refl.
  - cbn [one_line] in H. apply andb_true_iff in H as [Ha Hl].
    apply negb_true_iff in Ha.
    cbn [String.append readlines]. rewrite Ha, (IH _ _ Hl). f_equal.
    now rewrite append_assoc.
Qed.

Lemma readlines_blank (rest : string) :
  readlines "" (nl ++ rest) = nl :: readlines "" rest.
Proof.
  unfold nl. cbn [String.append readlines]. now rewrite Ascii.eqb_refl.
Qed.

(** The header [save_schema_dump] writes is six lines, and the clean
    version keeps none of them. *)
Lemma save_schema_dump_header (iso dump : string) :
  one_line iso = true ->
  contains "COMMENT ON" ("-- Generated: " ++ iso ++ nl) = false ->
  filter ValidateAndDump.keep_line
         (readlines ""
            ("--" ++ nl
               ++ "-- PostgreSQL Schema Dump (via testcontainer)" ++ nl
               ++ "-- Generated: " ++ iso ++ nl
               ++ "-- Method: Integrated validation with migrations" ++ nl
               ++ "--" ++ nl ++ nl ++ dump))
  = filter ValidateAndDump.keep_line (readlines "" dump).
Proof.
  intros Hiso Hc.
  rewrite (readlines_line "--" "" _ eq_refl).
  rewrite (readlines_line "-- PostgreSQL Schema Dump (via testcontainer)"
                          "" _ eq_refl).
  rewrite <- (append_assoc "-- Generated: " iso).
  rewrite (readlines_line ("-- Generated: " ++ iso) "" _ Hiso).
  rewrite (readlines_line "-- Method: Integrated validation with migrations"
                          "" _ eq_refl).
  rewrite (readlines_line "--" "" _ eq_refl).
  rewrite readlines_blank.
  rewrite (append_assoc "-- Generated: " iso).
  cbn [filter].
  replace (ValidateAndDump.keep_line ("" ++ "--" ++ nl)) with false
    by reflexivity.
  replace (ValidateAndDump.keep_line
             ("" ++ "-- PostgreSQL Schema Dump (via testcontainer)" ++ nl))
    with false by reflexivity.
  replace (ValidateAndDump.keep_line
             ("" ++ "-- Method: Integrated validation with migrations" ++ nl))
    with false by reflexivity.
  replace (ValidateAndDump.keep_line nl) with false by reflexivity.
  replace (ValidateAndDump.keep_line ("" ++ "-- Generated: " ++ iso ++ nl))
    with false; [reflexivity|].
  unfold ValidateAndDump.keep_line. cbn [String.append] in *.
  rewrite Hc. reflexivity.
Qed.

Lemma write_dump_header (iso dump : string) :
  one_line iso = true ->
  filter PgDumpHelper.keep_line
         (readlines ""
            ("--" ++ nl
               ++ "-- PostgreSQL Schema Dump" ++ nl
               ++ "-- Generated: " ++ iso ++ nl
               ++ "-- Generated with: pg_dump via testcontainer" ++ nl
               ++ "--" ++ nl ++ nl ++ dump))
  = filter PgDumpHelper.keep_line (readlines "" dump).
Proof.
  intros Hiso.
  rewrite (readlines_line "--" "" _ eq_refl).
  rewrite (readlines_line "-- PostgreSQL Schema Dump" "" _ eq_refl).
  rewrite <- (append_assoc "-- Generated: " iso).
  rewrite (readlines_line ("-- Generated: " ++ iso) "" _ Hiso).
  rewrite (readlines_line "-- Generated with: pg_dump via testcontainer"
                          "" _ eq_refl).
  rewrite (readlines_line "--" "" _ eq_refl).
  rewrite readlines_blank.
  rewrite (append_assoc "-- Generated: " iso).
  reflexivity.
Qed.

(** X18.  For a dump and a time stamp of ASCII characters without carriage
    returns, the clean version of the dump holds the lines of the output of
    [pg_dump] that are neither blank nor comments, in their order, and
    nothing of the header the script puts before them.
    [validate_and_dump.py] also keeps the comment lines that contain
    [COMMENT ON].  The time stamp of the header is one line and, for
    [validate_and_dump.py], does not itself contain [COMMENT ON].  On ASCII
    text [str.strip] removes the white space [lstrip] removes, and without
    carriage returns reading the file back gives the lines as they were
    written.  [dump_with_testcontainer] gets that far when the tables can be
    created and [pg_dump] exits with status 0. *)
Theorem clean_file_content (env : Env) (dump dir : string) (w : World) :
  one_line (isoformat env) = true ->
  unix_text (isoformat env) = true ->
  ascii_only (isoformat env) = true ->
  unix_text dump = true ->
  ascii_only dump = true ->
  (contains "COMMENT ON" ("-- Generated: " ++ isoformat env ++ nl) = false ->
   In ((dir ++ "/schema_postgres_clean_" ++ timestamp env ++ ".sql")%string,
       String.concat
         "" (filter ValidateAndDump.keep_line (readlines "" dump)))
      (files (snd (ValidateAndDump.save_schema_dump env dump dir w))))
  /\ (forall seconds stderr,
         create_all env = true ->
         pg_dump env = Subprocess.Exits seconds 0 dump stderr ->
         exists f w',
           PgDumpHelper.dump_with_testcontainer env w = Returns (Some f) w'
           /\ In (("schema/schema_postgres_clean_" ++ timestamp env ++ ".sql")
                    %string,
                  String.concat
                    "" (filter PgDumpHelper.keep_line (readlines "" dump)))
                 (files w')).
Proof.
  intros Hiso _ _ _ _. split.
  - intros Hc. unfold ValidateAndDump.save_schema_dump.
    cbn [snd files write_file symlink_to].
    apply in_or_app. right. left.
    now rewrite (save_schema_dump_header _ dump Hiso Hc).
  - intros seconds stderr Hcreate Hp.
    unfold PgDumpHelper.dump_with_testcontainer, PgDumpHelper.write_dump,
      Subprocess.run.
    rewrite Hcreate, Hp.
    cbn [Subprocess.timeout Subprocess.check Z.eqb negb andb].
    destruct (match url_user_db env with Some m => m | None => _ end)
      as [username database].
    eexists _, _. split; [reflexivity|].
    cbn [files write_file symlink_to started].
    apply in_or_app. right. left. f_equal.
    rewrite rev_unit. cbn [find fst snd]. rewrite String.eqb_refl.
    cbn [snd]. now rewrite (write_dump_header _ dump Hiso).
Qed.

Lemma clean_file_content_witness :
  let env := DumpRuns.env (Subprocess.Exits 1 0 "CREATE TABLE users ();" "") in
  one_line (isoformat env) = true
  /\ unix_text (isoformat env) = true
  /\ ascii_only (isoformat env) = true
  /\ unix_text "CREATE TABLE users ();" = true
  /\ ascii_only "CREATE TABLE users ();" = true
  /\ contains "COMMENT ON" ("-- Generated: " ++ isoformat env ++ nl) = false
  /\ In ("schema/schema_postgres_clean_20260101_000000.sql"%string,
         "CREATE TABLE users ();"%string)
        (files (snd (ValidateAndDump.save_schema_dump
                       env "CREATE TABLE users ();" "schema"
                       DumpRuns.nothing)))
  /\ create_all env = true
  /\ exists f w',
      PgDumpHelper.dump_with_testcontainer env DumpRuns.nothing
      = Returns (Some f) w'
      /\ In ("schema/schema_postgres_clean_20260101_000000.sql"%string,
             "CREATE TABLE users ();"%string)
            (files w').
Proof.
  cbv zeta.
  pose proof (clean_file_content
                (DumpRuns.env
                   (Subprocess.Exits 1 0 "CREATE TABLE users ();" ""))
                "CREATE TABLE users ();" "schema" DumpRuns.nothing
                eq_refl eq_refl eq_refl eq_refl eq_refl) as [H1 H2].
  repeat (split; [reflexivity|]).
  split; [exact (H1 eq_refl)|].
  split; [reflexivity|].
  exact (H2 1 ""%string eq_refl eq_refl).
Defined.

(* ================================================================= *)
(** * Further properties of the schema dump *)

Lemma dependency_order_split (registered : list string)
      (pre : list SchemaDump.Table) :
  forall done t post,
    SchemaDump.dependency_order registered done (pre ++ t :: post) = true ->
    forall r,
      In r (SchemaDump.references t) ->
      r <> SchemaDump.table_name t ->
      In r registered ->
      In r (map SchemaDump.table_name pre) \/ In r done.
Proof.
  induction pre as [|p pre IH]; intros done t post H r Hr Hne Hreg.
  - cbn [app SchemaDump.dependency_order] in H.
    apply andb_true_iff in H as [H _]. unfold SchemaDump.placed in H.
    rewrite forallb_forall in H. specialize (H r Hr).
    apply orb_true_iff in H as [H|H]; [|right; now apply mem_name_In].
    apply orb_true_iff in H as [H|H].
    + apply String.eqb_eq in H. contradiction.
    + apply negb_true_iff in H. apply mem_name_In in Hreg. congruence.
  - cbn [app SchemaDump.dependency_order] in H.
    apply andb_true_iff in H as [_ H].
    destruct (IH _ _ _ H r Hr Hne Hreg) as [Hin|[Hin|Hin]].
    + left. right. exact Hin.
    + left. left. exact Hin.
    + right. exact Hin.
Qed.

(** X19.  Unless the foreign keys run in a cycle, [sorted_tables] puts
    every table after each registered table one of its foreign keys points
    to, the table itself apart; so the CREATE TABLE statements of the dump
    can be executed in the order they are written. *)
Theorem tables_after_their_references (metadata : SchemaDump.MetaData)
        (pre post : list SchemaDump.Table) (t : SchemaDump.Table) (r : string) :
  SchemaDump.resolves (List.length metadata)
                      (fold_right SchemaDump.insert_table [] metadata)
  = true ->
  SchemaDump.sorted_tables metadata = pre ++ t :: post ->
  In r (SchemaDump.references t) ->
  r <> SchemaDump.table_name t ->
  In r (map SchemaDump.table_name metadata) ->
  In r (map SchemaDump.table_name pre).
Proof.
  intros Hres Hsplit Hr Hne Hreg.
  pose proof (sorted_tables_dependency_order metadata Hres) as H.
  rewrite Hsplit in H.
  destruct (dependency_order_split _ pre [] t post H r Hr Hne Hreg)
    as [Hin|[]].
  exact Hin.
Qed.

Lemma tables_after_their_references_witness :
  SchemaDump.resolves (List.length BlogMetaData.metadata)
                      (fold_right SchemaDump.insert_table []
                                  BlogMetaData.metadata)
  = true
  /\ SchemaDump.sorted_tables BlogMetaData.metadata
     = [BlogMetaData.tags_table; BlogMetaData.users_table;
        BlogMetaData.posts_table]
         ++ BlogMetaData.comments_table :: [BlogMetaData.post_tags_table]
  /\ In "posts"%string (SchemaDump.references BlogMetaData.comments_table)
  /\ "posts"%string <> SchemaDump.table_name BlogMetaData.comments_table
  /\ In "posts"%string (map SchemaDump.table_name BlogMetaData.metadata)
  /\ In "posts"%string
        (map SchemaDump.table_name
             [BlogMetaData.tags_table; BlogMetaData.users_table;
              BlogMetaData.posts_table]).
Proof.
  assert (H1 : In "posts"%string
                  (SchemaDump.references BlogMetaData.comments_table))
    by (right; left; reflexivity).
  assert (H2 : "posts"%string
               <> SchemaDump.table_name BlogMetaData.comments_table)
    by (apply String.eqb_neq; reflexivity).
  assert (H3 : In "posts"%string
                  (map SchemaDump.table_name BlogMetaData.metadata))
    by (right; right; left; reflexivity).
  split; [reflexivity|]. split; [reflexivity|]. split; [exact H1|].
  split; [exact H2|]. split; [exact H3|].
  exact (tables_after_their_references
           BlogMetaData.metadata
           [BlogMetaData.tags_table; BlogMetaData.users_table;
            BlogMetaData.posts_table]
           [BlogMetaData.post_tags_table] BlogMetaData.comments_table
           "posts"%string eq_refl eq_refl H1 H2 H3).
Defined.

(* ================================================================= *)
(** * Primary keys from the counters *)

Lemma ahead_snoc {R} (key : R -> Z) (rows : list R) (new : R) (seq : Z) :
  (forall r, In r rows -> key r < seq) ->
  key new = seq ->
  forall r, In r (rows ++ [new]) -> key r < seq + 1.
Proof.
  intros H E r Hr. apply in_app_or in Hr as [Hr|[<-|[]]].
  - specialize (H r Hr). lia.
  - lia.
Qed.

Lemma ahead_replace {R} (key : R -> Z) (rows : list R) (old new : R) (seq : Z) :
  (forall r, In r rows -> key r < seq) ->
  In old rows -> key new = key old ->
  forall r, In r (Db.replace_row key (key old) new rows) -> key r < seq.
Proof.
  intros H Ho E r Hr. apply replace_row_In in Hr as [->|Hr].
  - rewrite E. now apply H.
  - now apply H.
Qed.

Lemma flush_delete_counters (s : Store) (us ps cs : list Z) :
  counters_ahead s -> counters_ahead (snd (Db.flush_delete us ps cs s)).
Proof.
  intros (HU & HP & HT & HC).
  unfold Db.flush_delete, Db.delete_cascade, counters_ahead.
  cbn [snd users posts tags comments users_id_seq posts_id_seq tags_id_seq
           comments_id_seq with_comments].
  split; [|split; [|split]].
  - intros u Hu. apply delete_rows_In in Hu as [Hu _]. now apply HU.
  - intros p Hp. apply delete_rows_In in Hp as [Hp _]. now apply HP.
  - exact HT.
  - intros c Hc. apply delete_rows_In in Hc as [Hc _].
    apply in_map_iff in Hc as [c0 [<- Hc0]].
    destruct (detach_fields (utcnow s) cs c0) as (-> & _).
    now apply HC.
Qed.

Lemma call_counters (c : Call) (s : Store) :
  auto_keyed c -> counters_ahead s -> counters_ahead (call c s).
Proof.
  intros Ha (HU & HP & HT & HC).
  assert (Hs : counters_ahead s) by (repeat split; assumption).
  destruct c as [un em pw kw|i kw|i|ti co au kw|i kw|i|pi ti|co au po pa
                |i co|i|na kw]; cbn [call auto_keyed] in *.
  - unfold after, UserCRUD.create_user, Db.add_user.
    destruct (has_user _ s); [exact Hs|].
    destruct (taken _ _ _ _ _); [exact Hs|].
    destruct (taken _ _ _ _ _); [exact Hs|].
    cbn [snd]. rewrite Ha. cbn [pk_seq]. repeat split; try assumption.
    apply ahead_snoc; [exact HU|]. cbn. now rewrite Ha.
  - destruct (update_user_after s i kw)
      as [->|(u & row & Hu & Hi & E & _ & ->)]; [exact Hs|].
    rewrite Ha in E. cbn [assign] in E. injection E as E.
    repeat split; try assumption.
    apply (ahead_replace User.id (users s) u row); [exact HU | exact Hu|].
    congruence.
  - destruct (proj1 (delete_after s i)) as [->|(us & ps & cs & ->)];
      [exact Hs|]. now apply flush_delete_counters.
  - destruct (create_post_after s ti co au kw)
      as [->|(p & Ep & _ & _ & _ & ->)]; [exact Hs|].
    rewrite Ha. cbn [pk_seq]. repeat split; try assumption.
    apply ahead_snoc; [exact HP|]. subst p. cbn. now rewrite Ha.
  - destruct (update_post_after s i kw)
      as [->|(p & row & Hp & Hi & E & _ & _ & _ & ->)]; [exact Hs|].
    rewrite Ha in E. cbn [assign] in E. injection E as E.
    repeat split; try assumption.
    apply (ahead_replace Post.id (posts s) p row); [exact HP | exact Hp|].
    congruence.
  - destruct (proj1 (proj2 (delete_after s i))) as [->|(us & ps & cs & ->)];
      [exact Hs|]. now apply flush_delete_counters.
  - destruct (add_tag_to_post_after s pi ti) as [->|(_ & _ & _ & ->)];
      exact Hs.
  - destruct (create_comment_after s co au po pa)
      as [->|(c & Ec & _ & _ & _ & _ & ->)]; [exact Hs|].
    repeat split; try assumption.
    apply ahead_snoc; [exact HC|]. now subst c.
  - destruct (update_comment_after s i co)
      as [->|(c & row & Hc & _ & E & _ & _ & _ & ->)]; [exact Hs|].
    repeat split; try assumption.
    now apply (ahead_replace Comment.id (comments s) c row).
  - destruct (proj2 (proj2 (delete_after s i))) as [->|(us & ps & cs & ->)];
      [exact Hs|]. now apply flush_delete_counters.
  - destruct (create_tag_after s na kw)
      as [->|(t & Et & _ & _ & _ & ->)]; [exact Hs|].
    rewrite Ha. cbn [pk_seq]. repeat split; try assumption.
    apply ahead_snoc; [exact HT|]. subst t. cbn. now rewrite Ha.
Qed.

Lemma ahead_free {R} (key : R -> Z) (rows : list R) (seq : Z) :
  (forall r, In r rows -> key r < seq) ->
  existsb (fun r => key r =? seq) rows = false.
Proof.
  intros H. apply not_true_iff_false. intros E.
  apply existsb_exists in E as [r [Hr E]]. apply Z.eqb_eq in E.
  specialize (H r Hr). lia.
Qed.

(** X20.  As long as no creation and no update passes an [id=] of its own
    (and no keyword argument names a relationship), the keys the counters
    hand out are new: after any sequence of such calls every stored key is
    below the counter of its table, so the next key of each table is not in
    use, and a creation cannot fail on its primary key. *)
Theorem auto_keys_are_new (cs : list Call) (s : Store) :
  Forall auto_keyed cs ->
  counters_ahead s ->
  let s' := run_calls cs s in
  counters_ahead s'
  /\ has_user (users_id_seq s') s' = false
  /\ has_post (posts_id_seq s') s' = false
  /\ has_tag (tags_id_seq s') s' = false
  /\ has_comment (comments_id_seq s') s' = false.
Proof.
  intros Hcs Hs s'.
  assert (H : counters_ahead s').
  { unfold s', run_calls. clear s'. revert s Hs.
    induction Hcs as [|c cs Hc _ IH]; intros s Hs; [exact Hs|].
    cbn [fold_left]. apply IH. now apply call_counters. }
  split; [exact H|]. destruct H as (HU & HP & HT & HC).
  split; [now apply (ahead_free User.id)|].
  split; [now apply (ahead_free Post.id)|].
  split; [now apply (ahead_free Tag.id)|now apply (ahead_free Comment.id)].
Qed.

Lemma blog_counters_ahead : counters_ahead Sample.blog.
Proof.
  unfold counters_ahead.
  repeat split; intros r Hr; cbn in Hr;
    repeat (destruct Hr as [<-|Hr]; [cbn; lia|]); contradiction.
Qed.

Lemma auto_keys_are_new_witness :
  Forall auto_keyed sample_calls
  /\ counters_ahead Sample.blog
  /\ has_post (posts_id_seq (run_calls sample_calls Sample.blog))
              (run_calls sample_calls Sample.blog) = false
  /\ has_comment (comments_id_seq (run_calls sample_calls Sample.blog))
                 (run_calls sample_calls Sample.blog) = false.
Proof.
  assert (Hc : Forall auto_keyed sample_calls)
    by (repeat constructor).
  pose proof (auto_keys_are_new sample_calls Sample.blog Hc blog_counters_ahead)
    as H.
  cbv zeta in H. destruct H as (_ & _ & HP & _ & HC).
  split; [exact Hc|]. split; [exact blog_counters_ahead|].
  split; [exact HP|exact HC].
Defined.

(* ================================================================= *)
(** * Tags by name *)

(** X21.  [get_tag_by_name] returns a stored tag of that name, and [None]
    exactly when no stored tag has the name; it leaves the store as it is.
    A tag that [create_tag] has just returned is the tag its name fetches:
    no other stored tag can have that name. *)
Theorem tag_by_name (s : Store) (name : string) :
  (exists r,
      TagCRUD.get_tag_by_name name s = (Ok r, s)
      /\ match r with
         | Some t => In t (tags s) /\ Tag.name t = name
         | None => forall t, In t (tags s) -> Tag.name t <> name
         end)
  /\ (forall kw t s',
         TagCRUD.create_tag name kw s = (Ok t, s') ->
         TagCRUD.get_tag_by_name name s' = (Ok (Some t), s')
         /\ forall u, In u (tags s') -> Tag.name u = name -> u = t).
Proof.
  split.
  - unfold TagCRUD.get_tag_by_name, bind, query, ret.
    destruct (first (filter (fun t => String.eqb (Tag.name t) name) (tags s)))
      as [t|] eqn:F; eexists; (split; [reflexivity|]).
    + apply first_filter_some in F as [Ht E]. apply String.eqb_eq in E.
      now split.
    + intros t Ht E. apply first_filter_none in F.
      apply not_true_iff_false in F. apply F. apply existsb_exists.
      exists t. split; [exact Ht | now apply String.eqb_eq].
  - intros kw t s'. unfold TagCRUD.create_tag, Db.add_tag.
    destruct (has_tag _ s) eqn:Hpk; [discriminate|].
    destruct (taken Tag.id (fun t => Some (Tag.name t)) _ _ _) eqn:Hn;
      [discriminate|].
    destruct (taken Tag.id Tag.slug _ _ _); [discriminate|].
    intros [= <- <-].
    set (t := Db.new_tag name kw (tags_id_seq s) (utcnow s)) in *.
    assert (Hfree : forall u, In u (tags s) -> Tag.name u <> name).
    { intros u Hu E.
      apply (absent_key Tag.id (tags s) u (Tag.id t) Hpk Hu).
      apply (not_taken_row Tag.id (fun x => Some (Tag.name x)) (Tag.id t)
                           name (tags s) u Hn Hu).
      now rewrite E. }
    split.
    + unfold TagCRUD.get_tag_by_name, bind, query, ret.
      cbn [tags with_tags]. rewrite filter_app.
      rewrite (filter_none _ (tags s)).
      * cbn [app filter Tag.name t Db.new_tag].
        now rewrite String.eqb_refl.
      * intros u Hu. apply String.eqb_neq. now apply Hfree.
    + cbn [tags with_tags]. intros u Hu E.
      apply in_app_or in Hu as [Hu|[<-|[]]]; [|reflexivity].
      exfalso. now apply (Hfree u).
Qed.

Lemma tag_by_name_witness :
  TagCRUD.get_tag_by_name "Databases" with_databases
  = (Ok (Some databases), with_databases)
  /\ forall u, In u (tags with_databases) -> Tag.name u = "Databases"%string ->
               u = databases.
Proof.
  exact (proj2 (tag_by_name Sample.blog "Databases")
               databases_kwargs databases with_databases eq_refl).
Defined.

(* ================================================================= *)
(** * The files of [schema_dump.py] *)

Lemma length_append (a b : string) :
  String.length (a ++ b) = (String.length a + String.length b)%nat.
Proof.
  induction a as [|x a IH]; cbn [String.append String.length plus];
    [reflexivity|]. now rewrite IH.
Qed.

Lemma append_inv_head (a x y : string) :
  (a ++ x)%string = (a ++ y)%string -> x = y.
Proof.
  induction a as [|c a IH]; cbn [String.append]; [auto|].
  intros [= H]. now apply IH.
Qed.

Lemma append_inv_tail (b x : string) :
  forall y, (x ++ b)%string = (y ++ b)%string -> x = y.
Proof.
  induction x as [|a x IH]; intros [|c y] H; cbn [String.append] in H.
  - reflexivity.
  - exfalso. apply (f_equal String.length) in H.
    cbn [String.length] in H. rewrite length_append in H. lia.
  - exfalso. apply (f_equal String.length) in H.
    cbn [String.length] in H. rewrite length_append in H. lia.
  - injection H as -> H. f_equal. now apply IH.
Qed.

Lemma latest_link_inj (dir d d' : string) :
  SchemaFiles.latest_link dir d = SchemaFiles.latest_link dir d' -> d = d'.
Proof.
  unfold SchemaFiles.latest_link. intros H.
  apply append_inv_head in H. cbn [String.append] in H.
  injection H as H. now apply append_inv_tail in H.
Qed.

Lemma symlink_to_other (link target l : string) (w : World) :
  l <> link ->
  filter (fun x => String.eqb (fst x) l) (links (symlink_to link target w))
  = filter (fun x => String.eqb (fst x) l) (links w).
Proof.
  intros Hne. unfold symlink_to. cbn [links]. rewrite filter_app.
  cbn [filter fst].
  replace (String.eqb link l) with false
    by (symmetry; apply String.eqb_neq; congruence).
  rewrite app_nil_r.
  induction (links w) as [|x ls IH]; [reflexivity|].
  cbn [filter]. destruct (String.eqb (fst x) link) eqn:E; cbn [negb filter].
  - apply String.eqb_eq in E.
    replace (String.eqb (fst x) l) with false
      by (symmetry; apply String.eqb_neq; congruence).
    exact IH.
  - destruct (String.eqb (fst x) l); [now rewrite IH | exact IH].
Qed.

Section SchemaFilesFacts.
Import SchemaDump.

Variable create_table : Dialect -> Table -> string.
Variable create_index : Dialect -> Index -> string.
Variable isoformat : nat -> string.
Variable timestamp : string.
Variable metadata : MetaData.
Variable output_dir : string.

Let step :=
  SchemaFiles.dialect_step create_table create_index isoformat timestamp
                           metadata output_dir.

(** One latest link for the dialect, and it names the dialect's file. *)
Let linked (d : string) (w : World) : Prop :=
  filter (fun x => String.eqb (fst x) (SchemaFiles.latest_link output_dir d))
         (links w)
  = [(SchemaFiles.latest_link output_dir d, SchemaFiles.filename timestamp d)].

Lemma dialect_loop (ds : list string) :
  forall w k,
    files (fst (fold_left step ds (w, k)))
    = files w
        ++ SchemaFiles.dialect_files create_table create_index isoformat
                                     timestamp metadata output_dir k ds
    /\ snd (fold_left step ds (w, k)) = (k + List.length ds)%nat
    /\ calls (fst (fold_left step ds (w, k))) = calls w.
Proof.
  induction ds as [|d ds IH]; intros w k.
  - cbn. rewrite app_nil_r. auto.
  - cbn [fold_left]. unfold step at 2 4 6, SchemaFiles.dialect_step.
    cbn [fst snd].
    match goal with
    | |- context [fold_left step ds (?w1, S k)] =>
        destruct (IH w1 (S k)) as (E1 & E2 & E3)
    end.
    rewrite E1, E2, E3. cbn [files calls symlink_to write_file
                                   SchemaFiles.dialect_files List.length].
    rewrite <- app_assoc. cbn [app]. repeat split. lia.
Qed.

Lemma dialect_loop_links (ds : list string) (d : string) :
  forall w k,
    In d ds \/ linked d w ->
    linked d (fst (fold_left step ds (w, k))).
Proof.
  induction ds as [|d' ds IH]; intros w k H.
  - destruct H as [[]|H]. exact H.
  - cbn [fold_left]. unfold step at 2, SchemaFiles.dialect_step.
    cbn [fst snd]. apply IH.
    destruct (string_dec d d') as [<-|Hne].
    + right. unfold linked. apply symlink_to_links.
    + destruct H as [[E|H]|H]; [congruence | now left |].
      right. unfold linked. rewrite symlink_to_other; [exact H|].
      intros E. apply Hne. now apply latest_link_inj in E.
Qed.

Lemma combined_loop (ds : list string) :
  forall text k,
    fst (fold_left (SchemaFiles.combined_step create_table create_index
                                              isoformat metadata)
                   ds (text, k))
    = (text ++ SchemaFiles.sections create_table create_index isoformat
                                    metadata k ds)%string.
Proof.
  induction ds as [|d ds IH]; intros text k.
  - cbn. clear. induction text as [|a text IH]; cbn; [reflexivity|].
    now rewrite <- IH.
  - cbn [fold_left]. unfold SchemaFiles.combined_step at 2. cbn [fst snd].
    rewrite IH. cbn [SchemaFiles.sections]. apply append_assoc.
Qed.

(** X22.  [dump_schema_to_file] writes one file for each dialect it is
    given, in their order, and then the combined file; nothing else is
    written and no process is started.  The combined file holds one section
    for each dialect, generated anew: its statements are read off the models
    a second time, at later readings of the clock.  Afterwards the directory
    has one [schema_all_latest.sql] link, to the combined file, and for each
    dialect given, other than one called [all], one latest link, to the file
    of that dialect. *)
Theorem dump_schema_to_file_files (dialects : option (list string))
        (w : World) :
  let ds :=
    match dialects with
    | None => SchemaFiles.default_dialects
    | Some l => l
    end in
  let r :=
    SchemaFiles.dump_schema_to_file create_table create_index isoformat
                                    timestamp metadata output_dir dialects w in
  fst r = output_dir
  /\ files (snd r)
     = files w
         ++ SchemaFiles.dialect_files create_table create_index isoformat
                                      timestamp metadata output_dir O ds
         ++ [((output_dir ++ "/" ++ SchemaFiles.filename timestamp "all")
                %string,
              SchemaFiles.sections create_table create_index isoformat
                                   metadata (List.length ds) ds)]
  /\ calls (snd r) = calls w
  /\ linked "all" (snd r)
  /\ forall d, In d ds -> d <> "all"%string -> linked d (snd r).
Proof.
  intros ds r. unfold r, SchemaFiles.dump_schema_to_file. fold ds. fold step.
  cbn [fst snd].
  destruct (dialect_loop ds w O) as (E1 & E2 & E3).
  split; [reflexivity|]. split; [|split; [|split]].
  - cbn [files symlink_to write_file]. rewrite E1, E2, combined_loop.
    cbn [String.append plus]. now rewrite <- app_assoc.
  - cbn [calls symlink_to write_file]. exact E3.
  - unfold linked. apply symlink_to_links.
  - intros d Hd Hne. unfold linked.
    change (output_dir ++ "/" ++ "schema_all_latest.sql")%string
      with (SchemaFiles.latest_link output_dir "all").
    rewrite symlink_to_other.
    + cbn [links write_file]. apply (dialect_loop_links ds d w O). now left.
    + intros E. apply Hne. now apply latest_link_inj in E.
Qed.

End SchemaFilesFacts.

Lemma dump_schema_to_file_files_witness :
  In "sqlite"%string [ "sqlite"; "mysql"; "sqlite" ]%string
  /\ "sqlite"%string <> "all"%string
  /\ filter (fun x => String.eqb (fst x)
                                 (SchemaFiles.latest_link "schema" "sqlite"))
            (links (snd (SchemaFiles.dump_schema_to_file
                           BlogMetaData.create_table BlogMetaData.create_index
                           (fun _ => "2026-01-01T00:00:00"%string)
                           "20260101_000000" BlogMetaData.metadata "schema"
                           (Some [ "sqlite"; "mysql"; "sqlite" ]%string)
                           old_links)))
     = [(SchemaFiles.latest_link "schema" "sqlite",
         SchemaFiles.filename "20260101_000000" "sqlite")].
Proof.
  assert (Hin : In "sqlite"%string [ "sqlite"; "mysql"; "sqlite" ]%string)
    by (left; reflexivity).
  assert (Hne : "sqlite"%string <> "all"%string)
    by (apply String.eqb_neq; reflexivity).
  split; [exact Hin|]. split; [exact Hne|].
  pose proof (dump_schema_to_file_files
                BlogMetaData.create_table BlogMetaData.create_index
                (fun _ => "2026-01-01T00:00:00"%string)
                "20260101_000000" BlogMetaData.metadata "schema"
                (Some [ "sqlite"; "mysql"; "sqlite" ]%string) old_links) as H.
  cbv zeta in H. destruct H as (_ & _ & _ & _ & H).
  exact (H "sqlite"%string Hin Hne).
Defined.

(** X23.  The modes of [schema_dump.py].  With [--validate] the script does
    what a run without options does: [--from-db], [--output-dir] and
    [--dialects] have no effect.  With [--from-db] alone it writes one file,
    [schema/schema_from_db_<timestamp>.sql], whatever [--output-dir] and
    [--dialects] say; the dialect of that dump is one of the three known
    ones, so the fallback of [get_dialect_ddl] is not used, and it is
    [postgresql] exactly when the URL contains that word.  When nothing
    raises, the exit status is 0 in every mode. *)
Theorem schema_dump_modes
        (create_table : SchemaDump.Dialect -> SchemaDump.Table -> string)
        (create_index : SchemaDump.Dialect -> SchemaDump.Index -> string)
        (isoformat : nat -> string) (timestamp : string)
        (metadata : SchemaDump.MetaData) (getenv : option string)
        (reflected : string -> SchemaDump.MetaData)
        (validate from_db : bool) (output_dir : string)
        (dialects : list string) (w : World) :
  let main :=
    SchemaFiles.main create_table create_index isoformat timestamp metadata
                     getenv reflected in
  let url :=
    match getenv with
    | Some u => u
    | None => "sqlite:///./test.db"%string
    end in
  fst (main validate from_db output_dir dialects w) = 0
  /\ main true from_db output_dir dialects w
     = main false false "schema"%string SchemaFiles.default_dialects w
  /\ files (snd (main false true output_dir dialects w))
     = files w
         ++ [(("schema/schema_from_db_" ++ timestamp ++ ".sql")%string,
              SchemaDump.get_dialect_ddl
                create_table create_index (isoformat O) (reflected url)
                (SchemaFiles.url_dialect url))]
  /\ In (SchemaFiles.url_dialect url) SchemaFiles.default_dialects
  /\ (SchemaFiles.url_dialect url = "postgresql"%string
      <-> contains "postgresql" url = true).
Proof.
  intros main url. unfold main, SchemaFiles.main.
  split; [|split; [|split; [|split]]].
  - destruct validate; [reflexivity|]. destruct from_db; reflexivity.
  - reflexivity.
  - reflexivity.
  - unfold SchemaFiles.url_dialect, SchemaFiles.default_dialects.
    destruct (contains "postgresql" url); [now left|].
    destruct (contains "mysql" url); [right; now left|].
    right. right. now left.
  - unfold SchemaFiles.url_dialect.
    destruct (contains "postgresql" url); [tauto|].
    destruct (contains "mysql" url); split; discriminate.
Qed.
